(** * hv-node / xray-agent: the user-provisioning reconciliation engine

    A shallow embedding of the agent's core
    ([app/services/xray_manager.py], [app/services/user_cache.py],
    [app/services/xray_grpc_client.py], [app/services/xray_api.py] and the
    command handler of [app/api/agent.py]) together with the properties the
    specification states about it.

    Python code that mutates the config file, the module-level [user_cache]
    and talks to docker, gRPC and the clock is written in a state-and-exception
    monad over a [World]; everything outside the process (clock, docker,
    gRPC endpoint, file-system faults, the Reality parameter store, the
    [uuid] parser) is an oracle of the environment [Env], indexed by the
    number of outside interactions made so far, so that it may answer
    differently at every call.

    The last sections embed the code around the engine: the retry helper
    ([app/utils/retry.py]), the Core API client
    ([app/services/core_api_client.py]), the API key check
    ([app/core/security.py]) and the Reality parameter store itself
    ([app/core/reality_config.py]), each over its own small state. *)

From Stdlib Require Import String List ZArith Bool Lia ListSet PeanoNat.
From Stdlib Require QArith.
Import ListNotations.
Local Open Scope string_scope.
Local Open Scope Z_scope.

(* ===================================================================== *)
(** ** The persisted configuration (JSON document) *)
(* ===================================================================== *)

(** The engine reads and writes only [inbounds[*].protocol], [.tag],
    [.settings.clients[*].{id,email,flow}] and
    [.streamSettings.realitySettings.maxTimeDiff]; the records keep exactly
    those keys.  A key that may be missing from the JSON object is an
    [option]: [d.get(k)] is the field itself, [d.get(k, dflt)] falls back
    on [None]. *)

Record Client := mkClient {
  c_id    : option string;
  c_email : option string;
  c_flow  : option string
}.

Record Settings := mkSettings {
  clients : option (list Client)
}.

Record Inbound := mkInbound {
  i_tag         : option string;
  i_protocol    : option string;
  i_settings    : option Settings;
  i_maxTimeDiff : option Z
}.

Record Config := mkConfig {
  inbounds : list Inbound
}.

(** [x == "lit"] for a value obtained with [dict.get]. *)
Definition get_eqb (x : option string) (s : string) : bool :=
  match x with
  | Some y => String.eqb y s
  | None => false
  end.

(** Truthiness of an optional string ([None] and [""] are falsy). *)
Definition truthy (x : option string) : bool :=
  match x with
  | Some s => negb (String.eqb s "")
  | None => false
  end.

Definition is_vless (i : Inbound) : bool := get_eqb (i_protocol i) "vless".

(** [inbound.get("settings", {}).get("clients", [])] *)
Definition clients_of (i : Inbound) : list Client :=
  match i_settings i with
  | Some s => match clients s with Some l => l | None => [] end
  | None => []
  end.

(** The loop
    [for inbound in config.get("inbounds", []): if inbound.get("protocol") == "vless": ...; break]
    that every operation starts with. *)
Fixpoint first_vless (l : list Inbound) : option Inbound :=
  match l with
  | [] => None
  | i :: r => if is_vless i then Some i else first_vless r
  end.

Definition find_vless (c : Config) : option Inbound := first_vless (inbounds c).

(** [inbound.get("tag", "vless")] *)
Definition tag_of (i : Inbound) : string :=
  match i_tag i with Some t => t | None => "vless" end.

(** [vless_inbound["settings"]["clients"] = clients] on the inbound object
    the loop stopped at, which is the first VLESS element of the config's own
    list (the assignment is visible through [config]).  The subscript
    [vless_inbound["settings"]] needs the key: without it Python raises
    [KeyError], which the callers below check before they use this
    function. *)
Definition with_clients (i : Inbound) (l : list Client) : Inbound :=
  mkInbound (i_tag i) (i_protocol i) (Some (mkSettings (Some l))) (i_maxTimeDiff i).

Fixpoint assign_clients (l : list Client) (ibs : list Inbound) : list Inbound :=
  match ibs with
  | [] => []
  | i :: r => if is_vless i then with_clients i l :: r
              else i :: assign_clients l r
  end.

Definition set_vless_clients (c : Config) (l : list Client) : Config :=
  mkConfig (assign_clients l (inbounds c)).

Definition has_id (u : string) (cl : Client) : bool := get_eqb (c_id cl) u.

(** [[c for c in clients if c.get("id") != user_uuid]] *)
Definition drop_id (u : string) (l : list Client) : list Client :=
  filter (fun cl => negb (has_id u cl)) l.

(** [[c for c in clients if not (c.get("email") == email_to_use and c.get("id") != user_uuid)]] *)
Definition drop_label_conflicts (e u : string) (l : list Client) : list Client :=
  filter (fun cl => negb (get_eqb (c_email cl) e && negb (has_id u cl))) l.

(** Strings are the UTF-8 encodings of Python's [str]; a character is a
    lead byte followed by its continuation bytes ([10xxxxxx]). *)
Definition is_continuation (a : Ascii.ascii) : bool :=
  (128 <=? Ascii.nat_of_ascii a)%nat && (Ascii.nat_of_ascii a <? 192)%nat.

(** [s[:n]]: the first [n] characters. *)
Fixpoint first_chars (n : nat) (s : string) : string :=
  match s with
  | EmptyString => EmptyString
  | String a r =>
      if is_continuation a then String a (first_chars n r)
      else match n with
           | O => EmptyString
           | S k => String a (first_chars k r)
           end
  end.

(** [f"user-{user_uuid[:8]}"] and [email or f"user-{user_uuid[:8]}"] *)
Definition default_email (u : string) : string := "user-" ++ first_chars 8 u.

Definition email_or_default (email : option string) (u : string) : string :=
  match email with
  | Some e => if String.eqb e "" then default_email u else e
  | None => default_email u
  end.

(** Obsolete anti-replay tolerances: [current in (0, 30, 300)]. *)
Definition obsolete_maxTimeDiff (x : option Z) : bool :=
  match x with
  | Some v => (v =? 0) || (v =? 30) || (v =? 300)
  | None => false
  end.

(** The migration loop of [load_xray_config]: the first VLESS inbound whose
    [maxTimeDiff] is obsolete is rewritten to 10 and the loop stops; VLESS
    inbounds with a current value are skipped.  [None] when nothing is
    rewritten. *)
Fixpoint migrate_inbounds (l : list Inbound) : option (list Inbound) :=
  match l with
  | [] => None
  | i :: r =>
      if is_vless i && obsolete_maxTimeDiff (i_maxTimeDiff i)
      then Some (mkInbound (i_tag i) (i_protocol i) (i_settings i) (Some 10) :: r)
      else match migrate_inbounds r with
           | Some r' => Some (i :: r')
           | None => None
           end
  end.

(* ===================================================================== *)
(** ** The world: config file, registry, outside interactions *)
(* ===================================================================== *)

(** Valid JSON that is not a configuration object, by what the first walk
    over it, [for inbound in config.get("inbounds", [])] in
    [load_xray_config], does: [NotAnObject] is a document whose top level
    (or an element of [inbounds]) has no [.get], as [[]]: [AttributeError];
    [NotIterable] is an object whose [inbounds] cannot be iterated, as
    [{"inbounds": null}]: [TypeError].  A fault that lies deeper in the
    document (a [settings] that is [null], a [clients] that is not a list)
    raises the same two exceptions later, in the walk of the operation
    that meets it; the records above do not represent such documents. *)
Inductive ShapeFault := NotAnObject | NotIterable.

(** What is at [settings.xray_config_path].  [FGarbled] is a file that
    exists but is not a complete JSON document (empty after a truncating
    open, cut short, or otherwise unparseable): [json.load] raises on it.
    [FForeign] is a file that [json.load] reads but that is not a
    configuration object. *)
Inductive FileState :=
| FAbsent
| FGarbled
| FHolds (c : Config)
| FForeign (fault : ShapeFault).

(** The module-level [user_cache = UserCache()].  Times are readings of the
    clock in microseconds. *)
Record Cache := mkCache {
  users            : set string;
  last_sync        : option Z;
  sync_interval    : Z;
  last_xray_reload : option Z
}.

Inductive Exn :=
| ValueError
| OSError
| JSONDecodeError
| KeyError
| NameError
| RpcError
| TimeoutExpired
| RuntimeError
| AttributeError
| TypeError
| HTTPException (status : Z).

(** What the walk over a foreign document raises. *)
Definition shape_exn (fault : ShapeFault) : Exn :=
  match fault with
  | NotAnObject => AttributeError
  | NotIterable => TypeError
  end.

(** The two places of the engine that run the reload command. *)
Inductive ReloadSite := AtMigration | AtHandler.

(** Observable effects, newest first in [trace]. *)
Inductive Event :=
| EvLoad
| EvValidate (ok : bool)
| EvSave (c : Config)
| EvReload (site : ReloadSite) (ok : bool)
| EvRestart (ok : bool)
| EvProbe (ok : bool)
| EvGrpcAdd (tag u e : string) (ok : bool)
| EvGrpcRemove (tag u : string) (ok : bool)
| EvCacheAdd (u : string)
| EvCacheRemove (u : string)
| EvCacheSync (ids : set string).

Record World := mkWorld {
  file  : FileState;
  cache : Cache;
  tick  : nat;
  trace : list Event
}.

(** Result of a child process: exit code, timeout, or failure to spawn. *)
Inductive Proc :=
| Exit (rc : Z)
| TimedOut
| SpawnError.

(** Result of the gRPC call [stub.AlterInbound(request, timeout=10)]. *)
Inductive Rpc :=
| RpcDone
| RpcFailed
| RpcCrashed.

(** One run of the docker-based validation of [validate_xray_config]. *)
Record DockerRun := mkDockerRun {
  tmp_written     : bool;          (* mkstemp + json.dump to the temp file *)
  container_found : option bool;   (* docker ps | grep, None: the call raises *)
  copy_proc       : Proc;          (* docker cp, timeout 5 *)
  test_proc       : Proc;          (* docker exec xray -test, timeout 10 *)
  cleanup_ok      : bool           (* docker exec rm -f *)
}.

Record Env := mkEnv {
  clock             : nat -> Z;
  uuid_parses       : string -> bool;
  reality_short_ids : nat -> option (list string);
  reality_writable  : nat -> bool;
  docker            : nat -> Config -> DockerRun;
  fs_fault          : nat -> option nat;
  proto_available   : bool;
  stub_created      : bool;
  connect_ex        : nat -> option Z;
  alter_inbound     : nat -> Rpc;
  reload_command    : nat -> Proc;
  restart_command   : nat -> Proc
}.

(* ===================================================================== *)
(** ** State-and-exception monad *)
(* ===================================================================== *)

(** A Python exception does not undo earlier mutations, so the world is
    returned on both outcomes. *)
Inductive Res (A : Type) :=
| Ok (a : A)
| Raise (e : Exn).

Arguments Ok {A} a.
Arguments Raise {A} e.

Definition M (A : Type) : Type := Env -> World -> Res A * World.

Definition ret {A} (a : A) : M A := fun _ w => (Ok a, w).

Definition raise {A} (e : Exn) : M A := fun _ w => (Raise e, w).

Definition bind {A B} (m : M A) (k : A -> M B) : M B :=
  fun env w =>
    match m env w with
    | (Ok a, w') => k a env w'
    | (Raise e, w') => (Raise e, w')
    end.

(** [try: m  except Exception: h] *)
Definition try_except {A} (m : M A) (h : Exn -> M A) : M A :=
  fun env w =>
    match m env w with
    | (Ok a, w') => (Ok a, w')
    | (Raise e, w') => h e env w'
    end.

Declare Scope py_scope.
Delimit Scope py_scope with py.
Notation "x <- m ;; k" := (bind m (fun x => k))
  (at level 100, m at next level, right associativity) : py_scope.
Notation "m ;;; k" := (bind m (fun _ => k))
  (at level 100, right associativity) : py_scope.
Local Open Scope py_scope.

Definition set_file (f : FileState) (w : World) : World :=
  mkWorld f (cache w) (tick w) (trace w).

Definition set_cache (c : Cache) (w : World) : World :=
  mkWorld (file w) c (tick w) (trace w).

Definition log_event (e : Event) (w : World) : World :=
  mkWorld (file w) (cache w) (tick w) (e :: trace w).

Definition next_tick (w : World) : World :=
  mkWorld (file w) (cache w) (S (tick w)) (trace w).

(** Ask the outside world: the oracle is read at the current tick, which
    then advances. *)
Definition ask {A} (oracle : Env -> nat -> A) : M A :=
  fun env w => (Ok (oracle env (tick w)), next_tick w).

Definition emit (e : Event) : M unit := fun _ w => (Ok tt, log_event e w).

Definition read_file : M FileState := fun _ w => (Ok (file w), w).

Definition write_file (f : FileState) : M unit := fun _ w => (Ok tt, set_file f w).

Definition get_cache : M Cache := fun _ w => (Ok (cache w), w).

Definition put_cache (c : Cache) : M unit := fun _ w => (Ok tt, set_cache c w).

Definition constant {A} (field : Env -> A) : M A := fun env w => (Ok (field env), w).

(** [datetime.now()] *)
Definition now : M Z := ask clock.

Definition minutes (n : Z) : Z := n * 60 * 1000000.

(* ===================================================================== *)
(** ** ConfigStore and ReloadController: [app/services/xray_manager.py] *)
(* ===================================================================== *)

(** [subprocess.run(...)]: the exit code, or the exception it raises. *)
Definition proc_rc (p : Proc) : M Z :=
  match p with
  | Exit rc => ret rc
  | TimedOut => raise TimeoutExpired
  | SpawnError => raise OSError
  end.

Definition run_process (oracle : Env -> nat -> Proc) : M Z :=
  p <- ask oracle ;;
  proc_rc p.

(** [reload_xray()]: true only when the reload command exits with 0; a
    timeout and every other exception are caught and give false.  The
    [site] argument only labels the logged event with the caller. *)
Definition reload_xray (site : ReloadSite) : M bool :=
  ok <- try_except
          (rc <- run_process reload_command ;; ret (rc =? 0))
          (fun _ => ret false) ;;
  emit (EvReload site ok) ;;;
  ret ok.

(** [validate_xray_config(config)], its first component.  Only a completed
    [xray -test] run with a non-zero exit code gives false; a missing
    container, a failed copy and any exception allow the save. *)
Definition validate_xray_config (config : Config) : M bool :=
  try_except
    (run <- ask (fun env t => docker env t config) ;;
     if negb (tmp_written run) then raise OSError
     else
       found <- match container_found run with
                | Some b => ret b
                | None => raise OSError
                end ;;
       if found then
         copy_rc <- proc_rc (copy_proc run) ;;
         if copy_rc =? 0 then
           test_rc <- proc_rc (test_proc run) ;;
           (if cleanup_ok run then ret tt else raise OSError) ;;;
           if test_rc =? 0 then ret true else ret false
         else ret true
       else ret true)
    (fun _ => ret true).

(** What [save_xray_config] does to the file system, in order:
    [config_path.parent.mkdir(parents=True, exist_ok=True)], then
    [open(config_path, "w")], which creates or truncates the config file
    itself, then [json.dump] into it. *)
Inductive FsOp :=
| FsMkdirParents
| FsOpenTruncate
| FsDump (c : Config).

Definition save_fs_ops (config : Config) : list FsOp :=
  [FsMkdirParents; FsOpenTruncate; FsDump config].

Definition fs_apply (op : FsOp) (f : FileState) : FileState :=
  match op with
  | FsMkdirParents => f
  | FsOpenTruncate => FGarbled
  | FsDump c => FHolds c
  end.

(** Runs the operations in order; [fault = Some k] makes operation number
    [k] (from 0) raise [OSError] instead of completing, [None] and larger
    numbers let all of them complete. *)
Fixpoint run_fs (ops : list FsOp) (fault : option nat) : M unit :=
  match ops with
  | [] => ret tt
  | op :: rest =>
      match fault with
      | Some O => raise OSError
      | _ =>
          f <- read_file ;;
          write_file (fs_apply op f) ;;;
          run_fs rest (option_map pred fault)
      end
  end.

(** [save_xray_config(config, validate=True)] *)
Definition save_xray_config (config : Config) (validate : bool) : M unit :=
  (if validate then
     is_valid <- validate_xray_config config ;;
     emit (EvValidate is_valid) ;;;
     if is_valid then ret tt else raise ValueError
   else ret tt) ;;;
  fault <- ask fs_fault ;;
  run_fs (save_fs_ops config) fault ;;;
  emit (EvSave config).

(** [get_reality_config().get("short_ids", [])]; the Reality parameter
    store is outside the engine, [None] stands for an exception of the
    store (it writes a fresh file when it cannot read one). *)
Definition get_reality_short_ids : M (list string) :=
  r <- ask reality_short_ids ;;
  match r with
  | Some ids => ret ids
  | None => raise OSError
  end.

(** [short_ids[0] if short_ids else None] *)
Definition first_short_id (ids : list string) : option string :=
  match ids with
  | [] => None
  | s :: _ => Some s
  end.

Definition save_reality_config : M unit :=
  ok <- ask reality_writable ;;
  if ok then ret tt else raise OSError.

Definition default_vless (existing_clients : list Client) : Inbound :=
  mkInbound (Some "vless") (Some "vless")
            (Some (mkSettings (Some existing_clients))) (Some 10).

Definition default_api_inbound : Inbound :=
  mkInbound (Some "api") (Some "dokodemo-door") (Some (mkSettings None)) None.

(** [get_default_config()]: four reads of the Reality store (config,
    fingerprint, sni, spx), a generated short id saved when there is none,
    the clients of an existing readable config preserved, and the literal
    default document. *)
Definition get_default_config : M Config :=
  short_ids <- get_reality_short_ids ;;
  get_reality_short_ids ;;;
  get_reality_short_ids ;;;
  get_reality_short_ids ;;;
  (match short_ids with
   | [] => save_reality_config
   | _ => ret tt
   end) ;;;
  f <- read_file ;;
  let existing_clients :=
    match f with
    | FHolds existing_config =>
        match find_vless existing_config with
        | Some inbound => clients_of inbound
        | None => []
        end
    | _ => []
    end in
  ret (mkConfig [default_vless existing_clients; default_api_inbound]).

(** [load_xray_config()] *)
Definition load_xray_config : M Config :=
  emit EvLoad ;;;
  f <- read_file ;;
  match f with
  | FAbsent => get_default_config
  | FGarbled => raise JSONDecodeError
  | FForeign fault => raise (shape_exn fault)
  | FHolds config =>
      match migrate_inbounds (inbounds config) with
      | Some migrated =>
          let config' := mkConfig migrated in
          try_except
            (save_xray_config config' true ;;;
             reload_xray AtMigration ;;;
             ret tt)
            (fun _ => ret tt) ;;;
          ret config'
      | None => ret config
      end
  end.

(* ===================================================================== *)
(** ** UserRegistry: [app/services/user_cache.py] *)
(* ===================================================================== *)

Module UserCache.

(** The inner loops of [sync_from_config]:
    [user_uuid = client.get("id"); if user_uuid: users.add(user_uuid)]. *)
Definition add_client_id (acc : set string) (cl : Client) : set string :=
  match c_id cl with
  | Some u => if String.eqb u "" then acc else set_add string_dec u acc
  | None => acc
  end.

Definition add_inbound_ids (acc : set string) (i : Inbound) : set string :=
  if is_vless i then fold_left add_client_id (clients_of i) acc else acc.

Definition config_user_ids (config : Config) : set string :=
  fold_left add_inbound_ids (inbounds config) (empty_set string).

Definition sync_from_config : M unit :=
  try_except
    (config <- load_xray_config ;;
     let users' := config_user_ids config in
     c <- get_cache ;;
     t <- now ;;
     put_cache (mkCache users' (Some t) (sync_interval c) (last_xray_reload c)) ;;;
     emit (EvCacheSync users'))
    (fun _ => ret tt).

Definition maybe_sync : M unit :=
  c <- get_cache ;;
  match last_sync c with
  | None => sync_from_config
  | Some t0 =>
      t <- now ;;
      if t - t0 >=? sync_interval c then sync_from_config else ret tt
  end.

(** [exists(user_uuid, check_sync)] *)
Definition exists_ (user_uuid : string) (check_sync : bool) : M bool :=
  (if check_sync then maybe_sync else ret tt) ;;;
  c <- get_cache ;;
  ret (set_mem string_dec user_uuid (users c)).

Definition add (user_uuid : string) : M unit :=
  c <- get_cache ;;
  put_cache (mkCache (set_add string_dec user_uuid (users c))
                     (last_sync c) (sync_interval c) (last_xray_reload c)) ;;;
  emit (EvCacheAdd user_uuid).

(** [self._users.discard(user_uuid)] *)
Definition discard (u : string) (s : set string) : set string :=
  filter (fun x => negb (String.eqb x u)) s.

Definition remove (user_uuid : string) : M unit :=
  c <- get_cache ;;
  put_cache (mkCache (discard user_uuid (users c))
                     (last_sync c) (sync_interval c) (last_xray_reload c)) ;;;
  emit (EvCacheRemove user_uuid).

Definition mark_xray_reloaded : M unit :=
  c <- get_cache ;;
  t <- now ;;
  put_cache (mkCache (users c) (last_sync c) (sync_interval c) (Some t)).

(** The nested loops of [should_reload_xray] return at the first client
    with the id, over all VLESS inbounds. *)
Definition config_lists (config : Config) (u : string) : bool :=
  existsb (fun i => is_vless i && existsb (has_id u) (clients_of i)) (inbounds config).

Definition should_reload_xray (user_uuid : string) : M bool :=
  c <- get_cache ;;
  recently_reloaded <-
    match last_xray_reload c with
    | Some t0 => t <- now ;; ret (t - t0 <? minutes 5)
    | None => ret false
    end ;;
  if recently_reloaded then ret false
  else
    fresh <-
      match last_sync c with
      | Some t0 => t <- now ;; ret (t - t0 <? minutes 1)
      | None => ret false
      end ;;
    if fresh && set_mem string_dec user_uuid (users c) then ret false
    else
      try_except
        (config <- load_xray_config ;;
         if config_lists config user_uuid then
           match last_xray_reload c with
           | None => ret true
           | Some t0 => t <- now ;; ret (t - t0 >? minutes 5)
           end
         else ret false)
        (fun _ => ret false).

(** [clear()] *)
Definition clear : M unit :=
  c <- get_cache ;;
  put_cache (mkCache (empty_set string) None (sync_interval c) (last_xray_reload c)).

(** [get_all()]: a copy of the set, after the staleness refresh. *)
Definition get_all : M (set string) :=
  maybe_sync ;;;
  c <- get_cache ;;
  ret (users c).

(** [count()] *)
Definition count : M nat :=
  maybe_sync ;;;
  c <- get_cache ;;
  ret (length (users c)).

End UserCache.

(* ===================================================================== *)
(** ** LiveControlClient: [app/services/xray_grpc_client.py] *)
(* ===================================================================== *)

Module XRayGRPCClient.

(** [self._stub.AlterInbound(request, timeout=10)] *)
Definition AlterInbound : M unit :=
  r <- ask alter_inbound ;;
  match r with
  | RpcDone => ret tt
  | RpcFailed => raise RpcError
  | RpcCrashed => raise RuntimeError
  end.

Definition is_available : M bool :=
  pa <- constant proto_available ;;
  if negb pa then ret false
  else
    ok <- try_except
            (r <- ask connect_ex ;;
             match r with
             | Some result => ret (result =? 0)
             | None => raise OSError
             end)
            (fun _ => ret false) ;;
    emit (EvProbe ok) ;;;
    ret ok.

Definition add_user (tag user_uuid email : string) : M bool :=
  pa <- constant proto_available ;;
  st <- constant stub_created ;;
  if negb pa || negb st then ret false
  else
    ok <- try_except (AlterInbound ;;; ret true) (fun _ => ret false) ;;
    emit (EvGrpcAdd tag user_uuid email ok) ;;;
    ret ok.

Fixpoint find_client (u : string) (l : list Client) : option Client :=
  match l with
  | [] => None
  | cl :: r => if has_id u cl then Some cl else find_client u r
  end.

Fixpoint find_email_in (u tag : string) (ibs : list Inbound) : option string :=
  match ibs with
  | [] => None
  | i :: r =>
      if get_eqb (i_tag i) tag || is_vless i then
        match find_client u (clients_of i) with
        | Some cl => c_email cl
        | None => find_email_in u tag r
        end
      else find_email_in u tag r
  end.

Definition find_email_by_uuid (user_uuid tag : string) : M (option string) :=
  try_except
    (config <- load_xray_config ;;
     ret (find_email_in user_uuid tag (inbounds config)))
    (fun _ => ret None).

Definition remove_user (tag user_uuid : string) (email : option string) : M bool :=
  pa <- constant proto_available ;;
  st <- constant stub_created ;;
  if negb pa || negb st then ret false
  else
    ok <- try_except
            (email' <- (if truthy email then ret email
                        else find_email_by_uuid user_uuid tag) ;;
             if truthy email' then AlterInbound ;;; ret true
             else ret false)
            (fun _ => ret false) ;;
    emit (EvGrpcRemove tag user_uuid ok) ;;;
    ret ok.

End XRayGRPCClient.

(* ===================================================================== *)
(** ** Config-only operations of [app/services/xray_manager.py] *)
(* ===================================================================== *)

(** [xray_manager.py] uses the name [user_cache] in
    [regenerate_user_in_config] and [restart_xray] but never imports or
    defines it (the cache module imports [xray_manager], not the other way
    round): evaluating the name raises [NameError]. *)
Definition unbound_user_cache : M unit := raise NameError.

Definition require_settings (vless_inbound : Inbound) : M unit :=
  match i_settings vless_inbound with
  | Some _ => ret tt
  | None => raise KeyError
  end.

(** [remove_user_from_config(user_uuid)] *)
Definition remove_user_from_config (user_uuid : string) : M bool :=
  config <- load_xray_config ;;
  match find_vless config with
  | None => ret false
  | Some vless_inbound =>
      let clients0 := clients_of vless_inbound in
      let original_count := length clients0 in
      let clients1 := drop_id user_uuid clients0 in
      if Nat.eqb (length clients1) original_count then ret false
      else
        require_settings vless_inbound ;;;
        save_xray_config (set_vless_clients config clients1) true ;;;
        ret true
  end.

(** [regenerate_user_in_config(old_user_uuid, new_user_uuid, email)] *)
Definition regenerate_user_in_config (old_user_uuid new_user_uuid : string)
  (email : option string) : M (bool * option string) :=
  config <- load_xray_config ;;
  match find_vless config with
  | None => ret (false, None)
  | Some vless_inbound =>
      let clients1 := drop_id old_user_uuid (clients_of vless_inbound) in
      short_ids <- get_reality_short_ids ;;
      let short_id := first_short_id short_ids in
      let new_client :=
        mkClient (Some new_user_uuid)
                 (Some (email_or_default email new_user_uuid)) None in
      require_settings vless_inbound ;;;
      save_xray_config (set_vless_clients config (clients1 ++ [new_client])%list) true ;;;
      unbound_user_cache ;;;
      ret (true, short_id)
  end.

(** [restart_xray()] *)
Definition restart_xray : M bool :=
  ok <- try_except
          (rc <- run_process restart_command ;;
           if rc =? 0 then unbound_user_cache ;;; ret true
           else ret false)
          (fun _ => ret false) ;;
  emit (EvRestart ok) ;;;
  ret ok.

(** [add_user_to_config(user_uuid, email)] returns [(success, short_id)]. *)
Definition add_user_to_config (user_uuid : string) (email : option string)
  : M (bool * option string) :=
  config <- load_xray_config ;;
  match find_vless config with
  | None => ret (false, None)
  | Some vless_inbound =>
      let clients0 := clients_of vless_inbound in
      if existsb (has_id user_uuid) clients0 then
        short_ids <- get_reality_short_ids ;;
        ret (true, first_short_id short_ids)
      else
        let email_to_use := email_or_default email user_uuid in
        let clients1 := drop_label_conflicts email_to_use user_uuid clients0 in
        short_ids <- get_reality_short_ids ;;
        let short_id := first_short_id short_ids in
        let new_client :=
          mkClient (Some user_uuid) (Some email_to_use) (Some "xtls-rprx-vision") in
        require_settings vless_inbound ;;;
        save_xray_config (set_vless_clients config (clients1 ++ [new_client])%list) true ;;;
        unbound_user_cache ;;;
        ret (true, short_id)
  end.

Record XrayStatus := mkStatus {
  xray_running  : bool;
  config_exists : bool;
  users_count   : nat
}.

(** [config_path.exists()] *)
Definition path_exists (f : FileState) : bool :=
  match f with
  | FAbsent => false
  | _ => true
  end.

(** [bool(config.get("inbounds"))] *)
Definition has_inbounds (config : Config) : bool :=
  match inbounds config with
  | [] => false
  | _ :: _ => true
  end.

(** [get_xray_status()] *)
Definition get_xray_status : M XrayStatus :=
  f <- read_file ;;
  let exists_now := path_exists f in
  running <- try_except
               XRayGRPCClient.is_available
               (fun _ =>
                  try_except
                    (if exists_now then
                       config <- load_xray_config ;;
                       ret (has_inbounds config)
                     else ret false)
                    (fun _ => ret false)) ;;
  n <- (if exists_now then
          try_except
            (config <- load_xray_config ;;
             match find_vless config with
             | Some inbound => ret (length (clients_of inbound))
             | None => ret 0%nat
             end)
            (fun _ => ret 0%nat)
        else ret 0%nat) ;;
  ret (mkStatus running exists_now n).

(* ===================================================================== *)
(** ** ReconciliationEngine, live path first: [app/services/xray_api.py] *)
(* ===================================================================== *)

(** [update_inbound_via_api(inbound_config, tag)]: the body logs and
    returns [False]. *)
Definition update_inbound_via_api (inbound_config : Inbound) (tag : string) : bool :=
  false.

Definition vision_client (user_uuid email_to_use : string) : Client :=
  mkClient (Some user_uuid) (Some email_to_use) (Some "xtls-rprx-vision").

(** [add_user_via_api(user_uuid, email)] returns [(success, used_grpc)]. *)
Definition add_user_via_api (user_uuid : string) (email : option string)
  : M (bool * bool) :=
  config <- load_xray_config ;;
  match find_vless config with
  | None => ret (false, false)
  | Some vless_inbound =>
      let inbound_tag := tag_of vless_inbound in
      let clients0 := clients_of vless_inbound in
      if existsb (has_id user_uuid) clients0 then ret (true, false)
      else
        let email_to_use := email_or_default email user_uuid in
        let clients1 := drop_label_conflicts email_to_use user_uuid clients0 in
        let clients2 := drop_label_conflicts email_to_use user_uuid clients1 in
        short_ids <- get_reality_short_ids ;;
        let clients3 := (clients2 ++ [vision_client user_uuid email_to_use])%list in
        require_settings vless_inbound ;;;
        let config' := set_vless_clients config clients3 in
        available <- XRayGRPCClient.is_available ;;
        added <- (if available
                  then XRayGRPCClient.add_user inbound_tag user_uuid email_to_use
                  else ret false) ;;
        if added then
          save_xray_config config' true ;;;
          UserCache.add user_uuid ;;;
          ret (true, true)
        else
          save_xray_config config' true ;;;
          UserCache.add user_uuid ;;;
          ret (true, false)
  end.

(** [remove_user_via_api(user_uuid)] returns [(success, used_grpc)]. *)
Definition remove_user_via_api (user_uuid : string) : M (bool * bool) :=
  config <- load_xray_config ;;
  match find_vless config with
  | None => ret (false, false)
  | Some vless_inbound =>
      let inbound_tag := tag_of vless_inbound in
      let clients0 := clients_of vless_inbound in
      match XRayGRPCClient.find_client user_uuid clients0 with
      | None => ret (false, false)
      | Some client =>
          let user_email := c_email client in
          let config' := set_vless_clients config (drop_id user_uuid clients0) in
          available <- XRayGRPCClient.is_available ;;
          removed <- (if available && truthy user_email
                      then XRayGRPCClient.remove_user inbound_tag user_uuid user_email
                      else ret false) ;;
          if removed then
            require_settings vless_inbound ;;;
            save_xray_config config' true ;;;
            UserCache.remove user_uuid ;;;
            ret (true, true)
          else
            require_settings vless_inbound ;;;
            save_xray_config config' true ;;;
            UserCache.remove user_uuid ;;;
            ret (true, false)
      end
  end.

(** [regenerate_user_via_api(old_user_uuid, new_user_uuid, email)] returns
    [(success, short_id)]. *)
Definition regenerate_user_via_api (old_user_uuid new_user_uuid : string)
  (email : option string) : M (bool * option string) :=
  config <- load_xray_config ;;
  match find_vless config with
  | None => ret (false, None)
  | Some vless_inbound =>
      let inbound_tag := tag_of vless_inbound in
      let clients1 := drop_id old_user_uuid (clients_of vless_inbound) in
      short_ids <- get_reality_short_ids ;;
      let short_id := first_short_id short_ids in
      let new_client :=
        vision_client new_user_uuid (email_or_default email new_user_uuid) in
      require_settings vless_inbound ;;;
      let config' := set_vless_clients config (clients1 ++ [new_client])%list in
      if update_inbound_via_api (with_clients vless_inbound (clients1 ++ [new_client])%list)
                                inbound_tag
      then
        save_xray_config config' true ;;;
        UserCache.remove old_user_uuid ;;;
        UserCache.add new_user_uuid ;;;
        ret (true, short_id)
      else
        save_xray_config config' true ;;;
        UserCache.remove old_user_uuid ;;;
        UserCache.add new_user_uuid ;;;
        ret (true, short_id)
  end.

(* ===================================================================== *)
(** ** The command handler: [receive_command] of [app/api/agent.py] *)
(* ===================================================================== *)

Record CommandRequest := mkRequest {
  command       : string;
  user_uuid     : option string;
  old_user_uuid : option string;
  email         : option string
}.

Record Response := mkResponse {
  success  : bool;
  message  : string;
  short_id : option string
}.

(** [response["short_id"] = short_id] only [if short_id]. *)
Definition short_id_field (short_id : option string) : option string :=
  if truthy short_id then short_id else None.

(** [uuid.UUID(s)] inside [try ... except ValueError: raise HTTPException(400)]. *)
Definition check_uuid (s : string) : M unit :=
  ok <- constant (fun env => uuid_parses env s) ;;
  if ok then ret tt else raise (HTTPException 400).

(** The [regenerate_user] branch of [receive_command]. *)
Definition handle_regenerate (request : CommandRequest) : M Response :=
  match old_user_uuid request, user_uuid request with
  | Some old, Some new =>
      if String.eqb old "" || String.eqb new "" then raise (HTTPException 400)
      else
        check_uuid old ;;;
        check_uuid new ;;;
        r <- regenerate_user_via_api old new (email request) ;;
        r' <- (if fst r then ret r
               else
                 r2 <- regenerate_user_in_config old new (email request) ;;
                 (if fst r2 then reload_xray AtHandler ;;; ret tt else ret tt) ;;;
                 ret r2) ;;
        if fst r' then
          ret (mkResponse true "User regenerated successfully"
                          (short_id_field (snd r')))
        else raise (HTTPException 400)
  | _, _ => raise (HTTPException 400)
  end.

(** The [add_user] branch of [receive_command]; it leaves [(success, short_id)]
    to the common end of the handler. *)
Definition handle_add (u : string) (request : CommandRequest) : M (bool * option string) :=
  cached <- UserCache.exists_ u true ;;
  r <- (if cached then
          short_ids <- get_reality_short_ids ;;
          ret (true, false)
        else add_user_via_api u (email request)) ;;
  let (success0, used_grpc) := r in
  if success0 then
    short_ids <- get_reality_short_ids ;;
    let short_id := first_short_id short_ids in
    if used_grpc then ret (true, short_id)
    else
      in_cache <- UserCache.exists_ u false ;;
      if negb in_cache then
        reload_success <- reload_xray AtHandler ;;
        if reload_success then ret (true, short_id) else ret (false, short_id)
      else ret (true, short_id)
  else ret (false, None).

(** The [remove_user] branch of [receive_command]; it leaves [success]. *)
Definition handle_remove (u : string) : M bool :=
  cached <- UserCache.exists_ u true ;;
  if negb cached then ret true
  else
    r <- remove_user_via_api u ;;
    let (success0, used_grpc) := r in
    if success0 then
      if used_grpc then ret true
      else reload_xray AtHandler
    else
      success1 <- remove_user_from_config u ;;
      if success1 then reload_xray AtHandler else ret false.

(** [receive_command(request)].  A returned dictionary is [Ok]; every
    [raise HTTPException(...)] of the handler is [Raise (HTTPException _)];
    any other [Raise] is an exception that passes through the handler. *)
Definition receive_command (request : CommandRequest) : M Response :=
  if String.eqb (command request) "restart_xray" then
    ok <- restart_xray ;;
    if ok then ret (mkResponse true "XRay restarted successfully" None)
    else raise (HTTPException 500)
  else if String.eqb (command request) "regenerate_user" then
    handle_regenerate request
  else
    match user_uuid request with
    | None => raise (HTTPException 400)
    | Some u =>
        if String.eqb u "" then raise (HTTPException 400)
        else
          check_uuid u ;;;
          if String.eqb (command request) "add_user" then
            r <- handle_add u request ;;
            if fst r then
              ret (mkResponse true "Command add_user executed successfully"
                              (short_id_field (snd r)))
            else raise (HTTPException 400)
          else if String.eqb (command request) "remove_user" then
            ok <- handle_remove u ;;
            if ok then
              ret (mkResponse true "Command remove_user executed successfully" None)
            else raise (HTTPException 400)
          else raise (HTTPException 400)
    end.

(* ===================================================================== *)
(** ** Observations on worlds and traces *)
(* ===================================================================== *)

Definition is_reload (e : Event) : bool :=
  match e with EvReload _ _ => true | _ => false end.

Definition is_handler_reload (e : Event) : bool :=
  match e with EvReload AtHandler _ => true | _ => false end.

Definition is_save (e : Event) : bool :=
  match e with EvSave _ => true | _ => false end.

Definition is_load (e : Event) : bool :=
  match e with EvLoad => true | _ => false end.

Definition count (p : Event -> bool) (tr : list Event) : nat :=
  length (filter p tr).

(** The client list of the persisted configuration: the list of the first
    VLESS inbound of the config file (empty when there is none to read). *)
Definition persisted_clients (f : FileState) : list Client :=
  match f with
  | FHolds c =>
      match find_vless c with
      | Some i => clients_of i
      | None => []
      end
  | _ => []
  end.

Definition entries_with_id (u : string) (l : list Client) : nat :=
  length (filter (has_id u) l).

Definition labels (l : list Client) : list (option string) := map c_email l.

(** No lazy migration is pending on the file. *)
Definition settled (f : FileState) : Prop :=
  match f with
  | FHolds c => migrate_inbounds (inbounds c) = None
  | _ => True
  end.

(** What [load_xray_config] returns for a readable file. *)
Definition migrated (c : Config) : Config :=
  match migrate_inbounds (inbounds c) with
  | Some ibs => mkConfig ibs
  | None => c
  end.

(** The default document has the one VLESS inbound the engine works on,
    with a client list and the current anti-replay tolerance. *)
Definition usable (c : Config) : bool :=
  match find_vless c with
  | Some i =>
      match i_settings i with
      | Some s =>
          match clients s with
          | Some _ => negb (obsolete_maxTimeDiff (i_maxTimeDiff i))
          | None => false
          end
      | None => false
      end
  | None => false
  end.

(** The verdict of [validate_xray_config] as a function of the docker run. *)
Definition verdict (run : DockerRun) : bool :=
  if tmp_written run then
    match container_found run with
    | Some true =>
        match copy_proc run with
        | Exit rc =>
            if rc =? 0 then
              match test_proc run with
              | Exit t => if cleanup_ok run then t =? 0 else true
              | _ => true
              end
            else true
        | _ => true
        end
    | _ => true
    end
  else true.

(** The file a process would leave behind when it dies after the first [k]
    file-system operations of a save. *)
Definition file_after_crash (k : nat) (config : Config) (f : FileState) : FileState :=
  fold_left (fun f' op => fs_apply op f') (firstn k (save_fs_ops config)) f.

(** Serving a sequence of requests, each in the world the previous left. *)
Fixpoint serve (requests : list CommandRequest) (env : Env) (w : World)
  : list (Res Response) * World :=
  match requests with
  | [] => ([], w)
  | r :: rest =>
      let (res, w1) := receive_command r env w in
      let (out, w2) := serve rest env w1 in
      (res :: out, w2)
  end.

(* ===================================================================== *)
(** ** Closed forms used by the equations below *)
(* ===================================================================== *)

Definition reload_ok (p : Proc) : bool :=
  match p with
  | Exit rc => rc =? 0
  | _ => false
  end.

(** The whole behaviour of a validated save, by validation verdict and by
    the file-system fault met. *)
Definition save_result (env : Env) (w : World) (c : Config) : Res unit * World :=
  let ok := verdict (docker env (tick w) c) in
  let w1 := log_event (EvValidate ok) (next_tick w) in
  if ok then
    match fs_fault env (tick w1) with
    | Some 0%nat | Some 1%nat => (Raise OSError, next_tick w1)
    | Some 2%nat => (Raise OSError, set_file FGarbled (next_tick w1))
    | _ => (Ok tt, log_event (EvSave c) (set_file (FHolds c) (next_tick w1)))
    end
  else (Raise ValueError, w1).

(** The lazy migration of [load_xray_config]: save the rewritten config,
    reload, and swallow any exception of the two. *)
Definition migration_result (env : Env) (w : World) (c' : Config) : World :=
  match save_result env w c' with
  | (Ok _, w1) =>
      log_event (EvReload AtMigration (reload_ok (reload_command env (tick w1))))
                (next_tick w1)
  | (Raise _, w1) => w1
  end.

(** The Reality parameter store answers every read and accepts a write. *)
Definition reality_answers (env : Env) : Prop :=
  (forall t, reality_short_ids env t <> None) /\
  (forall t, reality_writable env t = true).


(* ===================================================================== *)
(** ** Properties of computations *)
(* ===================================================================== *)

(** [m] adds no event satisfying [p] to the trace. *)
Definition silent {A} (p : Event -> bool) (m : M A) : Prop :=
  forall env w, count p (trace (snd (m env w))) = count p (trace w).

(** Every exception that leaves [m] satisfies [P]. *)
Definition raises_only {A} (P : Exn -> Prop) (m : M A) : Prop :=
  forall env w e, fst (m env w) = Raise e -> P e.

(** No exception leaves [m]. *)
Definition never_raises {A} (m : M A) : Prop :=
  forall env w, exists a, fst (m env w) = Ok a.

(** Exceptions of the config store and of the Reality parameter store:
    a rejected validation, a failed read or write, an unparseable config
    file, a VLESS inbound without [settings], a config file that holds
    JSON of another shape. *)
Definition store_exn (e : Exn) : Prop :=
  e = ValueError \/ e = OSError \/ e = JSONDecodeError \/ e = KeyError
  \/ e = AttributeError \/ e = TypeError.

Definition http_exn (e : Exn) : Prop :=
  exists status, e = HTTPException status.

(** The config store and the parameter store work: reads are answered,
    validation accepts, no file-system fault. *)
Definition store_works (env : Env) : Prop :=
  reality_answers env
  /\ (forall t c, verdict (docker env t c) = true)
  /\ (forall t, fs_fault env t = None).

(** What may leave the command handler: an [HTTPException] it raises
    itself, or an exception of the stores that it does not catch. *)
Definition handler_exn (e : Exn) : Prop := store_exn e \/ http_exn e.

(** Closed forms of the live client's answers. *)
Definition probe_ok (r : option Z) : bool :=
  match r with
  | Some result => result =? 0
  | None => false
  end.

Definition rpc_ok (r : Rpc) : bool :=
  match r with
  | RpcDone => true
  | _ => false
  end.

Definition live_client_ready (env : Env) : bool :=
  proto_available env && stub_created env.

Definition is_registry_update (e : Event) : bool :=
  match e with
  | EvCacheAdd _ | EvCacheRemove _ => true
  | _ => false
  end.

(** Between [w] and [w1] either the registry was left alone, or the newest
    events of [w1] are registry updates that come right after a completed
    save, and the config file holds what that save wrote. *)
Definition registry_follows_save (w w1 : World) : Prop :=
  cache w1 = cache w
  \/ exists cfg updates older,
       trace w1 = (updates ++ EvSave cfg :: older)%list
       /\ forallb is_registry_update updates = true
       /\ file w1 = FHolds cfg.

(** An outcome reached from [w] in which the registry was updated only after
    a completed save, and not at all when an exception was raised. *)
Definition orderly {A} (w : World) (res : Res A * World) : Prop :=
  registry_follows_save w (snd res)
  /\ (forall x, fst res = Raise x -> cache (snd res) = cache w).

(** The reload command exits with 0 whenever it is run. *)
Definition reload_works (env : Env) : Prop :=
  forall t, reload_ok (reload_command env t) = true.

(** A config file from which an add of [u] can be served: the file is
    absent (the default document is used), or it holds a configuration,
    settled or not, whose first VLESS inbound has settings and lists [u]
    whenever some VLESS inbound does; the persisted client list has at most
    one entry for [u]. *)
Definition file_ready (u : string) (f : FileState) : Prop :=
  match f with
  | FAbsent => True
  | FHolds c =>
      exists ib,
        find_vless c = Some ib
        /\ i_settings ib <> None
        /\ (UserCache.config_lists c u = true ->
            existsb (has_id u) (clients_of ib) = true)
  | _ => False
  end
  /\ (entries_with_id u (persisted_clients f) <= 1)%nat.

(** A state in which an add of [u] can be served: such a file, and a
    registry that lists [u] only if the persisted client list does. *)
Definition add_ready (u : string) (w : World) : Prop :=
  file_ready u (file w)
  /\ (set_mem string_dec u (users (cache w)) = true ->
      existsb (has_id u) (persisted_clients (file w)) = true).

(** A request field that passes the handler's checks: present, not empty,
    accepted by [uuid.UUID]. *)
Definition well_formed_id (env : Env) (x : option string) : bool :=
  match x with
  | Some s => negb (String.eqb s "") && uuid_parses env s
  | None => false
  end.

(** The control endpoint is reachable and accepts every call. *)
Definition live_accepts (env : Env) : Prop :=
  proto_available env = true
  /\ stub_created env = true
  /\ (forall t, connect_ex env t = Some 0)
  /\ (forall t, alter_inbound env t = RpcDone).

(** The control endpoint cannot be reached. *)
Definition live_unreachable (env : Env) : Prop :=
  forall t, probe_ok (connect_ex env t) = false.

(** The reload command fails whenever it is run. *)
Definition reload_fails (env : Env) : Prop :=
  forall t, reload_ok (reload_command env t) = false.

(** VLESS inbounds whose anti-replay tolerance is obsolete. *)
Definition needs_migration (i : Inbound) : bool :=
  is_vless i && obsolete_maxTimeDiff (i_maxTimeDiff i).

Definition obsolete_count (l : list Inbound) : nat :=
  length (filter needs_migration l).

(** The entry that [regenerate_user_in_config] appends: no [flow] key. *)
Definition plain_client (user_uuid email_to_use : string) : Client :=
  mkClient (Some user_uuid) (Some email_to_use) None.

(** [n] calls of [load_xray_config] in a row, the results dropped. *)
Fixpoint load_times (n : nat) : M unit :=
  match n with
  | O => ret tt
  | S k => (load_xray_config ;;; load_times k)%py
  end.

(* ===================================================================== *)
(** ** Retry with backoff: [app/utils/retry.py] *)
(* ===================================================================== *)

Module Retry.

Section Backoff.

(** [T]: what [func] returns; [E]: what it raises; [D]: delays, with the
    product of [delay *= backoff_factor]. *)
Variables T E D : Type.
Variable mul : D -> D -> D.

(** The outcome of the call of [func] made as attempt number [attempt]. *)
Variable func : nat -> T + E.

(** How [retry_with_backoff] ends: [return await func(...)], the final
    [return None], or the [raise] of the last attempt.  [Returned v] hands
    on whatever [func] returned; when that is Python's [None] (a value of
    [T]) the caller cannot tell it from the final [return None], which
    [ReturnedNone] stands for. *)
Inductive Outcome :=
| Returned (v : T)
| ReturnedNone
| Reraised (e : E).

(** An execution: how it ends, the calls of [func] made, and the arguments
    of [asyncio.sleep] in order. *)
Record Run := mkRun { outcome : Outcome; calls : nat; sleeps : list D }.

(** The loop [for attempt in range(max_retries)] with [todo] iterations
    left, the next one being number [attempt]. *)
Fixpoint attempts (todo attempt : nat) (max_retries : Z) (delay backoff_factor : D)
  : Run :=
  match todo with
  | O => mkRun ReturnedNone 0 []
  | S todo' =>
      match func attempt with
      | inl v => mkRun (Returned v) 1 []
      | inr e =>
          if Z.of_nat attempt =? max_retries - 1 then mkRun (Reraised e) 1 []
          else
            let r := attempts todo' (S attempt) max_retries
                              (mul delay backoff_factor) backoff_factor in
            mkRun (outcome r) (S (calls r)) (delay :: sleeps r)
      end
  end.

(** [retry_with_backoff(func, max_retries, initial_delay, backoff_factor)];
    [range] of a negative number is empty. *)
Definition retry_with_backoff (max_retries : Z) (initial_delay backoff_factor : D)
  : Run :=
  attempts (Z.to_nat max_retries) 0 max_retries initial_delay backoff_factor.

(** [delay, delay * factor, (delay * factor) * factor, ...], [k] of them. *)
Fixpoint backoff_delays (k : nat) (delay backoff_factor : D) : list D :=
  match k with
  | O => []
  | S k' => delay :: backoff_delays k' (mul delay backoff_factor) backoff_factor
  end.

End Backoff.

Arguments Returned {T E} v.
Arguments ReturnedNone {T E}.
Arguments Reraised {T E} e.
Arguments mkRun {T E D} outcome calls sleeps.
Arguments outcome {T E D} r.
Arguments calls {T E D} r.
Arguments sleeps {T E D} r.
Arguments attempts {T E D} mul func todo attempt max_retries delay backoff_factor.
Arguments retry_with_backoff {T E D} mul func max_retries initial_delay backoff_factor.
Arguments backoff_delays {D} mul k delay backoff_factor.

End Retry.

(* ===================================================================== *)
(** ** The Core API client: [app/services/core_api_client.py] *)
(* ===================================================================== *)

Module CoreAPIClient.

Section Client.

(** Exceptions of the HTTP client (transport errors, [HTTPStatusError]). *)
Variable E : Type.

(** The outcome of the [k]-th [self.client.post(...)]: the status code of
    the response, or the exception raised. *)
Variable post : nat -> Z + E.

(** [response.raise_for_status()]: the exception it raises for a status
    code, [None] when it returns. *)
Variable raise_for_status : Z -> option E.

(** [register_agent(agent_url, version)] *)
Definition register_agent : bool :=
  match post 0 with
  | inl status_code => status_code =? 201
  | inr _ => false
  end.

(** The inner [_send()] of [send_event], called as attempt number
    [attempt]. *)
Definition _send (attempt : nat) : bool + E :=
  match post attempt with
  | inl status_code =>
      if status_code =? 200 then inl true
      else match raise_for_status status_code with
           | Some e => inr e
           | None => inl false
           end
  | inr e => inr e
  end.

(** What [send_event] returns, the POSTs it made and the seconds slept. *)
Record Sent := mkSent { delivered : bool; posts : nat; slept : list QArith_base.Q }.

(** [send_event(event, data)]:
    [retry_with_backoff(_send, max_retries=2, initial_delay=1.0)] with the
    default [backoff_factor=2.0]; [None] and every exception become
    [False]. *)
Definition send_event : Sent :=
  let r := Retry.retry_with_backoff QArith_base.Qmult _send 2
             (QArith_base.Qmake 1 1) (QArith_base.Qmake 2 1) in
  mkSent (match Retry.outcome r with
          | Retry.Returned result => result
          | Retry.ReturnedNone => false
          | Retry.Reraised _ => false
          end)
         (Retry.calls r) (Retry.sleeps r).

End Client.

Arguments register_agent {E} post.
Arguments _send {E} post raise_for_status attempt.
Arguments send_event {E} post raise_for_status.

End CoreAPIClient.

(* ===================================================================== *)
(** ** API key check: [app/core/security.py] *)
(* ===================================================================== *)

(** [verify_api_key(api_key)] against [settings.agent_api_key]; the header
    is read with [auto_error=False], so a missing header is [None]. *)
Definition verify_api_key (agent_api_key : string) (api_key : option string)
  : Res string :=
  match api_key with
  | None => Raise (HTTPException 401)
  | Some k =>
      if String.eqb k "" then Raise (HTTPException 401)
      else if negb (String.eqb k agent_api_key) then Raise (HTTPException 403)
      else Ok k
  end.

(** [settings.agent_api_key] when the environment does not set it. *)
Definition default_agent_api_key : string := "".

(* ===================================================================== *)
(** ** The Reality parameter store: [app/core/reality_config.py] *)
(* ===================================================================== *)

Module RealityConfig.

(** [/etc/xray/reality.json] as a dictionary; a key that may be missing is
    an [option]. *)
Record Reality := mkReality {
  public_key : option string;
  private_key : option string;
  short_ids : option (list string);
  fingerprint : option string;
  sni : option string;
  spx : option string
}.

Inductive RealityFile :=
| RAbsent
| RGarbled
| RHolds (config : Reality).

(** How a write of the file ends: completed, refused before the file is
    touched ([mkdir] or [open] fails), or broken off after the truncating
    [open]. *)
Inductive WriteOutcome := Written | Refused | Torn.

(** The store: the file and the number of draws made from outside (random
    keys, random short ids, write outcomes). *)
Record Store := mkStore { rfile : RealityFile; draws : nat }.

Section Oracles.

(** [generate_reality_keys()], [generate_short_id()] and the file system,
    by number of the draw. *)
Variable generate_reality_keys : nat -> string * string.
Variable generate_short_id : nat -> string.
Variable write_outcome : nat -> WriteOutcome.

Definition RM (A : Type) : Type := Store -> Res A * Store.

Definition rbind {A B} (m : RM A) (k : A -> RM B) : RM B :=
  fun s =>
    match m s with
    | (Ok a, s') => k a s'
    | (Raise e, s') => (Raise e, s')
    end.

Definition rret {A} (a : A) : RM A := fun s => (Ok a, s).

Definition draw {A} (oracle : nat -> A) : RM A :=
  fun s => (Ok (oracle (draws s)), mkStore (rfile s) (S (draws s))).

(** [save_reality_config(config)] *)
Definition save_reality_config (config : Reality) : RM unit :=
  rbind (draw write_outcome) (fun o s =>
    match o with
    | Written => (Ok tt, mkStore (RHolds config) (draws s))
    | Refused => (Raise OSError, s)
    | Torn => (Raise OSError, mkStore RGarbled (draws s))
    end).

(** The dictionary literal of [create_reality_config()];
    [get_default_spx()] is ["/"]. *)
Definition new_config (keys : string * string) (short_id : string) : Reality :=
  mkReality (Some (fst keys)) (Some (snd keys)) (Some [short_id])
            (Some "chrome") (Some "nltimes.nl") (Some "/").

(** [create_reality_config()] *)
Definition create_reality_config : RM Reality :=
  rbind (draw generate_reality_keys) (fun keys =>
  rbind (draw generate_short_id) (fun short_id =>
  let config := new_config keys short_id in
  rbind (save_reality_config config) (fun _ =>
  rret config))).

(** [load_reality_config()]: a missing file and a file that cannot be read
    both lead to [create_reality_config()]. *)
Definition load_reality_config : RM Reality :=
  fun s =>
    match rfile s with
    | RAbsent => create_reality_config s
    | RGarbled => create_reality_config s
    | RHolds config => (Ok config, s)
    end.

Definition get_reality_config : RM Reality := load_reality_config.

(** [config.get("short_ids", [])] *)
Definition short_ids_of (config : Reality) : list string :=
  match short_ids config with Some l => l | None => [] end.

(** [add_short_id(short_id)] *)
Definition add_short_id (short_id : option string) : RM string :=
  rbind load_reality_config (fun config =>
  rbind (match short_id with
         | None => draw generate_short_id
         | Some s => rret s
         end) (fun short_id' =>
  if existsb (String.eqb short_id') (short_ids_of config) then rret short_id'
  else
    let config' :=
      mkReality (public_key config) (private_key config)
                (Some (short_ids_of config ++ [short_id'])%list)
                (fingerprint config) (sni config) (spx config) in
    rbind (save_reality_config config') (fun _ => rret short_id'))).

Definition get_or (x : option string) (dflt : string) : string :=
  match x with Some v => v | None => dflt end.

Definition get_reality_public_key : RM string :=
  rbind load_reality_config (fun config => rret (get_or (public_key config) "")).

Definition get_reality_private_key : RM string :=
  rbind load_reality_config (fun config => rret (get_or (private_key config) "")).

Definition get_reality_sni : RM string :=
  rbind load_reality_config (fun config => rret (get_or (sni config) "nltimes.nl")).

Definition get_reality_fingerprint : RM string :=
  rbind load_reality_config (fun config => rret (get_or (fingerprint config) "chrome")).

Definition get_reality_spx : RM string :=
  rbind load_reality_config (fun config => rret (get_or (spx config) "/")).

(** The answer of [GET /reality] ([get_reality_config] of [app/api/agent.py]). *)
Record RealityAnswer := mkAnswer {
  a_public_key : string;
  a_fingerprint : string;
  a_sni : string;
  a_spx : string;
  a_short_ids : list string
}.

Definition reality_endpoint : RM RealityAnswer :=
  rbind get_reality_config (fun reality_config =>
  let ids := short_ids_of reality_config in
  rbind get_reality_public_key (fun pk =>
  rbind get_reality_fingerprint (fun fp =>
  rbind get_reality_sni (fun sn =>
  rbind get_reality_spx (fun sp =>
  rret (mkAnswer pk fp sn sp ids)))))).

End Oracles.

(** Every write completes. *)
Definition writes_complete (write_outcome : nat -> WriteOutcome) : Prop :=
  forall n, write_outcome n = Written.

End RealityConfig.

(** The test of [_maybe_sync]: no sync yet, or the interval has passed at
    the reading of the clock made in state [w]. *)
Definition sync_due (env : Env) (w : World) : bool :=
  match last_sync (cache w) with
  | None => true
  | Some t0 => clock env (tick w) - t0 >=? sync_interval (cache w)
  end.
(* ===================================================================== *)
(** ** Concrete environments and worlds *)
(* ===================================================================== *)

Module Scenario.

Definition uA : string := "aaaaaaaa-0000-4000-8000-000000000001".
Definition uB : string := "bbbbbbbb-0000-4000-8000-000000000002".
Definition uX : string := "cccccccc-0000-4000-8000-000000000003".

(** A stand-in for [uuid.UUID]: the canonical 36-character form. *)
Definition uuid36 (s : string) : bool := Nat.eqb (String.length s) 36.

(** No xray container is running: validation is skipped. *)
Definition no_container : DockerRun :=
  mkDockerRun true (Some false) (Exit 0) (Exit 0) true.

(** [xray -test] runs and rejects the candidate. *)
Definition rejecting : DockerRun :=
  mkDockerRun true (Some true) (Exit 0) (Exit 1) true.

Definition make_env (clk : nat -> Z) (dock : DockerRun) (fault : option nat)
  (probe : option Z) (rpc : Rpc) (reload : Proc) : Env :=
  mkEnv clk uuid36 (fun _ => Some ["0a1b2c"]) (fun _ => true)
        (fun _ _ => dock) (fun _ => fault)
        true true (fun _ => probe) (fun _ => rpc)
        (fun _ => reload) (fun _ => Exit 0).

(** One second passes between two readings of the clock. *)
Definition ticking : nat -> Z := fun t => Z.of_nat t * 1000000.

(** Healthy store, control endpoint unreachable. *)
Definition live_down : Env :=
  make_env ticking no_container None (Some 111) RpcFailed (Exit 0).

(** The write fails after the truncating open (disk full during dump). *)
Definition disk_full : Env :=
  make_env ticking no_container (Some 2%nat) (Some 111) RpcFailed (Exit 0).

(** [xray -test] rejects every candidate configuration. *)
Definition test_rejects : Env :=
  make_env ticking rejecting None (Some 111) RpcFailed (Exit 0).

Definition client (u e : string) : Client := vision_client u e.

Definition config_of (l : list Client) : Config :=
  mkConfig [default_vless l; default_api_inbound].

(** The registry of a process that has just started. *)
Definition new_cache : Cache := mkCache (empty_set string) None (minutes 5) None.

Definition world_of (f : FileState) (c : Cache) : World := mkWorld f c 0 [].

Definition add_request (u : string) (e : option string) : CommandRequest :=
  mkRequest "add_user" (Some u) None e.

Definition remove_request (u : string) : CommandRequest :=
  mkRequest "remove_user" (Some u) None None.

Definition regenerate_request (old new : string) (e : option string) : CommandRequest :=
  mkRequest "regenerate_user" (Some new) (Some old) e.

(** The registry was synced two minutes ago: neither stale (five minutes)
    nor fresh (one minute). *)
Definition two_minutes_on : nat -> Z := fun t => minutes 2 + Z.of_nat t * 1000000.

(** Healthy store, control endpoint reachable but failing every call,
    reload command exiting with 0. *)
Definition live_rejects_later : Env :=
  make_env two_minutes_on no_container None (Some 0) RpcFailed (Exit 0).

Definition synced_cache (ids : set string) : Cache :=
  mkCache ids (Some 0) (minutes 5) None.

Definition add_response : Response :=
  mkResponse true "Command add_user executed successfully" (Some "0a1b2c").

Definition regenerate_response : Response :=
  mkResponse true "User regenerated successfully" (Some "0a1b2c").

(** Healthy store, control endpoint reachable and accepting every call. *)
Definition live_up : Env :=
  make_env two_minutes_on no_container None (Some 0) RpcDone (Exit 0).

(** Healthy store, control endpoint unreachable, reload command failing. *)
Definition reload_broken : Env :=
  make_env two_minutes_on no_container None (Some 111) RpcFailed (Exit 1).

(** The control endpoint accepts every call, [xray -test] rejects every
    candidate configuration. *)
Definition live_up_test_rejects : Env :=
  make_env two_minutes_on rejecting None (Some 0) RpcDone (Exit 0).

(** Ten minutes have passed since time 0: a registry synced at 0 is stale. *)
Definition ten_minutes_on : nat -> Z := fun t => minutes 10 + Z.of_nat t * 1000000.

Definition much_later : Env :=
  make_env ten_minutes_on no_container None (Some 111) RpcFailed (Exit 0).

Definition remove_response : Response :=
  mkResponse true "Command remove_user executed successfully" None.

End Scenario.

(* ===================================================================== *)
(** ** Running the monad *)
(* ===================================================================== *)

Lemma bind_run {A B} (m : M A) (k : A -> M B) (env : Env) (w : World) :
  bind m k env w
  = match m env w with
    | (Ok a, w') => k a env w'
    | (Raise e, w') => (Raise e, w')
    end.
Proof. reflexivity. Qed.

Lemma try_run {A} (m : M A) (h : Exn -> M A) (env : Env) (w : World) :
  try_except m h env w
  = match m env w with
    | (Ok a, w') => (Ok a, w')
    | (Raise e, w') => h e env w'
    end.
Proof. reflexivity. Qed.

Lemma check_uuid_ok (env : Env) (w : World) (s : string) :
  uuid_parses env s = true -> check_uuid s env w = (Ok tt, w).
Proof.
  intros H. unfold check_uuid, bind, constant. rewrite H. reflexivity.
Qed.

(* ===================================================================== *)
(** ** Equations of the ConfigStore *)
(* ===================================================================== *)

Lemma validate_run (env : Env) (w : World) (c : Config) :
  validate_xray_config c env w
  = (Ok (verdict (docker env (tick w) c)), next_tick w).
Proof.
  unfold validate_xray_config, verdict, try_except, bind, ask, raise, ret.
  destruct (docker env (tick w) c) as [tw cf cp tp cl]; cbn.
  destruct tw; cbn; [|reflexivity].
  destruct cf as [[|]|]; cbn; try reflexivity.
  destruct cp as [rc| |]; cbn; try reflexivity.
  destruct (rc =? 0); cbn; [|reflexivity].
  destruct tp as [t| |]; cbn; try reflexivity.
  destruct cl; cbn; [|reflexivity].
  destruct (t =? 0); reflexivity.
Qed.

Lemma save_run (env : Env) (w : World) (c : Config) :
  save_xray_config c true env w = save_result env w c.
Proof.
  unfold save_xray_config, save_result.
  unfold bind at 1. unfold bind at 1. rewrite validate_run.
  destruct (verdict (docker env (tick w) c)); cbn; [|reflexivity].
  destruct (fs_fault env (S (tick w))) as [[|[|[|k]]]|]; reflexivity.
Qed.

Lemma reload_run (env : Env) (w : World) (site : ReloadSite) :
  reload_xray site env w
  = (Ok (reload_ok (reload_command env (tick w))),
     log_event (EvReload site (reload_ok (reload_command env (tick w))))
               (next_tick w)).
Proof.
  unfold reload_xray, run_process, try_except, bind, ask, emit, ret, reload_ok.
  destruct (reload_command env (tick w)); reflexivity.
Qed.

Lemma load_holds (env : Env) (w : World) (c : Config) :
  file w = FHolds c ->
  load_xray_config env w
  = match migrate_inbounds (inbounds c) with
    | Some ibs => (Ok (mkConfig ibs),
                   migration_result env (log_event EvLoad w) (mkConfig ibs))
    | None => (Ok c, log_event EvLoad w)
    end.
Proof.
  intros Hf. unfold load_xray_config, bind at 1. cbn.
  unfold bind at 1. cbn. rewrite Hf.
  destruct (migrate_inbounds (inbounds c)) as [ibs|]; [|reflexivity].
  unfold bind at 1, try_except, migration_result.
  unfold bind at 1. rewrite save_run.
  destruct (save_result env (log_event EvLoad w) (mkConfig ibs)) as [[[]|e] w1];
    [|reflexivity].
  unfold bind. rewrite reload_run. reflexivity.
Qed.

Lemma load_garbled (env : Env) (w : World) :
  file w = FGarbled ->
  load_xray_config env w = (Raise JSONDecodeError, log_event EvLoad w).
Proof.
  intros Hf. unfold load_xray_config, bind at 1. cbn.
  unfold bind at 1. cbn. rewrite Hf. reflexivity.
Qed.

Lemma load_foreign (env : Env) (w : World) (fault : ShapeFault) :
  file w = FForeign fault ->
  load_xray_config env w = (Raise (shape_exn fault), log_event EvLoad w).
Proof.
  intros Hf. unfold load_xray_config, bind at 1. cbn.
  unfold bind at 1. cbn. rewrite Hf. reflexivity.
Qed.

Lemma load_absent (env : Env) (w : World) :
  file w = FAbsent ->
  load_xray_config env w = get_default_config env (log_event EvLoad w).
Proof.
  intros Hf. unfold load_xray_config, bind at 1. cbn.
  unfold bind at 1. cbn. rewrite Hf. reflexivity.
Qed.

(** Unfolds [get_default_config] and splits on every answer of the Reality
    parameter store. *)
Ltac run_default_config :=
  unfold get_default_config, get_reality_short_ids, save_reality_config,
    bind, ask, read_file, ret, raise;
  repeat match goal with
         | |- context [reality_short_ids ?e ?t] =>
             destruct (reality_short_ids e t)
         | |- context [reality_writable ?e ?t] =>
             destruct (reality_writable e t)
         | |- context [match ?l with [] => _ | _ :: _ => _ end] =>
             destruct l
         end.

Ltac read_reality H :=
  match goal with
  | |- context [reality_short_ids ?env ?t] =>
      let E := fresh "E" in
      destruct (reality_short_ids env t) eqn:E;
      [| exfalso; exact (proj1 H t E)]
  end.

Lemma reality_read (env : Env) (w : World) :
  reality_answers env ->
  exists ids, get_reality_short_ids env w = (Ok ids, next_tick w).
Proof.
  intros H. unfold get_reality_short_ids, bind, ask.
  read_reality H. eexists. reflexivity.
Qed.

Lemma default_config_absent (env : Env) (w : World) :
  reality_answers env ->
  file w = FAbsent ->
  exists w1,
    get_default_config env w
    = (Ok (mkConfig [default_vless []; default_api_inbound]), w1)
    /\ file w1 = file w /\ cache w1 = cache w /\ trace w1 = trace w.
Proof.
  intros H Hf. unfold get_default_config.
  unfold get_reality_short_ids, save_reality_config, bind, ask, read_file, ret. cbn.
  repeat read_reality H.
  destruct l as [|s l']; try rewrite (proj2 H); cbn; rewrite Hf;
    (eexists; split; [reflexivity|]; cbn; auto).
Qed.

(* ===================================================================== *)
(** ** ConfigStore: save and load *)
(* ===================================================================== *)

(** C3 (as amended).  [save_xray_config] validates and then rewrites the
    config file in place: there is no temporary file and no rename, the
    file-system operations are mkdir, a truncating open of the config file
    itself and the dump.  When validation rejects the candidate, or mkdir or
    the open fails, the prior file is untouched; when the dump completes the
    file holds the new configuration; a failure after the truncating open
    leaves a garbled file, and so does a process that dies between the open
    and the end of the dump. *)
Theorem save_rewrites_in_place (env : Env) (w : World) (c : Config) :
  save_fs_ops c = [FsMkdirParents; FsOpenTruncate; FsDump c]
  /\ (let r := save_xray_config c true env w in
      (fst r = Ok tt /\ file (snd r) = FHolds c /\
       verdict (docker env (tick w) c) = true)
      \/ (fst r = Raise ValueError /\ file (snd r) = file w /\
          verdict (docker env (tick w) c) = false)
      \/ (fst r = Raise OSError /\ file (snd r) = file w /\
          (fs_fault env (S (tick w)) = Some 0%nat \/
           fs_fault env (S (tick w)) = Some 1%nat))
      \/ (fst r = Raise OSError /\ file (snd r) = FGarbled /\
          fs_fault env (S (tick w)) = Some 2%nat))
  /\ file_after_crash 0 c (file w) = file w
  /\ file_after_crash 1 c (file w) = file w
  /\ file_after_crash 2 c (file w) = FGarbled
  /\ file_after_crash 3 c (file w) = FHolds c.
Proof.
  split; [reflexivity|]. split; [|cbn; auto].
  rewrite save_run. unfold save_result.
  destruct (verdict (docker env (tick w) c)); cbn.
  - destruct (fs_fault env (S (tick w))) as [[|[|[|k]]]|]; cbn; auto 10.
  - auto 10.
Qed.

(** C3, counterexample.  The disk fills up during the dump of a new
    configuration over an existing one: the save fails and the config file
    holds neither the prior nor the new content. *)
Lemma save_not_atomic :
  let prior := Scenario.config_of [] in
  let new := Scenario.config_of [Scenario.client Scenario.uA "u1"] in
  let w := Scenario.world_of (FHolds prior) Scenario.new_cache in
  let r := save_xray_config new true Scenario.disk_full w in
  fst r = Raise OSError
  /\ file (snd r) <> FHolds prior
  /\ file (snd r) <> FHolds new.
Proof.
  cbn. repeat split; discriminate.
Qed.




(* ===================================================================== *)
(** ** The engine at concrete inputs *)
(* ===================================================================== *)

(** C1, the code at a failing input.  The control endpoint is reachable
    but rejects the call, the registry was synced two minutes ago and does
    not know the user.  The engine merges the user into the loaded config,
    saves it and updates the registry, and answers success without running
    the reload command, although [should_reload_xray] asked in the
    resulting state says a reload is needed: the handler never consults
    it, and its own test ([not user_cache.exists(...)]) comes after the
    registry was updated. *)
Theorem fallback_add_skips_reload :
  let env := Scenario.live_rejects_later in
  let w := Scenario.world_of (FHolds (Scenario.config_of []))
                             (Scenario.synced_cache []) in
  let r := receive_command (Scenario.add_request Scenario.uA (Some "u1")) env w in
  fst r = Ok Scenario.add_response
  /\ existsb (fun e => match e with EvGrpcAdd _ _ _ false => true | _ => false end)
             (trace (snd r)) = true
  /\ persisted_clients (file (snd r)) = [Scenario.client Scenario.uA "u1"]
  /\ users (cache (snd r)) = [Scenario.uA]
  /\ count is_reload (trace (snd r)) = 0%nat
  /\ fst (UserCache.should_reload_xray Scenario.uA env (snd r)) = Ok true.
Proof.
  vm_compute. repeat split; reflexivity.
Qed.

(** C6, the code at a failing input.  Replacing an absent identifier by
    [uB] with the label that [uA] carries appends the new entry without
    dropping the conflicting one: the saved client list holds the label
    twice. *)
Theorem regenerate_keeps_label_conflict :
  let env := Scenario.live_down in
  let w := Scenario.world_of
             (FHolds (Scenario.config_of [Scenario.client Scenario.uA "u1"]))
             Scenario.new_cache in
  let r := receive_command
             (Scenario.regenerate_request Scenario.uX Scenario.uB (Some "u1")) env w in
  fst r = Ok Scenario.regenerate_response
  /\ persisted_clients (file (snd r))
     = [Scenario.client Scenario.uA "u1"; Scenario.client Scenario.uB "u1"]
  /\ labels (persisted_clients (file (snd r))) = [Some "u1"; Some "u1"].
Proof.
  vm_compute. repeat split; reflexivity.
Qed.

(** C8, counterexample.  A process starts on an absent config file; [uA]
    is added with label "x", then [uB] with the same label, which drops
    [uA]'s entry from the config while the registry keeps listing [uA].
    Two more add requests for [uA] both answer success from the registry
    alone and write nothing: the persisted client list holds no entry with
    id [uA]. *)
Lemma repeated_add_trusts_stale_entry :
  let env := Scenario.live_down in
  let w := snd (serve [Scenario.add_request Scenario.uA (Some "x");
                       Scenario.add_request Scenario.uB (Some "x")] env
                      (Scenario.world_of FAbsent Scenario.new_cache)) in
  let r := serve [Scenario.add_request Scenario.uA (Some "x");
                  Scenario.add_request Scenario.uA (Some "x")] env w in
  fst r = [Ok Scenario.add_response; Ok Scenario.add_response]
  /\ entries_with_id Scenario.uA (persisted_clients (file (snd r))) = 0%nat
  /\ file (snd r) = file w.
Proof.
  vm_compute. repeat split; reflexivity.
Qed.

(** C2, counterexample.  The registry, synced a moment ago, still lists
    [uA]; the persisted client list is empty.  Removing [uA] finds nothing
    in the config on either path and the handler answers 400. *)
Lemma remove_absent_fails_on_stale_registry :
  let env := Scenario.live_down in
  let w := Scenario.world_of (FHolds (Scenario.config_of []))
                             (Scenario.synced_cache [Scenario.uA]) in
  let r := receive_command (Scenario.remove_request Scenario.uA) env w in
  existsb (has_id Scenario.uA) (persisted_clients (file w)) = false
  /\ fst r = Raise (HTTPException 400).
Proof.
  vm_compute. split; reflexivity.
Qed.


(* ===================================================================== *)
(** ** Read-only paths *)
(* ===================================================================== *)

Lemma default_config_reads_only (env : Env) (w : World) :
  let r := get_default_config env w in
  file (snd r) = file w /\ cache (snd r) = cache w /\ trace (snd r) = trace w.
Proof.
  run_default_config; cbn; auto.
Qed.

Lemma load_settled_reads_only (env : Env) (w : World) :
  settled (file w) ->
  let r := load_xray_config env w in
  file (snd r) = file w /\ cache (snd r) = cache w
  /\ trace (snd r) = EvLoad :: trace w.
Proof.
  intros Hs. destruct (file w) as [| |c|sf] eqn:Hf.
  - rewrite (load_absent env w Hf).
    destruct (default_config_reads_only env (log_event EvLoad w)) as (A & B & C).
    cbn in *. rewrite A, B, C. auto.
  - rewrite (load_garbled env w Hf). cbn. auto.
  - rewrite (load_holds env w c Hf). cbn in Hs. rewrite Hs. cbn. auto.
  - rewrite (load_foreign env w sf Hf). cbn. auto.
Qed.

Lemma load_settled_value (env : Env) (w : World) (c : Config) :
  file w = FHolds c -> settled (file w) ->
  load_xray_config env w = (Ok c, log_event EvLoad w).
Proof.
  intros Hf Hs. rewrite (load_holds env w c Hf).
  rewrite Hf in Hs. cbn in Hs. rewrite Hs. reflexivity.
Qed.

(** A load of an absent file gives the default document or raises. *)
Lemma load_absent_value (env : Env) (w : World) :
  file w = FAbsent ->
  fst (load_xray_config env w) = Ok (mkConfig [default_vless []; default_api_inbound])
  \/ exists e, fst (load_xray_config env w) = Raise e.
Proof.
  intros Hf. rewrite (load_absent env w Hf).
  run_default_config; cbn; rewrite ?Hf; eauto.
Qed.

Lemma sync_settled_keeps_file (env : Env) (w : World) :
  settled (file w) ->
  file (snd (UserCache.sync_from_config env w)) = file w.
Proof.
  intros Hs. unfold UserCache.sync_from_config, try_except, bind.
  destruct (load_settled_reads_only env w Hs) as (A & _).
  destruct (load_xray_config env w) as [[c|e] w1]; cbn in *; auto.
Qed.

Lemma exists_settled_keeps_file (env : Env) (w : World) (u : string) (b : bool) :
  settled (file w) ->
  file (snd (UserCache.exists_ u b env w)) = file w.
Proof.
  intros Hs. unfold UserCache.exists_, bind.
  destruct b; cbn; [|reflexivity].
  unfold UserCache.maybe_sync, bind, get_cache, now, ask.
  destruct (last_sync (cache w)) as [t0|].
  - cbn. destruct (clock env (tick w) - t0 >=? sync_interval (cache w)).
    + pose proof (sync_settled_keeps_file env (next_tick w) Hs) as A.
      destruct (UserCache.sync_from_config env (next_tick w)) as [[[]|e] w1];
        cbn in *; auto.
    + reflexivity.
  - pose proof (sync_settled_keeps_file env w Hs) as A.
    destruct (UserCache.sync_from_config env w) as [[[]|e] w1]; cbn in *; auto.
Qed.

Lemma exists_never_raises (env : Env) (w : World) (u : string) (b : bool) :
  exists r, fst (UserCache.exists_ u b env w) = Ok r.
Proof.
  unfold UserCache.exists_, bind.
  destruct b; cbn; [|eauto].
  assert (S : forall w0, exists w1, UserCache.sync_from_config env w0 = (Ok tt, w1)).
  { intros w0. unfold UserCache.sync_from_config, try_except, bind.
    destruct (load_xray_config env w0) as [[c|e] w1];
      unfold get_cache, put_cache, now, ask, emit, ret; cbn; eauto. }
  unfold UserCache.maybe_sync, bind, get_cache, now, ask.
  destruct (last_sync (cache w)) as [t0|].
  - cbn. destruct (clock env (tick w) - t0 >=? sync_interval (cache w)).
    + destruct (S (next_tick w)) as (w1 & E). rewrite E. cbn. eauto.
    + cbn. eauto.
  - destruct (S w) as (w1 & E). rewrite E. cbn. eauto.
Qed.

Lemma find_client_absent (u : string) (l : list Client) :
  existsb (has_id u) l = false -> XRayGRPCClient.find_client u l = None.
Proof.
  induction l as [|cl l IH]; cbn; [reflexivity|].
  destruct (has_id u cl); cbn; [discriminate | exact IH].
Qed.

Lemma drop_id_absent (u : string) (l : list Client) :
  existsb (has_id u) l = false -> drop_id u l = l.
Proof.
  unfold drop_id. induction l as [|cl l IH]; cbn; [reflexivity|].
  destruct (has_id u cl); cbn; [discriminate|].
  intros H. rewrite (IH H). reflexivity.
Qed.

(** Neither removal path touches the file when the identifier is not in the
    persisted list; on a readable file both report "not found". *)
Lemma remove_via_api_absent (env : Env) (w : World) (u : string) :
  settled (file w) ->
  existsb (has_id u) (persisted_clients (file w)) = false ->
  let r := remove_user_via_api u env w in
  file (snd r) = file w
  /\ (fst r = Ok (false, false) \/ exists e, fst r = Raise e)
  /\ ((exists c, file w = FHolds c) -> fst r = Ok (false, false)).
Proof.
  intros Hs Ha. unfold remove_user_via_api, bind.
  destruct (load_settled_reads_only env w Hs) as (A & _ & _).
  destruct (file w) as [| |c|sf] eqn:Hf.
  - destruct (load_absent_value env w Hf) as [E|(e & E)];
      destruct (load_xray_config env w) as [[c0|e0] w1]; cbn in *;
      try discriminate.
    + injection E as ->. cbn. repeat split; auto.
    + repeat split; eauto. intros (c & Hc). discriminate.
  - rewrite (load_garbled env w Hf). cbn. repeat split; eauto.
    intros (c & Hc). discriminate.
  - assert (Hs' : settled (file w)) by (rewrite Hf; exact Hs).
    rewrite (load_settled_value env w c Hf Hs'). cbn in Ha.
    destruct (find_vless c) as [ib|]; cbn.
    + rewrite (find_client_absent u _ Ha). cbn. rewrite Hf. auto.
    + rewrite Hf. auto.
  - rewrite (load_foreign env w sf Hf). cbn. repeat split; eauto.
    intros (c & Hc). discriminate.
Qed.

Lemma remove_from_config_absent (env : Env) (w : World) (u : string) :
  settled (file w) ->
  existsb (has_id u) (persisted_clients (file w)) = false ->
  let r := remove_user_from_config u env w in
  file (snd r) = file w
  /\ (fst r = Ok false \/ exists e, fst r = Raise e)
  /\ ((exists c, file w = FHolds c) -> fst r = Ok false).
Proof.
  intros Hs Ha. unfold remove_user_from_config, bind.
  destruct (load_settled_reads_only env w Hs) as (A & _ & _).
  destruct (file w) as [| |c|sf] eqn:Hf.
  - destruct (load_absent_value env w Hf) as [E|(e & E)];
      destruct (load_xray_config env w) as [[c0|e0] w1]; cbn in *;
      try discriminate.
    + injection E as ->. cbn. auto.
    + repeat split; eauto. intros (c & Hc). discriminate.
  - rewrite (load_garbled env w Hf). cbn. repeat split; eauto.
    intros (c & Hc). discriminate.
  - assert (Hs' : settled (file w)) by (rewrite Hf; exact Hs).
    rewrite (load_settled_value env w c Hf Hs'). cbn in Ha.
    destruct (find_vless c) as [ib|]; cbn.
    + rewrite (drop_id_absent u _ Ha). rewrite Nat.eqb_refl. cbn. rewrite Hf. auto.
    + rewrite Hf. auto.
  - rewrite (load_foreign env w sf Hf). cbn. repeat split; eauto.
    intros (c & Hc). discriminate.
Qed.

(* ===================================================================== *)
(** ** Remove of an identifier that is not persisted *)
(* ===================================================================== *)

(** C2 (as amended).  Let [u] be absent from the persisted client list of a
    settled config file.  A remove_user request never changes the file.  It
    answers success when the registry, after its staleness refresh, does not
    list [u]; when the registry still lists [u] and the file holds a
    configuration, both removal paths report "not found" and the handler
    answers 400. *)
Theorem remove_absent_user (env : Env) (w : World) (u : string)
  (old e : option string) :
  u <> "" ->
  uuid_parses env u = true ->
  settled (file w) ->
  existsb (has_id u) (persisted_clients (file w)) = false ->
  let r := receive_command (mkRequest "remove_user" (Some u) old e) env w in
  file (snd r) = file w
  /\ (fst (UserCache.exists_ u true env w) = Ok false ->
      fst r = Ok (mkResponse true "Command remove_user executed successfully" None))
  /\ (fst (UserCache.exists_ u true env w) = Ok true ->
      (exists c, file w = FHolds c) ->
      fst r = Raise (HTTPException 400)).
Proof.
  intros Hne Hu Hs Ha.
  unfold receive_command. cbn [command user_uuid].
  change (String.eqb "remove_user" "restart_xray") with false.
  change (String.eqb "remove_user" "regenerate_user") with false.
  change (String.eqb "remove_user" "add_user") with false.
  change (String.eqb "remove_user" "remove_user") with true.
  cbv iota.
  rewrite (proj2 (String.eqb_neq u "") Hne).
  rewrite bind_run, (check_uuid_ok env w u Hu).
  rewrite bind_run. unfold handle_remove. rewrite bind_run.
  pose proof (exists_settled_keeps_file env w u true Hs) as Hfile.
  destruct (exists_never_raises env w u true) as (b & Hb).
  destruct (UserCache.exists_ u true env w) as [[b'|x] w1]; cbn in Hb;
    [injection Hb as ->|discriminate].
  cbn [fst snd] in *.
  destruct b; cbn [negb].
  - (* the registry lists u *)
    assert (Hs1 : settled (file w1)) by (rewrite Hfile; exact Hs).
    assert (Ha1 : existsb (has_id u) (persisted_clients (file w1)) = false)
      by (rewrite Hfile; exact Ha).
    destruct (remove_via_api_absent env w1 u Hs1 Ha1) as (F1 & R1 & H1).
    rewrite Hfile in H1.
    rewrite bind_run.
    destruct (remove_user_via_api u env w1) as [[[s g]|x] w2]; cbn [fst snd] in *.
    + assert (s = false /\ g = false) as [-> ->].
      { destruct R1 as [R1|(x & R1)]; [injection R1; auto | discriminate]. }
      assert (Hs2 : settled (file w2)) by (rewrite F1; exact Hs1).
      assert (Ha2 : existsb (has_id u) (persisted_clients (file w2)) = false)
        by (rewrite F1; exact Ha1).
      destruct (remove_from_config_absent env w2 u Hs2 Ha2) as (F2 & R2 & H2).
      rewrite F1, Hfile in H2.
      rewrite bind_run.
      destruct (remove_user_from_config u env w2) as [[s|x] w3]; cbn [fst snd] in *.
      * assert (s = false) as ->.
        { destruct R2 as [R2|(x & R2)]; [injection R2; auto | discriminate]. }
        unfold ret, raise. cbn [fst snd].
        split; [congruence|]. split; [discriminate|reflexivity].
      * unfold ret, raise. cbn [fst snd].
        split; [congruence|]. split; [discriminate|].
        intros _ Hc. specialize (H2 Hc). discriminate.
    + unfold ret, raise. cbn [fst snd].
      split; [congruence|]. split; [discriminate|].
      intros _ Hc. specialize (H1 Hc). discriminate.
  - unfold ret. cbn [fst snd]. split; [assumption|]. split; [reflexivity|discriminate].
Qed.

(** C2, witness: an unknown identifier on a fresh process. *)
Lemma remove_absent_user_witness :
  let w := Scenario.world_of
             (FHolds (Scenario.config_of [Scenario.client Scenario.uB "u2"]))
             Scenario.new_cache in
  let r := receive_command (Scenario.remove_request Scenario.uA) Scenario.live_down w in
  file (snd r) = file w
  /\ fst r = Ok (mkResponse true "Command remove_user executed successfully" None).
Proof.
  intros w r.
  destruct (remove_absent_user Scenario.live_down w Scenario.uA None None)
    as (A & B & _).
  - discriminate.
  - reflexivity.
  - reflexivity.
  - reflexivity.
  - split; [exact A | apply B; reflexivity].
Defined.

(* ===================================================================== *)
(** ** Structural rules for [silent], [raises_only] and [never_raises] *)
(* ===================================================================== *)

Section Structural.

Context {A B : Type}.
Variable p : Event -> bool.
Variable P : Exn -> Prop.

Lemma silent_ret (a : A) : silent p (ret a).
Proof. intros env w. reflexivity. Qed.

Lemma silent_raise (e : Exn) : silent p (@raise A e).
Proof. intros env w. reflexivity. Qed.

Lemma silent_ask (oracle : Env -> nat -> A) : silent p (ask oracle).
Proof. intros env w. reflexivity. Qed.

Lemma silent_constant (field : Env -> A) : silent p (constant field).
Proof. intros env w. reflexivity. Qed.

Lemma silent_bind (m : M A) (k : A -> M B) :
  silent p m -> (forall a, silent p (k a)) -> silent p (bind m k).
Proof.
  intros Hm Hk env w. rewrite bind_run. specialize (Hm env w).
  destruct (m env w) as [[a|e] w1]; cbn [snd] in *.
  - rewrite (Hk a env w1). exact Hm.
  - exact Hm.
Qed.

Lemma silent_try (m : M A) (h : Exn -> M A) :
  silent p m -> (forall e, silent p (h e)) -> silent p (try_except m h).
Proof.
  intros Hm Hh env w. rewrite try_run. specialize (Hm env w).
  destruct (m env w) as [[a|e] w1]; cbn [snd] in *.
  - exact Hm.
  - rewrite (Hh e env w1). exact Hm.
Qed.

Lemma raises_only_ret (a : A) : raises_only P (ret a).
Proof. intros env w e H. discriminate. Qed.

Lemma raises_only_raise (e : Exn) : P e -> raises_only P (@raise A e).
Proof. intros He env w e' H. injection H as <-. exact He. Qed.

Lemma raises_only_ask (oracle : Env -> nat -> A) : raises_only P (ask oracle).
Proof. intros env w e H. discriminate. Qed.

Lemma raises_only_constant (field : Env -> A) : raises_only P (constant field).
Proof. intros env w e H. discriminate. Qed.

Lemma raises_only_bind (m : M A) (k : A -> M B) :
  raises_only P m -> (forall a, raises_only P (k a)) -> raises_only P (bind m k).
Proof.
  intros Hm Hk env w e. rewrite bind_run. specialize (Hm env w).
  destruct (m env w) as [[a|e'] w1]; cbn [fst] in *.
  - apply Hk.
  - intros H. injection H as <-. apply Hm. reflexivity.
Qed.

Lemma raises_only_try (m : M A) (h : Exn -> M A) :
  (forall e, raises_only P (h e)) -> raises_only P (try_except m h).
Proof.
  intros Hh env w e. rewrite try_run.
  destruct (m env w) as [[a|e'] w1]; cbn [fst].
  - discriminate.
  - apply Hh.
Qed.

Lemma raises_nothing_never (m : M A) :
  raises_only (fun _ => False) m -> never_raises m.
Proof.
  intros Hm env w. specialize (Hm env w).
  destruct (fst (m env w)) as [a|e]; [eauto|].
  destruct (Hm e eq_refl).
Qed.

End Structural.

Lemma silent_emit (p : Event -> bool) (e : Event) :
  p e = false -> silent p (emit e).
Proof. intros H env w. unfold count. cbn. rewrite H. reflexivity. Qed.

Lemma silent_read_file (p : Event -> bool) : silent p read_file.
Proof. intros env w. reflexivity. Qed.

Lemma silent_write_file (p : Event -> bool) (f : FileState) : silent p (write_file f).
Proof. intros env w. reflexivity. Qed.

Lemma silent_get_cache (p : Event -> bool) : silent p get_cache.
Proof. intros env w. reflexivity. Qed.

Lemma silent_put_cache (p : Event -> bool) (c : Cache) : silent p (put_cache c).
Proof. intros env w. reflexivity. Qed.

Lemma raises_only_emit (P : Exn -> Prop) (e : Event) : raises_only P (emit e).
Proof. intros env w x H. discriminate. Qed.

Lemma raises_only_read_file (P : Exn -> Prop) : raises_only P read_file.
Proof. intros env w x H. discriminate. Qed.

Lemma raises_only_write_file (P : Exn -> Prop) (f : FileState) :
  raises_only P (write_file f).
Proof. intros env w x H. discriminate. Qed.

Lemma raises_only_get_cache (P : Exn -> Prop) : raises_only P get_cache.
Proof. intros env w x H. discriminate. Qed.

Lemma raises_only_put_cache (P : Exn -> Prop) (c : Cache) :
  raises_only P (put_cache c).
Proof. intros env w x H. discriminate. Qed.

Lemma raises_only_weaken {A} (P Q : Exn -> Prop) (m : M A) :
  (forall e, P e -> Q e) -> raises_only P m -> raises_only Q m.
Proof. intros HPQ Hm env w e H. apply HPQ. exact (Hm env w e H). Qed.

Create HintDb silent_db.
Create HintDb raises_db.

#[export] Hint Resolve silent_ret silent_raise silent_ask silent_constant
  silent_read_file silent_write_file silent_get_cache silent_put_cache : silent_db.
#[export] Hint Resolve raises_only_ret raises_only_ask raises_only_constant
  raises_only_emit raises_only_read_file raises_only_write_file
  raises_only_get_cache raises_only_put_cache : raises_db.

(** Walks through a computation: binds, handlers and case distinctions
    are split, leaves are closed from the hint database. *)
Ltac walk_silent :=
  repeat first
    [ solve [auto with silent_db]
    | apply silent_emit; reflexivity
    | apply silent_bind; [|intros ?]
    | apply silent_try; [|intros ?]
    | match goal with
      | |- silent _ (match ?x with _ => _ end) => destruct x
      end ].

Ltac walk_raises :=
  repeat first
    [ solve [auto with raises_db]
    | apply raises_only_raise;
      solve [unfold handler_exn, store_exn, http_exn; eauto 6]
    | apply raises_only_bind; [|intros ?]
    | apply raises_only_try; intros ?
    | match goal with
      | |- raises_only _ (match ?x with _ => _ end) => destruct x
      end ].

(* ===================================================================== *)
(** ** Which exceptions leave which function *)
(* ===================================================================== *)

Lemma validate_never_raises (P : Exn -> Prop) (c : Config) :
  raises_only P (validate_xray_config c).
Proof. unfold validate_xray_config. walk_raises. Qed.

Lemma run_fs_raises (P : Exn -> Prop) (ops : list FsOp) (fault : option nat) :
  P OSError -> raises_only P (run_fs ops fault).
Proof.
  intros HP. revert fault.
  induction ops as [|op ops IH]; intros fault; cbn [run_fs].
  - auto with raises_db.
  - destruct fault as [[|k]|].
    + apply raises_only_raise. exact HP.
    + walk_raises.
    + walk_raises.
Qed.

Lemma save_raises (P : Exn -> Prop) (c : Config) (validate : bool) :
  P ValueError -> P OSError -> raises_only P (save_xray_config c validate).
Proof.
  intros HV HO. unfold save_xray_config.
  apply raises_only_bind; [|intros ?].
  - destruct validate; [|auto with raises_db].
    apply raises_only_bind; [apply validate_never_raises|intros ok].
    apply raises_only_bind; [auto with raises_db|intros _].
    destruct ok; [auto with raises_db|apply raises_only_raise; exact HV].
  - apply raises_only_bind; [auto with raises_db|intros fault].
    apply raises_only_bind; [apply run_fs_raises; exact HO|intros _].
    auto with raises_db.
Qed.

Lemma reload_never_raises (P : Exn -> Prop) (site : ReloadSite) :
  raises_only P (reload_xray site).
Proof. unfold reload_xray. walk_raises. Qed.

Lemma reality_raises (P : Exn -> Prop) :
  P OSError -> raises_only P get_reality_short_ids.
Proof.
  intros HO. unfold get_reality_short_ids.
  apply raises_only_bind; [auto with raises_db|intros [ids|]].
  - auto with raises_db.
  - apply raises_only_raise. exact HO.
Qed.

Lemma default_config_raises (P : Exn -> Prop) :
  P OSError -> raises_only P get_default_config.
Proof.
  intros HO. unfold get_default_config, save_reality_config.
  repeat (apply raises_only_bind; [try (apply reality_raises; exact HO)|intros ?]);
    try solve [auto with raises_db].
  destruct a; [|auto with raises_db].
  apply raises_only_bind; [auto with raises_db|intros [|]];
    [auto with raises_db | apply raises_only_raise; exact HO].
Qed.

Lemma load_raises (P : Exn -> Prop) :
  P OSError -> P JSONDecodeError -> P AttributeError -> P TypeError ->
  raises_only P load_xray_config.
Proof.
  intros HO HJ HA HT. unfold load_xray_config.
  apply raises_only_bind; [auto with raises_db|intros _].
  apply raises_only_bind; [auto with raises_db|intros [| |c|[|]]].
  - apply default_config_raises. exact HO.
  - apply raises_only_raise. exact HJ.
  - destruct (migrate_inbounds (inbounds c)); walk_raises.
  - apply raises_only_raise. exact HA.
  - apply raises_only_raise. exact HT.
Qed.

Lemma sync_never_raises (P : Exn -> Prop) : raises_only P UserCache.sync_from_config.
Proof. unfold UserCache.sync_from_config. walk_raises. Qed.

Lemma maybe_sync_never_raises (P : Exn -> Prop) : raises_only P UserCache.maybe_sync.
Proof.
  unfold UserCache.maybe_sync, now.
  apply raises_only_bind; [auto with raises_db|intros c].
  destruct (last_sync c); [|apply sync_never_raises].
  apply raises_only_bind; [auto with raises_db|intros t].
  destruct (t - z >=? sync_interval c); [apply sync_never_raises|auto with raises_db].
Qed.

Lemma cache_exists_never_raises (P : Exn -> Prop) (u : string) (b : bool) :
  raises_only P (UserCache.exists_ u b).
Proof.
  unfold UserCache.exists_.
  apply raises_only_bind; [|intros _; walk_raises].
  destruct b; [apply maybe_sync_never_raises|auto with raises_db].
Qed.

Lemma cache_add_never_raises (P : Exn -> Prop) (u : string) :
  raises_only P (UserCache.add u).
Proof. unfold UserCache.add. walk_raises. Qed.

Lemma cache_remove_never_raises (P : Exn -> Prop) (u : string) :
  raises_only P (UserCache.remove u).
Proof. unfold UserCache.remove. walk_raises. Qed.

Lemma is_available_never_raises (P : Exn -> Prop) :
  raises_only P XRayGRPCClient.is_available.
Proof. unfold XRayGRPCClient.is_available. walk_raises. Qed.

Lemma grpc_add_never_raises (P : Exn -> Prop) (tag u e : string) :
  raises_only P (XRayGRPCClient.add_user tag u e).
Proof. unfold XRayGRPCClient.add_user. walk_raises. Qed.

Lemma grpc_remove_never_raises (P : Exn -> Prop) (tag u : string) (e : option string) :
  raises_only P (XRayGRPCClient.remove_user tag u e).
Proof. unfold XRayGRPCClient.remove_user. walk_raises. Qed.

Lemma restart_never_raises (P : Exn -> Prop) : raises_only P restart_xray.
Proof. unfold restart_xray. walk_raises. Qed.

Lemma require_settings_raises (P : Exn -> Prop) (i : Inbound) :
  P KeyError -> raises_only P (require_settings i).
Proof.
  intros HK. unfold require_settings.
  destruct (i_settings i); [auto with raises_db|apply raises_only_raise; exact HK].
Qed.

Lemma store_exn_AttributeError : store_exn AttributeError.
Proof. unfold store_exn. tauto. Qed.

Lemma store_exn_TypeError : store_exn TypeError.
Proof. unfold store_exn. tauto. Qed.

Lemma store_exn_ValueError : store_exn ValueError.
Proof. unfold store_exn. auto. Qed.

Lemma store_exn_OSError : store_exn OSError.
Proof. unfold store_exn. auto. Qed.

Lemma store_exn_JSONDecodeError : store_exn JSONDecodeError.
Proof. unfold store_exn. auto. Qed.

Lemma store_exn_KeyError : store_exn KeyError.
Proof. unfold store_exn. auto. Qed.

Lemma save_store_exn (c : Config) (validate : bool) :
  raises_only store_exn (save_xray_config c validate).
Proof. apply save_raises; [apply store_exn_ValueError|apply store_exn_OSError]. Qed.

Lemma load_store_exn : raises_only store_exn load_xray_config.
Proof.
  apply load_raises;
    [apply store_exn_OSError|apply store_exn_JSONDecodeError
    |apply store_exn_AttributeError|apply store_exn_TypeError].
Qed.

Lemma reality_store_exn : raises_only store_exn get_reality_short_ids.
Proof. apply reality_raises. apply store_exn_OSError. Qed.

Lemma require_settings_store_exn (i : Inbound) :
  raises_only store_exn (require_settings i).
Proof. apply require_settings_raises. apply store_exn_KeyError. Qed.

#[export] Hint Resolve validate_never_raises reload_never_raises
  sync_never_raises maybe_sync_never_raises cache_exists_never_raises
  cache_add_never_raises cache_remove_never_raises is_available_never_raises
  grpc_add_never_raises grpc_remove_never_raises restart_never_raises
  save_store_exn load_store_exn reality_store_exn require_settings_store_exn
  : raises_db.

Lemma add_via_api_store_exn (u : string) (e : option string) :
  raises_only store_exn (add_user_via_api u e).
Proof. unfold add_user_via_api. walk_raises. Qed.

Lemma remove_via_api_store_exn (u : string) :
  raises_only store_exn (remove_user_via_api u).
Proof. unfold remove_user_via_api. walk_raises. Qed.

Lemma regenerate_via_api_store_exn (old new : string) (e : option string) :
  raises_only store_exn (regenerate_user_via_api old new e).
Proof. unfold regenerate_user_via_api, update_inbound_via_api. walk_raises. Qed.

Lemma remove_from_config_store_exn (u : string) :
  raises_only store_exn (remove_user_from_config u).
Proof. unfold remove_user_from_config. walk_raises. Qed.

#[export] Hint Resolve add_via_api_store_exn remove_via_api_store_exn
  regenerate_via_api_store_exn remove_from_config_store_exn : raises_db.

Lemma handle_add_store_exn (u : string) (request : CommandRequest) :
  raises_only store_exn (handle_add u request).
Proof. unfold handle_add. walk_raises. Qed.

Lemma handle_remove_store_exn (u : string) :
  raises_only store_exn (handle_remove u).
Proof. unfold handle_remove. walk_raises. Qed.

(* ===================================================================== *)
(** ** Migration and the first VLESS inbound *)
(* ===================================================================== *)

(** Migration rewrites at most the anti-replay tolerance of one inbound: the
    first VLESS inbound stays in place with its tag and settings. *)
Lemma first_vless_migrate (l l' : list Inbound) :
  migrate_inbounds l = Some l' ->
  exists i i',
    first_vless l = Some i /\ first_vless l' = Some i'
    /\ i_tag i' = i_tag i /\ i_settings i' = i_settings i.
Proof.
  revert l'. induction l as [|x l IH]; intros l'; cbn; [discriminate|].
  destruct (is_vless x) eqn:Hv; cbn.
  - destruct (obsolete_maxTimeDiff (i_maxTimeDiff x)).
    + intros H. injection H as <-. cbn.
      unfold is_vless in *. cbn. rewrite Hv. eauto 6.
    + destruct (migrate_inbounds l) as [r|]; [|discriminate].
      intros H. injection H as <-. cbn. rewrite Hv. eauto 6.
  - destruct (migrate_inbounds l) as [r|]; [|discriminate].
    intros H. injection H as <-. cbn. rewrite Hv.
    apply (IH r). reflexivity.
Qed.

Lemma find_vless_migrated (c : Config) (i : Inbound) :
  find_vless c = Some i ->
  exists i', find_vless (migrated c) = Some i'
             /\ i_tag i' = i_tag i /\ i_settings i' = i_settings i.
Proof.
  unfold migrated, find_vless. intros H.
  destruct (migrate_inbounds (inbounds c)) as [l'|] eqn:E.
  - destruct (first_vless_migrate _ _ E) as (a & a' & Ha & Ha' & T & S).
    cbn. rewrite H in Ha. injection Ha as <-. eauto.
  - eauto.
Qed.

Lemma clients_of_settings (i i' : Inbound) :
  i_settings i' = i_settings i -> clients_of i' = clients_of i.
Proof. unfold clients_of. intros ->. reflexivity. Qed.

(** After an assignment of the client list the first VLESS inbound carries
    it, and no migration becomes pending. *)
Lemma first_vless_assign (l : list Client) (ibs : list Inbound) (i : Inbound) :
  first_vless ibs = Some i ->
  first_vless (assign_clients l ibs) = Some (with_clients i l).
Proof.
  induction ibs as [|x ibs IH]; cbn; [discriminate|].
  destruct (is_vless x) eqn:Hv; cbn.
  - intros H. injection H as ->. unfold is_vless in *. cbn. rewrite Hv. reflexivity.
  - rewrite Hv. exact IH.
Qed.

Lemma migrate_assign (l : list Client) (ibs : list Inbound) :
  migrate_inbounds ibs = None -> migrate_inbounds (assign_clients l ibs) = None.
Proof.
  induction ibs as [|x ibs IH]; cbn; [reflexivity|].
  destruct (is_vless x) eqn:Hv; cbn.
  - unfold is_vless in *. cbn. rewrite Hv. cbn.
    destruct (obsolete_maxTimeDiff (i_maxTimeDiff x)); [discriminate|].
    destruct (migrate_inbounds ibs); [discriminate|reflexivity].
  - rewrite Hv. cbn.
    destruct (migrate_inbounds ibs); [discriminate|].
    intros _. rewrite (IH eq_refl). reflexivity.
Qed.

Lemma migrated_has_vless (l l' : list Inbound) :
  migrate_inbounds l = Some l' ->
  first_vless l' <> None.
Proof.
  intros H. destruct (first_vless_migrate _ _ H) as (i & i' & _ & E & _).
  rewrite E. discriminate.
Qed.

Lemma default_config_shape (env : Env) (w w1 : World) (c : Config) :
  get_default_config env w = (Ok c, w1) ->
  exists l, c = mkConfig [default_vless l; default_api_inbound].
Proof.
  run_default_config; cbn; intros H; try discriminate; injection H as <- <-; eauto.
Qed.

(** A load that returns a config without VLESS inbound read it from the
    file as it is, and did nothing else. *)
Lemma load_no_vless (env : Env) (w w1 : World) (c : Config) :
  load_xray_config env w = (Ok c, w1) ->
  find_vless c = None ->
  file w = FHolds c /\ settled (file w) /\ w1 = log_event EvLoad w.
Proof.
  intros HL Hn. destruct (file w) as [| |c0|sf] eqn:Hf.
  - rewrite (load_absent env w Hf) in HL.
    destruct (default_config_shape _ _ _ _ HL) as (l & ->). discriminate.
  - rewrite (load_garbled env w Hf) in HL. discriminate.
  - rewrite (load_holds env w c0 Hf) in HL.
    destruct (migrate_inbounds (inbounds c0)) as [ibs|] eqn:E.
    + injection HL as <- _. exfalso.
      exact (migrated_has_vless _ _ E Hn).
    + injection HL as <- <-. cbn. auto.
  - rewrite (load_foreign env w sf Hf) in HL. discriminate.
Qed.

(* ===================================================================== *)
(** ** Replace: the live-path function and the handler around it *)
(* ===================================================================== *)

(** [regenerate_user_via_api] answers [False] only when the loaded config
    has no VLESS inbound; past that test it answers [True] or raises. *)
Lemma regenerate_via_api_false (env : Env) (w w1 : World)
  (old new : string) (e x : option string) :
  regenerate_user_via_api old new e env w = (Ok (false, x), w1) ->
  exists c, load_xray_config env w = (Ok c, w1) /\ find_vless c = None.
Proof.
  unfold regenerate_user_via_api. rewrite bind_run.
  destruct (load_xray_config env w) as [[c|x0] w0]; [|discriminate].
  destruct (find_vless c) as [ib|] eqn:Hv.
  - rewrite bind_run. unfold get_reality_short_ids at 1. rewrite bind_run.
    unfold ask at 1.
    destruct (reality_short_ids env (tick w0)); [|discriminate].
    unfold ret at 1. rewrite bind_run. unfold require_settings.
    destruct (i_settings ib); [|discriminate].
    unfold ret at 1. unfold update_inbound_via_api.
    rewrite bind_run, save_run.
    destruct (save_result env (next_tick w0) _) as [[[]|x1] w2]; [|discriminate].
    intros H. discriminate.
  - intros H. injection H as <- <-. eauto.
Qed.

Lemma regenerate_in_config_no_vless (env : Env) (w : World) (c : Config)
  (old new : string) (e : option string) :
  file w = FHolds c -> settled (file w) -> find_vless c = None ->
  regenerate_user_in_config old new e env w = (Ok (false, None), log_event EvLoad w).
Proof.
  intros Hf Hs Hn. unfold regenerate_user_in_config. rewrite bind_run.
  rewrite (load_settled_value env w c Hf Hs). rewrite Hn. reflexivity.
Qed.

(** The handler's fallback after [regenerate_user_via_api] finds the same
    config without VLESS inbound and gives up before any save or reload:
    a replace request is decided by [regenerate_user_via_api] alone. *)
Lemma handle_regenerate_run (env : Env) (w : World) (cmd old new : string)
  (e : option string) :
  old <> "" -> new <> "" ->
  uuid_parses env old = true -> uuid_parses env new = true ->
  handle_regenerate (mkRequest cmd (Some new) (Some old) e) env w
  = match regenerate_user_via_api old new e env w with
    | (Ok (true, sid), w1) =>
        (Ok (mkResponse true "User regenerated successfully" (short_id_field sid)), w1)
    | (Ok (false, _), w1) => (Raise (HTTPException 400), log_event EvLoad w1)
    | (Raise x, w1) => (Raise x, w1)
    end.
Proof.
  intros Ho Hn Uo Un. unfold handle_regenerate.
  cbn [old_user_uuid user_uuid email].
  rewrite (proj2 (String.eqb_neq old "") Ho), (proj2 (String.eqb_neq new "") Hn).
  cbn [orb].
  rewrite bind_run, (check_uuid_ok env w old Uo).
  rewrite bind_run, (check_uuid_ok env w new Un).
  rewrite bind_run.
  destruct (regenerate_user_via_api old new e env w) as [[[[|] sid]|x] w1] eqn:E;
    [reflexivity| |reflexivity].
  destruct (regenerate_via_api_false env w w1 old new e sid E) as (c & HL & Hv).
  destruct (load_no_vless env w w1 c HL Hv) as (Hf & Hs & ->).
  cbn [fst]. rewrite bind_run, bind_run.
  rewrite (regenerate_in_config_no_vless env (log_event EvLoad w) c old new e);
    [reflexivity|exact Hf|exact Hs|exact Hv].
Qed.

Lemma save_works (env : Env) (w : World) (c : Config) :
  store_works env ->
  save_xray_config c true env w
  = (Ok tt, log_event (EvSave c)
              (set_file (FHolds c)
                 (next_tick (log_event (EvValidate true) (next_tick w))))).
Proof.
  intros (_ & Hv & Hf). rewrite save_run. unfold save_result.
  rewrite Hv, Hf. reflexivity.
Qed.

Lemma load_works (env : Env) (w : World) (c : Config) :
  store_works env -> file w = FHolds c ->
  exists w0, load_xray_config env w = (Ok (migrated c), w0)
             /\ file w0 = FHolds (migrated c) /\ cache w0 = cache w.
Proof.
  intros (_ & Hv & Hfs) Hf. rewrite (load_holds env w c Hf). unfold migrated.
  destruct (migrate_inbounds (inbounds c)) as [ibs|] eqn:E.
  - unfold migration_result, save_result. rewrite Hv, Hfs. cbn.
    eexists. split; [reflexivity|]. cbn. auto.
  - eexists. split; [reflexivity|]. cbn. auto.
Qed.

Lemma regenerate_via_api_works (env : Env) (w w0 : World) (c0 : Config)
  (ib : Inbound) (old new : string) (e : option string) :
  store_works env ->
  load_xray_config env w = (Ok c0, w0) ->
  find_vless c0 = Some ib ->
  i_settings ib <> None ->
  let saved := set_vless_clients c0
                 (drop_id old (clients_of ib)
                  ++ [vision_client new (email_or_default e new)]) in
  exists ids w1,
    regenerate_user_via_api old new e env w = (Ok (true, first_short_id ids), w1)
    /\ file w1 = FHolds saved
    /\ trace w1 = EvCacheAdd new :: EvCacheRemove old :: EvSave saved
                  :: EvValidate true :: trace w0
    /\ users (cache w1)
       = set_add string_dec new (UserCache.discard old (users (cache w0))).
Proof.
  intros HW HL Hv Hs saved. unfold regenerate_user_via_api.
  rewrite bind_run, HL, Hv. rewrite bind_run.
  destruct (reality_read env w0 (proj1 HW)) as (ids & E). rewrite E.
  rewrite bind_run. unfold require_settings.
  destruct (i_settings ib) as [s|]; [|contradiction].
  unfold ret at 1, update_inbound_via_api.
  rewrite bind_run, (save_works env (next_tick w0) _ HW).
  exists ids. eexists. split; [reflexivity|]. cbn. auto.
Qed.

(* ===================================================================== *)
(** ** Which events which function can add *)
(* ===================================================================== *)

Lemma validate_silent (p : Event -> bool) (c : Config) :
  silent p (validate_xray_config c).
Proof. unfold validate_xray_config, proc_rc. walk_silent. Qed.

Lemma run_fs_silent (p : Event -> bool) (ops : list FsOp) (fault : option nat) :
  silent p (run_fs ops fault).
Proof.
  revert fault. induction ops as [|op ops IH]; intros fault; cbn [run_fs].
  - auto with silent_db.
  - destruct fault as [[|k]|]; walk_silent.
Qed.

Lemma reality_silent (p : Event -> bool) : silent p get_reality_short_ids.
Proof. unfold get_reality_short_ids. walk_silent. Qed.

Lemma require_settings_silent (p : Event -> bool) (i : Inbound) :
  silent p (require_settings i).
Proof. unfold require_settings. walk_silent. Qed.

#[export] Hint Resolve validate_silent run_fs_silent reality_silent
  require_settings_silent : silent_db.

Lemma default_config_silent (p : Event -> bool) : silent p get_default_config.
Proof. unfold get_default_config, save_reality_config. walk_silent. Qed.

Lemma save_silent (p : Event -> bool) (c : Config) (validate : bool) :
  (forall ok, p (EvValidate ok) = false) -> p (EvSave c) = false ->
  silent p (save_xray_config c validate).
Proof.
  intros Hv Hs. unfold save_xray_config.
  apply silent_bind; [|intros _].
  - destruct validate; [|auto with silent_db].
    apply silent_bind; [auto with silent_db|intros ok].
    apply silent_bind; [apply silent_emit; apply Hv|intros _].
    destruct ok; auto with silent_db.
  - apply silent_bind; [auto with silent_db|intros fault].
    apply silent_bind; [auto with silent_db|intros _].
    apply silent_emit. exact Hs.
Qed.

Lemma reload_silent (p : Event -> bool) (site : ReloadSite) :
  (forall ok, p (EvReload site ok) = false) -> silent p (reload_xray site).
Proof.
  intros H. unfold reload_xray, run_process, proc_rc.
  apply silent_bind; [walk_silent|intros ok].
  apply silent_bind; [apply silent_emit; apply H|intros _].
  auto with silent_db.
Qed.

Lemma cache_add_silent (p : Event -> bool) (u : string) :
  p (EvCacheAdd u) = false -> silent p (UserCache.add u).
Proof.
  intros H. unfold UserCache.add.
  apply silent_bind; [auto with silent_db|intros c].
  apply silent_bind; [auto with silent_db|intros _].
  apply silent_emit. exact H.
Qed.

Lemma cache_remove_silent (p : Event -> bool) (u : string) :
  p (EvCacheRemove u) = false -> silent p (UserCache.remove u).
Proof.
  intros H. unfold UserCache.remove.
  apply silent_bind; [auto with silent_db|intros c].
  apply silent_bind; [auto with silent_db|intros _].
  apply silent_emit. exact H.
Qed.

#[export] Hint Resolve default_config_silent save_silent reload_silent
  cache_add_silent cache_remove_silent : silent_db.

(** A load adds one load event, no reload from the handler's site, and at
    most one reload in all (the migration's). *)
Lemma load_silent_handler_reload : silent is_handler_reload load_xray_config.
Proof.
  unfold load_xray_config. walk_silent.
Qed.

Lemma load_counts (env : Env) (w : World) :
  let w1 := snd (load_xray_config env w) in
  count is_load (trace w1) = S (count is_load (trace w))
  /\ (count is_reload (trace w1) <= S (count is_reload (trace w)))%nat
  /\ (settled (file w) -> count is_reload (trace w1) = count is_reload (trace w)).
Proof.
  destruct (file w) as [| |c|sf] eqn:Hf; cycle 3.
  - rewrite (load_foreign env w sf Hf). unfold count. cbn. auto.
  - rewrite (load_absent env w Hf).
    pose proof (default_config_silent is_load env (log_event EvLoad w)) as A.
    pose proof (default_config_silent is_reload env (log_event EvLoad w)) as B.
    cbn in *. rewrite A, B. unfold count. cbn. auto.
  - rewrite (load_garbled env w Hf). unfold count. cbn. auto.
  - rewrite (load_holds env w c Hf).
    destruct (migrate_inbounds (inbounds c)) as [ibs|] eqn:E.
    + cbn [snd]. unfold migration_result, save_result.
      split; [|split].
      * destruct (verdict _); [|reflexivity].
        cbn. destruct (fs_fault env _) as [[|[|[|k]]]|]; reflexivity.
      * destruct (verdict _); [|unfold count; cbn; lia].
        cbn. destruct (fs_fault env _) as [[|[|[|k]]]|]; unfold count; cbn; lia.
      * cbn. intros Hs. congruence.
    + unfold count. cbn. auto.
Qed.

#[export] Hint Resolve load_silent_handler_reload : silent_db.

Lemma regenerate_via_api_silent_handler_reload (old new : string) (e : option string) :
  silent is_handler_reload (regenerate_user_via_api old new e).
Proof.
  unfold regenerate_user_via_api, update_inbound_via_api. walk_silent.
Qed.

Lemma bind_silent_tail {A B} (p : Event -> bool) (m : M A) (k : A -> M B)
  (env : Env) (w : World) :
  (forall a, silent p (k a)) ->
  count p (trace (snd (bind m k env w))) = count p (trace (snd (m env w))).
Proof.
  intros Hk. rewrite bind_run.
  destruct (m env w) as [[a|x] w0]; [apply Hk|reflexivity].
Qed.

(** After its load, [regenerate_user_via_api] runs no reload command. *)
Lemma regenerate_via_api_reloads (env : Env) (w : World) (old new : string)
  (e : option string) :
  count is_reload (trace (snd (regenerate_user_via_api old new e env w)))
  = count is_reload (trace (snd (load_xray_config env w))).
Proof.
  unfold regenerate_user_via_api, update_inbound_via_api.
  apply bind_silent_tail. intros c. walk_silent.
Qed.

Lemma load_holds_value (env : Env) (w : World) (c : Config) :
  file w = FHolds c ->
  fst (load_xray_config env w) = Ok (migrated c).
Proof.
  intros Hf. rewrite (load_holds env w c Hf). unfold migrated.
  destruct (migrate_inbounds (inbounds c)); reflexivity.
Qed.

Lemma save_result_ok (env : Env) (w w2 : World) (c : Config) :
  save_result env w c = (Ok tt, w2) ->
  file w2 = FHolds c /\ cache w2 = cache w
  /\ trace w2 = EvSave c :: EvValidate true :: trace w.
Proof.
  unfold save_result.
  destruct (verdict _); [|discriminate]. cbn.
  destruct (fs_fault env _) as [[|[|[|k]]]|]; try discriminate;
    intros H; injection H as <-; cbn; auto.
Qed.

(** Whenever [regenerate_user_via_api] returns on a config with a VLESS
    inbound it returns success, after one save of the loaded snapshot with
    the old identifier filtered out and the new entry appended. *)
Lemma regenerate_via_api_ok (env : Env) (w w1 : World) (c : Config) (ib : Inbound)
  (old new : string) (e sid : option string) (s : bool) :
  file w = FHolds c ->
  find_vless c = Some ib ->
  regenerate_user_via_api old new e env w = (Ok (s, sid), w1) ->
  let saved := set_vless_clients (migrated c)
                 (drop_id old (clients_of ib)
                  ++ [vision_client new (email_or_default e new)]) in
  s = true
  /\ file w1 = FHolds saved
  /\ trace w1 = EvCacheAdd new :: EvCacheRemove old :: EvSave saved
                :: EvValidate true :: trace (snd (load_xray_config env w)).
Proof.
  intros Hf Hv. pose proof (load_holds_value env w c Hf) as HL.
  destruct (find_vless_migrated c ib Hv) as (ib' & Hv' & _ & HS).
  pose proof (clients_of_settings ib ib' HS) as HC.
  unfold regenerate_user_via_api. rewrite bind_run.
  destruct (load_xray_config env w) as [[c0|x] w0]; cbn [fst snd] in *;
    [injection HL as ->|discriminate].
  rewrite Hv'. rewrite bind_run. unfold get_reality_short_ids at 1.
  rewrite bind_run. unfold ask at 1.
  destruct (reality_short_ids env (tick w0)); [|discriminate].
  unfold ret at 1. rewrite bind_run. unfold require_settings.
  destruct (i_settings ib'); [|discriminate].
  unfold ret at 1, update_inbound_via_api.
  rewrite bind_run, save_run. rewrite HC.
  destruct (save_result env (next_tick w0) _) as [[[]|x1] w2] eqn:E; [|discriminate].
  destruct (save_result_ok _ _ _ _ E) as (F & C & T).
  cbn. intros H. injection H as <- _ <-. cbn. rewrite F, T. auto.
Qed.

Lemma receive_regenerate (new old e : option string) :
  receive_command (mkRequest "regenerate_user" new old e)
  = handle_regenerate (mkRequest "regenerate_user" new old e).
Proof. reflexivity. Qed.

Lemma persisted_after_assign (c : Config) (i : Inbound) (l : list Client) :
  find_vless c = Some i ->
  persisted_clients (FHolds (set_vless_clients c l)) = l.
Proof.
  intros H. unfold persisted_clients, set_vless_clients, find_vless in *. cbn.
  rewrite (first_vless_assign l _ i H). reflexivity.
Qed.

(* ===================================================================== *)
(** ** The exception boundary of the handler *)
(* ===================================================================== *)

Lemma check_uuid_bad (env : Env) (w : World) (s : string) :
  uuid_parses env s = false -> check_uuid s env w = (Raise (HTTPException 400), w).
Proof.
  intros H. unfold check_uuid, bind, constant. rewrite H. reflexivity.
Qed.

Lemma check_uuid_raises (s : string) : raises_only handler_exn (check_uuid s).
Proof. unfold check_uuid. walk_raises. Qed.

Lemma handle_add_handler_exn (u : string) (request : CommandRequest) :
  raises_only handler_exn (handle_add u request).
Proof.
  apply (raises_only_weaken store_exn); [unfold handler_exn; auto|].
  apply handle_add_store_exn.
Qed.

Lemma handle_remove_handler_exn (u : string) :
  raises_only handler_exn (handle_remove u).
Proof.
  apply (raises_only_weaken store_exn); [unfold handler_exn; auto|].
  apply handle_remove_store_exn.
Qed.

Lemma handle_regenerate_handler_exn (request : CommandRequest) :
  raises_only handler_exn (handle_regenerate request).
Proof.
  intros env w x. destruct request as [cmd [new|] [old|] e];
    try (cbn; intros H; injection H as <-; right; eexists; reflexivity).
  destruct (String.eqb_spec old "") as [->|Ho];
    [cbn; intros H; injection H as <-; right; eexists; reflexivity|].
  destruct (String.eqb_spec new "") as [->|Hn].
  { unfold handle_regenerate. cbn [old_user_uuid user_uuid].
    rewrite Bool.orb_true_r. cbn. intros H; injection H as <-.
    right; eexists; reflexivity. }
  destruct (uuid_parses env old) eqn:Uo.
  - destruct (uuid_parses env new) eqn:Un.
    + rewrite (handle_regenerate_run env w cmd old new e Ho Hn Uo Un).
      pose proof (regenerate_via_api_store_exn old new e env w) as S.
      destruct (regenerate_user_via_api old new e env w) as [[[[|] sid]|y] w1];
        cbn [fst] in *.
      * discriminate.
      * intros H; injection H as <-. right; eexists; reflexivity.
      * intros H; injection H as <-. left. apply S. reflexivity.
    + unfold handle_regenerate. cbn [old_user_uuid user_uuid].
      rewrite (proj2 (String.eqb_neq old "") Ho), (proj2 (String.eqb_neq new "") Hn).
      cbn [orb]. rewrite bind_run, (check_uuid_ok env w old Uo).
      rewrite bind_run, (check_uuid_bad env w new Un).
      cbn. intros H; injection H as <-. right; eexists; reflexivity.
  - unfold handle_regenerate. cbn [old_user_uuid user_uuid].
    rewrite (proj2 (String.eqb_neq old "") Ho), (proj2 (String.eqb_neq new "") Hn).
    cbn [orb]. rewrite bind_run, (check_uuid_bad env w old Uo).
    cbn. intros H; injection H as <-. right; eexists; reflexivity.
Qed.

#[export] Hint Resolve check_uuid_raises handle_add_handler_exn
  handle_remove_handler_exn handle_regenerate_handler_exn : raises_db.

Lemma receive_command_handler_exn (request : CommandRequest) :
  raises_only handler_exn (receive_command request).
Proof. unfold receive_command. walk_raises. Qed.

Lemma receive_add (env : Env) (w : World) (u : string) (old e : option string) :
  u <> "" -> uuid_parses env u = true ->
  receive_command (mkRequest "add_user" (Some u) old e) env w
  = match handle_add u (mkRequest "add_user" (Some u) old e) env w with
    | (Ok (true, sid), w1) =>
        (Ok (mkResponse true "Command add_user executed successfully"
                        (short_id_field sid)), w1)
    | (Ok (false, _), w1) => (Raise (HTTPException 400), w1)
    | (Raise x, w1) => (Raise x, w1)
    end.
Proof.
  intros Hne Hu. unfold receive_command. cbn [command user_uuid].
  change (String.eqb "add_user" "restart_xray") with false.
  change (String.eqb "add_user" "regenerate_user") with false.
  change (String.eqb "add_user" "add_user") with true.
  cbv iota. rewrite (proj2 (String.eqb_neq u "") Hne).
  rewrite bind_run, (check_uuid_ok env w u Hu). rewrite bind_run.
  destruct (handle_add u _ env w) as [[[[|] sid]|x] w1]; reflexivity.
Qed.


(* ===================================================================== *)
(** ** Equations of the live client *)
(* ===================================================================== *)

Lemma is_available_run (env : Env) (w : World) :
  XRayGRPCClient.is_available env w
  = if proto_available env
    then (Ok (probe_ok (connect_ex env (tick w))),
          log_event (EvProbe (probe_ok (connect_ex env (tick w)))) (next_tick w))
    else (Ok false, w).
Proof.
  unfold XRayGRPCClient.is_available. rewrite bind_run. unfold constant at 1.
  destruct (proto_available env); cbn [negb]; [|reflexivity].
  rewrite bind_run, try_run, bind_run. unfold ask at 1.
  destruct (connect_ex env (tick w)); reflexivity.
Qed.

Lemma grpc_add_run (env : Env) (w : World) (tag u e : string) :
  XRayGRPCClient.add_user tag u e env w
  = if live_client_ready env
    then (Ok (rpc_ok (alter_inbound env (tick w))),
          log_event (EvGrpcAdd tag u e (rpc_ok (alter_inbound env (tick w))))
                    (next_tick w))
    else (Ok false, w).
Proof.
  unfold XRayGRPCClient.add_user, live_client_ready.
  rewrite bind_run. unfold constant at 1. rewrite bind_run. unfold constant at 1.
  destruct (proto_available env), (stub_created env); cbn [negb orb andb];
    try reflexivity.
  rewrite bind_run, try_run, bind_run. unfold XRayGRPCClient.AlterInbound.
  rewrite bind_run. unfold ask at 1.
  destruct (alter_inbound env (tick w)); reflexivity.
Qed.

Lemma grpc_remove_run (env : Env) (w : World) (tag u : string) (e : option string) :
  truthy e = true ->
  XRayGRPCClient.remove_user tag u e env w
  = if live_client_ready env
    then (Ok (rpc_ok (alter_inbound env (tick w))),
          log_event (EvGrpcRemove tag u (rpc_ok (alter_inbound env (tick w))))
                    (next_tick w))
    else (Ok false, w).
Proof.
  intros He. unfold XRayGRPCClient.remove_user, live_client_ready.
  rewrite bind_run. unfold constant at 1. rewrite bind_run. unfold constant at 1.
  destruct (proto_available env), (stub_created env); cbn [negb orb andb];
    try reflexivity.
  rewrite bind_run, try_run, bind_run. rewrite He. unfold ret at 1. rewrite He.
  rewrite bind_run. unfold XRayGRPCClient.AlterInbound.
  rewrite bind_run. unfold ask at 1.
  destruct (alter_inbound env (tick w)); reflexivity.
Qed.

Lemma load_keeps_cache (env : Env) (w : World) :
  cache (snd (load_xray_config env w)) = cache w.
Proof.
  destruct (file w) as [| |c|sf] eqn:Hf; cycle 3.
  - rewrite (load_foreign env w sf Hf). reflexivity.
  - rewrite (load_absent env w Hf).
    destruct (default_config_reads_only env (log_event EvLoad w)) as (_ & C & _).
    exact C.
  - rewrite (load_garbled env w Hf). reflexivity.
  - rewrite (load_holds env w c Hf).
    destruct (migrate_inbounds (inbounds c)) as [ibs|]; [|reflexivity].
    cbn [snd]. unfold migration_result, save_result.
    destruct (verdict _); [|reflexivity]. cbn.
    destruct (fs_fault env _) as [[|[|[|k]]]|]; reflexivity.
Qed.

Lemma save_result_keeps_cache (env : Env) (w : World) (c : Config) :
  cache (snd (save_result env w c)) = cache w.
Proof.
  unfold save_result. destruct (verdict _); [|reflexivity]. cbn.
  destruct (fs_fault env _) as [[|[|[|k]]]|]; reflexivity.
Qed.

(* ===================================================================== *)
(** ** Save first, registry second *)
(* ===================================================================== *)

(** The common tail of the three operations: a validated save followed by
    registry updates that cannot fail. *)
Lemma save_then_update (env : Env) (w : World) (cfg : Config)
  {A} (k : M A) (r : A) (events : list Event) :
  (forall env' w', k env' w' = (Ok r, snd (k env' w'))) ->
  (forall env' w', file (snd (k env' w')) = file w'
                   /\ trace (snd (k env' w')) = (events ++ trace w')%list) ->
  forallb is_registry_update events = true ->
  let res := bind (save_xray_config cfg true) (fun _ => k) env w in
  (fst res = Ok r /\ registry_follows_save w (snd res))
  \/ (exists x, fst res = Raise x /\ cache (snd res) = cache w).
Proof.
  intros Hok Hframe Hev res. subst res.
  rewrite bind_run, save_run.
  pose proof (save_result_keeps_cache env w cfg) as SC.
  destruct (save_result env w cfg) as [[[]|x] w2] eqn:SE; cbn [snd] in SC.
  - destruct (save_result_ok env w w2 cfg SE) as (F & _ & T).
    rewrite (Hok env w2). cbn [fst snd].
    destruct (Hframe env w2) as (F2 & T2).
    left. split; [reflexivity|]. right.
    exists cfg, events, (EvValidate true :: trace w).
    rewrite T2, T, F2, F. auto.
  - right. exists x. split; [reflexivity|exact SC].
Qed.

Lemma follows_save_from (w w0 w1 : World) :
  cache w0 = cache w ->
  registry_follows_save w0 w1 -> registry_follows_save w w1.
Proof.
  intros C [H|H]; [left; congruence|right; exact H].
Qed.

Lemma orderly_untouched {A} (w w0 : World) (r : Res A) :
  cache w0 = cache w -> orderly w (r, w0).
Proof. intros C. split; [left; exact C|intros _ _; exact C]. Qed.

Lemma orderly_save_then_update (env : Env) (w w0 : World) (cfg : Config)
  {A} (k : M A) (r : A) (events : list Event) :
  (forall env' w', k env' w' = (Ok r, snd (k env' w'))) ->
  (forall env' w', file (snd (k env' w')) = file w'
                   /\ trace (snd (k env' w')) = (events ++ trace w')%list) ->
  forallb is_registry_update events = true ->
  cache w0 = cache w ->
  orderly w (bind (save_xray_config cfg true) (fun _ => k) env w0).
Proof.
  intros Hok Hframe Hev C.
  destruct (save_then_update env w0 cfg k r events Hok Hframe Hev)
    as [(R & F)|(x & R & K)]; cbv zeta in *.
  - split; [exact (follows_save_from w w0 _ C F)|].
    intros x Hx. rewrite R in Hx. discriminate.
  - split; [left; congruence|intros _ _; congruence].
Qed.

(** In [add_user_via_api] the registry changes only after a completed save,
    and an exception leaves the registry as it was. *)
Lemma add_via_api_order (env : Env) (w : World) (u : string) (e : option string) :
  orderly w (add_user_via_api u e env w).
Proof.
  unfold add_user_via_api. rewrite bind_run.
  pose proof (load_keeps_cache env w) as LC.
  destruct (load_xray_config env w) as [[c|x] w0]; cbn [snd] in LC;
    [|apply orderly_untouched; exact LC].
  destruct (find_vless c) as [ib|]; [|apply orderly_untouched; exact LC].
  cbv zeta.
  destruct (existsb (has_id u) (clients_of ib));
    [apply orderly_untouched; exact LC|].
  rewrite bind_run. unfold get_reality_short_ids at 1. rewrite bind_run.
  unfold ask at 1.
  destruct (reality_short_ids env (tick w0));
    [|apply orderly_untouched; exact LC].
  unfold ret at 1. rewrite bind_run. unfold require_settings.
  destruct (i_settings ib); [|apply orderly_untouched; exact LC].
  unfold ret at 1. rewrite bind_run, is_available_run.
  set (cfg := set_vless_clients c _).
  assert (T : forall w' (g : bool), cache w' = cache w ->
             orderly w (bind (save_xray_config cfg true)
                             (fun _ => bind (UserCache.add u)
                                            (fun _ => ret (true, g))) env w')).
  { intros w' g C.
    apply (orderly_save_then_update env w w' cfg _ (true, g) [EvCacheAdd u]);
      [reflexivity|split; reflexivity|reflexivity|exact C]. }
  destruct (proto_available env).
  - rewrite bind_run.
    destruct (probe_ok (connect_ex env (tick (next_tick w0)))).
    + rewrite grpc_add_run.
      destruct (live_client_ready env).
      * destruct (rpc_ok _); apply T; exact LC.
      * apply T; exact LC.
    + unfold ret at 1. apply T; exact LC.
  - rewrite bind_run. unfold ret at 1. apply T; exact LC.
Qed.

Lemma remove_via_api_order (env : Env) (w : World) (u : string) :
  orderly w (remove_user_via_api u env w).
Proof.
  unfold remove_user_via_api. rewrite bind_run.
  pose proof (load_keeps_cache env w) as LC.
  destruct (load_xray_config env w) as [[c|x] w0]; cbn [snd] in LC;
    [|apply orderly_untouched; exact LC].
  destruct (find_vless c) as [ib|]; [|apply orderly_untouched; exact LC].
  cbv zeta.
  destruct (XRayGRPCClient.find_client u (clients_of ib)) as [cl|];
    [|apply orderly_untouched; exact LC].
  rewrite bind_run, is_available_run.
  set (cfg := set_vless_clients c _).
  assert (T : forall w' (g : bool), cache w' = cache w ->
             orderly w (bind (require_settings ib)
                          (fun _ => bind (save_xray_config cfg true)
                             (fun _ => bind (UserCache.remove u)
                                (fun _ => ret (true, g)))) env w')).
  { intros w' g C. rewrite bind_run. unfold require_settings.
    destruct (i_settings ib); [|apply orderly_untouched; exact C].
    unfold ret at 1.
    apply (orderly_save_then_update env w w' cfg _ (true, g) [EvCacheRemove u]);
      [reflexivity|split; reflexivity|reflexivity|exact C]. }
  destruct (proto_available env).
  - rewrite bind_run.
    destruct (probe_ok (connect_ex env (tick w0))); cbn [andb].
    + destruct (truthy (c_email cl)) eqn:He; cbv iota.
      * rewrite (grpc_remove_run env _ (tag_of ib) u (c_email cl) He).
        destruct (live_client_ready env).
        -- destruct (rpc_ok _); apply T; exact LC.
        -- apply T; exact LC.
      * unfold ret at 1. apply T; exact LC.
    + unfold ret at 1. apply T; exact LC.
  - rewrite bind_run. cbn [andb]. unfold ret at 1. apply T; exact LC.
Qed.

Lemma regenerate_via_api_order (env : Env) (w : World) (old new : string)
  (e : option string) :
  orderly w (regenerate_user_via_api old new e env w).
Proof.
  unfold regenerate_user_via_api. rewrite bind_run.
  pose proof (load_keeps_cache env w) as LC.
  destruct (load_xray_config env w) as [[c|x] w0]; cbn [snd] in LC;
    [|apply orderly_untouched; exact LC].
  destruct (find_vless c) as [ib|]; [|apply orderly_untouched; exact LC].
  cbv zeta.
  rewrite bind_run. unfold get_reality_short_ids at 1. rewrite bind_run.
  unfold ask at 1.
  destruct (reality_short_ids env (tick w0));
    [|apply orderly_untouched; exact LC].
  unfold ret at 1. rewrite bind_run. unfold require_settings.
  destruct (i_settings ib); [|apply orderly_untouched; exact LC].
  unfold ret at 1, update_inbound_via_api.
  apply (orderly_save_then_update env w _ _ _ (true, first_short_id l)
           [EvCacheAdd new; EvCacheRemove old]);
    [reflexivity|split; reflexivity|reflexivity|exact LC].
Qed.

(** C9, the code at a failing input.  In add, remove and replace the
    registry is updated only after a completed save, and an exception
    leaves the registry as it was.  The registry can nevertheless list an
    identifier that the persisted configuration does not contain: a process
    starts on an absent config file; [uA] is added with label "x", then [uB]
    with the same label.  The second add drops [uA]'s entry from the config
    as a label conflict and saves, but removes nothing from the registry:
    the registry lists [uA], the persisted client list does not. *)
Theorem label_conflict_leaves_stale_entry :
  (forall env w u e, orderly w (add_user_via_api u e env w))
  /\ (forall env w u, orderly w (remove_user_via_api u env w))
  /\ (forall env w old new e, orderly w (regenerate_user_via_api old new e env w))
  /\ (let env := Scenario.live_down in
      let w := Scenario.world_of FAbsent Scenario.new_cache in
      let r := serve [Scenario.add_request Scenario.uA (Some "x");
                      Scenario.add_request Scenario.uB (Some "x")] env w in
      fst r = [Ok Scenario.add_response; Ok Scenario.add_response]
      /\ persisted_clients (file (snd r)) = [Scenario.client Scenario.uB "x"]
      /\ set_mem string_dec Scenario.uA (users (cache (snd r))) = true
      /\ existsb (has_id Scenario.uA) (persisted_clients (file (snd r))) = false).
Proof.
  split; [exact add_via_api_order|].
  split; [exact remove_via_api_order|].
  split; [exact regenerate_via_api_order|].
  vm_compute. repeat split; reflexivity.
Qed.

(* ===================================================================== *)
(** ** Add: what the merge writes *)
(* ===================================================================== *)

Lemma set_mem_add (u : string) (s : set string) :
  set_mem string_dec u (set_add string_dec u s) = true.
Proof.
  apply set_mem_correct2. apply set_add_intro2. reflexivity.
Qed.

Lemma has_id_vision (u e : string) : has_id u (vision_client u e) = true.
Proof. unfold has_id, vision_client. cbn. apply String.eqb_refl. Qed.

(** The list that [add_user_via_api] saves: no entry other than the new
    one carries the new entry's label. *)
Lemma add_merge_resolves_label_conflict (e u : string) (l : list Client) (cl : Client) :
  In cl (drop_label_conflicts e u (drop_label_conflicts e u l)
         ++ [vision_client u e])%list ->
  get_eqb (c_email cl) e = true -> has_id u cl = true.
Proof.
  intros HIn He. apply in_app_or in HIn. destruct HIn as [HIn|[<-|[]]].
  - unfold drop_label_conflicts in HIn.
    apply filter_In in HIn. destruct HIn as (_ & H).
    rewrite He in H. cbn in H. destruct (has_id u cl); [reflexivity|discriminate].
  - apply has_id_vision.
Qed.

Lemma NoDup_map_filter {X Y} (f : X -> Y) (p : X -> bool) (l : list X) :
  NoDup (map f l) -> NoDup (map f (filter p l)).
Proof.
  induction l as [|x l IH]; cbn; [auto|].
  intros H. inversion H as [|? ? Hn Hd]; subst.
  destruct (p x); cbn; [|auto].
  constructor; [|auto].
  intros Hin. apply Hn. apply in_map_iff in Hin.
  destruct Hin as (y & Hy & Hin). apply filter_In in Hin.
  apply in_map_iff. exists y. tauto.
Qed.

(** The add path keeps labels unique: on a list without the new identifier
    and without duplicate labels, the merged list has no duplicate label. *)
Lemma add_merge_keeps_labels_unique (e u : string) (l : list Client) :
  existsb (has_id u) l = false ->
  NoDup (labels l) ->
  NoDup (labels (drop_label_conflicts e u (drop_label_conflicts e u l)
                 ++ [vision_client u e])%list).
Proof.
  intros Hu Hd. unfold labels. rewrite map_app. cbn [map].
  assert (Hn : ~ In (Some e)
                 (map c_email (drop_label_conflicts e u (drop_label_conflicts e u l)))).
  { intros Hin. apply in_map_iff in Hin. destruct Hin as (cl & He & Hin).
    unfold drop_label_conflicts in Hin.
    apply filter_In in Hin. destruct Hin as (Hin & H).
    apply filter_In in Hin. destruct Hin as (Hin & _).
    assert (Hid : has_id u cl = false).
    { destruct (has_id u cl) eqn:E; [|reflexivity].
      rewrite <- Hu. symmetry. apply existsb_exists. eauto. }
    unfold get_eqb in H. rewrite He, Hid, String.eqb_refl in H. discriminate. }
  assert (Hd' : NoDup (map c_email
                         (drop_label_conflicts e u (drop_label_conflicts e u l)))).
  { unfold drop_label_conflicts. apply NoDup_map_filter, NoDup_map_filter, Hd. }
  revert Hn Hd'. generalize (map c_email
    (drop_label_conflicts e u (drop_label_conflicts e u l))). intros m Hn Hd'.
  induction m as [|x m IH]; cbn.
  - constructor; [intros []|constructor].
  - inversion Hd' as [|? ? Hx Hm]; subst. constructor.
    + intros Hin. apply in_app_or in Hin. destruct Hin as [Hin|[Hin|[]]].
      * exact (Hx Hin).
      * apply Hn. left. symmetry. exact Hin.
    + apply IH; [|exact Hm]. intros Hin. apply Hn. right. exact Hin.
Qed.

(** Whenever [add_user_via_api] returns for an identifier that the loaded
    config does not list, it has saved the merged list and put the
    identifier into the registry, on the live path and on the fallback
    alike. *)
Lemma add_via_api_ok (env : Env) (w w1 : World) (c : Config) (ib : Inbound)
  (u : string) (e : option string) (r : bool * bool) :
  file w = FHolds c ->
  find_vless c = Some ib ->
  existsb (has_id u) (clients_of ib) = false ->
  add_user_via_api u e env w = (Ok r, w1) ->
  let label := email_or_default e u in
  let merged := (drop_label_conflicts label u
                   (drop_label_conflicts label u (clients_of ib))
                 ++ [vision_client u label])%list in
  fst r = true
  /\ file w1 = FHolds (set_vless_clients (migrated c) merged)
  /\ persisted_clients (file w1) = merged
  /\ set_mem string_dec u (users (cache w1)) = true.
Proof.
  intros Hf Hv Hu. pose proof (load_holds_value env w c Hf) as HL.
  destruct (find_vless_migrated c ib Hv) as (ib' & Hv' & _ & HS).
  pose proof (clients_of_settings ib ib' HS) as HC.
  unfold add_user_via_api. rewrite bind_run.
  destruct (load_xray_config env w) as [[c0|x] w0]; cbn [fst snd] in *;
    [injection HL as ->|discriminate].
  rewrite Hv'. cbv zeta. rewrite HC, Hu.
  rewrite bind_run. unfold get_reality_short_ids at 1. rewrite bind_run.
  unfold ask at 1.
  destruct (reality_short_ids env (tick w0)); [|discriminate].
  unfold ret at 1. rewrite bind_run. unfold require_settings.
  destruct (i_settings ib'); [|discriminate].
  unfold ret at 1. rewrite bind_run, is_available_run.
  set (label := email_or_default e u).
  set (merged := (_ ++ [vision_client u label])%list).
  set (cfg := set_vless_clients (migrated c) merged).
  assert (T : forall w' (g : bool),
             bind (save_xray_config cfg true)
                  (fun _ => bind (UserCache.add u) (fun _ => ret (true, g))) env w'
             = (Ok r, w1) ->
             fst r = true /\ file w1 = FHolds cfg
             /\ persisted_clients (file w1) = merged
             /\ set_mem string_dec u (users (cache w1)) = true).
  { intros w' g. rewrite bind_run, save_run.
    destruct (save_result env w' cfg) as [[[]|x] w2] eqn:SE; [|discriminate].
    destruct (save_result_ok env w' w2 cfg SE) as (F & _ & _).
    cbn. intros H. injection H as <- <-. cbn. rewrite F.
    split; [reflexivity|]. split; [reflexivity|].
    split; [apply (persisted_after_assign _ ib' _ Hv')|apply set_mem_add]. }
  destruct (proto_available env).
  - rewrite bind_run.
    destruct (probe_ok _).
    + rewrite grpc_add_run.
      destruct (live_client_ready env).
      * destruct (rpc_ok _); apply T.
      * apply T.
    + unfold ret at 1. apply T.
  - rewrite bind_run. unfold ret at 1. apply T.
Qed.

Lemma is_available_silent (p : Event -> bool) :
  (forall ok, p (EvProbe ok) = false) -> silent p XRayGRPCClient.is_available.
Proof.
  intros H env w. rewrite is_available_run.
  destruct (proto_available env); [|reflexivity].
  unfold count. cbn. rewrite H. reflexivity.
Qed.

Lemma grpc_add_silent (p : Event -> bool) (tag u e : string) :
  (forall ok, p (EvGrpcAdd tag u e ok) = false) ->
  silent p (XRayGRPCClient.add_user tag u e).
Proof.
  intros H env w. rewrite grpc_add_run.
  destruct (live_client_ready env); [|reflexivity].
  unfold count. cbn. rewrite H. reflexivity.
Qed.

Lemma sync_silent_handler_reload : silent is_handler_reload UserCache.sync_from_config.
Proof. unfold UserCache.sync_from_config, now. walk_silent. Qed.

Lemma cache_exists_silent_handler_reload (u : string) (b : bool) :
  silent is_handler_reload (UserCache.exists_ u b).
Proof.
  unfold UserCache.exists_, UserCache.maybe_sync, now.
  pose proof sync_silent_handler_reload. walk_silent.
Qed.

#[export] Hint Resolve is_available_silent grpc_add_silent
  sync_silent_handler_reload cache_exists_silent_handler_reload : silent_db.

Lemma add_via_api_silent_handler_reload (u : string) (e : option string) :
  silent is_handler_reload (add_user_via_api u e).
Proof. unfold add_user_via_api. walk_silent. Qed.

(** Whenever an add reaches the merge (the identifier is neither in the
    registry nor in the loaded config), the handler runs no reload command,
    whatever the live client answered: its test [not user_cache.exists(...)]
    is made after [add_user_via_api] has put the identifier into the
    registry. *)
Lemma merged_add_never_reloads (env : Env) (w w0 : World) (c : Config) (ib : Inbound)
  (u : string) (old e : option string) :
  u <> "" -> uuid_parses env u = true ->
  UserCache.exists_ u true env w = (Ok false, w0) ->
  file w0 = FHolds c -> find_vless c = Some ib ->
  existsb (has_id u) (clients_of ib) = false ->
  count is_handler_reload
        (trace (snd (receive_command (mkRequest "add_user" (Some u) old e) env w)))
  = count is_handler_reload (trace w).
Proof.
  intros Hne Hu HE Hf Hv Ha.
  rewrite (receive_add env w u old e Hne Hu).
  pose proof (cache_exists_silent_handler_reload u true env w) as S0.
  rewrite HE in S0. cbn [snd] in S0.
  assert (S : count is_handler_reload (trace (snd (handle_add u
               (mkRequest "add_user" (Some u) old e) env w)))
              = count is_handler_reload (trace w)).
  { unfold handle_add. rewrite bind_run, HE. cbn [email]. rewrite bind_run.
    pose proof (add_via_api_silent_handler_reload u e env w0) as S1.
    pose proof (add_via_api_ok env w0) as OK.
    destruct (add_user_via_api u e env w0) as [[[s g]|x] w1] eqn:E;
      cbn [snd] in S1; [|unfold raise; cbn [fst snd trace next_tick]; rewrite ?S1; exact S0].
    destruct (OK w1 c ib u e (s, g) Hf Hv Ha E) as (Hs & _ & _ & Hm).
    cbn [fst] in Hs. subst s. cbv zeta. rewrite bind_run.
    unfold get_reality_short_ids at 1. rewrite bind_run. unfold ask at 1.
    destruct (reality_short_ids env (tick w1)); [|unfold raise; cbn [fst snd trace next_tick]; rewrite ?S1; exact S0].
    unfold ret at 1. destruct g; [unfold ret; cbn [fst snd trace next_tick]; rewrite ?S1; exact S0|].
    rewrite bind_run. unfold UserCache.exists_. rewrite bind_run.
    unfold ret at 1. rewrite bind_run. unfold get_cache at 1. unfold ret at 1.
    cbn [cache next_tick]. rewrite Hm. cbn [negb fst snd]. unfold ret. cbn [fst snd trace next_tick]. rewrite ?S1; exact S0. }
  destruct (handle_add u _ env w) as [[[[|] sid]|x] w1]; exact S.
Qed.

(* ===================================================================== *)
(** ** Add served twice *)
(* ===================================================================== *)

Lemma entries_positive (u : string) (l : list Client) :
  existsb (has_id u) l = true -> (1 <= entries_with_id u l)%nat.
Proof.
  unfold entries_with_id. induction l as [|cl l IH]; cbn; [discriminate|].
  destruct (has_id u cl); cbn; [lia|exact IH].
Qed.

Lemma entries_none (u : string) (l : list Client) :
  existsb (has_id u) l = false -> entries_with_id u l = 0%nat.
Proof.
  unfold entries_with_id. induction l as [|cl l IH]; cbn; [reflexivity|].
  destruct (has_id u cl); cbn; [discriminate|exact IH].
Qed.

Lemma existsb_filter_false {X} (p q : X -> bool) (l : list X) :
  existsb p l = false -> existsb p (filter q l) = false.
Proof.
  induction l as [|x l IH]; cbn; [reflexivity|].
  destruct (p x) eqn:E; cbn; [discriminate|].
  intros H. destruct (q x); cbn; [rewrite E; cbn|]; auto.
Qed.

Lemma entries_app (u : string) (l1 l2 : list Client) :
  entries_with_id u (l1 ++ l2) = (entries_with_id u l1 + entries_with_id u l2)%nat.
Proof.
  unfold entries_with_id. rewrite filter_app, length_app. reflexivity.
Qed.

Lemma existsb_app_last (u e : string) (l : list Client) :
  existsb (has_id u) (l ++ [vision_client u e]) = true.
Proof.
  rewrite existsb_app. apply Bool.orb_true_iff. right.
  cbn [existsb]. apply Bool.orb_true_iff. left. apply has_id_vision.
Qed.

(** The merged list of an add holds exactly one entry for the new
    identifier when the list before held none. *)
Lemma merged_entries (u e : string) (l : list Client) :
  existsb (has_id u) l = false ->
  entries_with_id u (drop_label_conflicts e u (drop_label_conflicts e u l)
                     ++ [vision_client u e]) = 1%nat.
Proof.
  intros H. rewrite entries_app.
  rewrite (entries_none u); [|unfold drop_label_conflicts;
                              apply existsb_filter_false, existsb_filter_false, H].
  unfold entries_with_id. cbn [filter]. rewrite has_id_vision. reflexivity.
Qed.

(** What a sync collects is listed by some VLESS inbound. *)
Lemma collected_client_ids (u : string) (l : list Client) (acc : set string) :
  In u (fold_left UserCache.add_client_id l acc) ->
  In u acc \/ existsb (has_id u) l = true.
Proof.
  revert acc. induction l as [|cl l IH]; intros acc; cbn; [auto|].
  intros H. destruct (IH _ H) as [Hacc|Hl]; [|right; rewrite Hl; apply Bool.orb_true_r].
  unfold UserCache.add_client_id in Hacc. unfold has_id, get_eqb.
  destruct (c_id cl) as [v|]; [|auto].
  destruct (String.eqb v ""); [auto|].
  apply set_add_elim in Hacc. destruct Hacc as [->|Hacc]; [|auto].
  right. rewrite String.eqb_refl. reflexivity.
Qed.

Lemma collected_inbound_ids (u : string) (ibs : list Inbound) (acc : set string) :
  In u (fold_left UserCache.add_inbound_ids ibs acc) ->
  In u acc
  \/ existsb (fun i => is_vless i && existsb (has_id u) (clients_of i)) ibs = true.
Proof.
  revert acc. induction ibs as [|i ibs IH]; intros acc; cbn; [auto|].
  intros H. destruct (IH _ H) as [Hacc|Hl]; [|right; rewrite Hl; apply Bool.orb_true_r].
  unfold UserCache.add_inbound_ids in Hacc.
  destruct (is_vless i); cbn; [|auto].
  destruct (collected_client_ids u _ _ Hacc) as [A|B]; [auto|].
  right. rewrite B. reflexivity.
Qed.

Lemma synced_ids_are_listed (u : string) (c : Config) :
  set_mem string_dec u (UserCache.config_user_ids c) = true ->
  UserCache.config_lists c u = true.
Proof.
  intros H. apply set_mem_correct1 in H.
  unfold UserCache.config_user_ids in H.
  destruct (collected_inbound_ids u _ _ H) as [[]|L]. exact L.
Qed.

(** The registry's answer on a settled, readable file: the file is left
    alone and the registry is either as before or rebuilt from the file. *)
Lemma exists_on_settled_file (env : Env) (w : World) (u : string) (c : Config) :
  file w = FHolds c -> settled (file w) ->
  exists w0,
    UserCache.exists_ u true env w
    = (Ok (set_mem string_dec u (users (cache w0))), w0)
    /\ file w0 = file w
    /\ (users (cache w0) = users (cache w)
        \/ users (cache w0) = UserCache.config_user_ids c).
Proof.
  intros Hf Hs.
  assert (S : forall w', file w' = file w ->
             exists w0,
               UserCache.sync_from_config env w' = (Ok tt, w0)
               /\ file w0 = file w
               /\ users (cache w0) = UserCache.config_user_ids c).
  { intros w' E. unfold UserCache.sync_from_config. rewrite try_run, bind_run.
    rewrite (load_settled_value env w' c); [|congruence|rewrite E; exact Hs].
    eexists. split; [reflexivity|]. cbn. auto. }
  unfold UserCache.exists_. rewrite bind_run. unfold UserCache.maybe_sync.
  rewrite bind_run. unfold get_cache at 1.
  destruct (last_sync (cache w)) as [t0|].
  - rewrite bind_run. unfold now, ask at 1.
    destruct (clock env (tick w) - t0 >=? sync_interval (cache w)).
    + destruct (S (next_tick w) eq_refl) as (w0 & E & F & U). rewrite E.
      exists w0. split; [reflexivity|]. auto.
    + eexists. split; [reflexivity|]. cbn. auto.
  - destruct (S w eq_refl) as (w0 & E & F & U). rewrite E.
    exists w0. split; [reflexivity|]. auto.
Qed.

Lemma migrated_settled (c : Config) :
  migrate_inbounds (inbounds c) = None -> migrated c = c.
Proof. unfold migrated. intros ->. reflexivity. Qed.

(** With working stores the merge of an add returns, on the live path or on
    the fallback. *)
Lemma add_via_api_works (env : Env) (w : World) (c : Config) (ib : Inbound)
  (u : string) (e : option string) :
  store_works env ->
  file w = FHolds c -> settled (file w) ->
  find_vless c = Some ib -> i_settings ib <> None ->
  existsb (has_id u) (clients_of ib) = false ->
  exists g w1, add_user_via_api u e env w = (Ok (true, g), w1).
Proof.
  intros HW Hf Hs Hv Hset Ha.
  unfold add_user_via_api. rewrite bind_run.
  rewrite (load_settled_value env w c Hf Hs). rewrite Hv. cbv zeta. rewrite Ha.
  rewrite bind_run.
  destruct (reality_read env (log_event EvLoad w) (proj1 HW)) as (ids & R).
  rewrite R. rewrite bind_run. unfold require_settings.
  destruct (i_settings ib); [|contradiction].
  unfold ret at 1. rewrite bind_run, is_available_run.
  assert (T : forall cfg w' (g : bool),
             exists w1,
               bind (save_xray_config cfg true)
                    (fun _ => bind (UserCache.add u) (fun _ => ret (true, g))) env w'
               = (Ok (true, g), w1)).
  { intros cfg w' g. rewrite bind_run, (save_works env w' cfg HW).
    eexists. reflexivity. }
  destruct (proto_available env).
  - rewrite bind_run.
    destruct (probe_ok _).
    + rewrite grpc_add_run.
      destruct (live_client_ready env).
      * destruct (rpc_ok _); [exists true|exists false]; apply T.
      * exists false. apply T.
    + unfold ret at 1. exists false. apply T.
  - rewrite bind_run. unfold ret at 1. exists false. apply T.
Qed.

(* ===================================================================== *)
(** ** Config-only operations and the unbound registry name *)
(* ===================================================================== *)

(** X1.  [restart_xray] never reports success: when the restart command
    exits with 0 the function evaluates the unbound name [user_cache], and
    the [NameError] is caught by its own [except Exception].  The handler
    therefore answers every [restart_xray] command with status 500. *)
Theorem restart_never_succeeds (env : Env) (w : World) (u old e : option string) :
  restart_xray env w = (Ok false, log_event (EvRestart false) (next_tick w))
  /\ receive_command (mkRequest "restart_xray" u old e) env w
     = (Raise (HTTPException 500), log_event (EvRestart false) (next_tick w)).
Proof.
  assert (R : restart_xray env w
              = (Ok false, log_event (EvRestart false) (next_tick w))).
  { unfold restart_xray, run_process, proc_rc, unbound_user_cache,
      try_except, bind, ask, emit, ret, raise.
    destruct (restart_command env (tick w)) as [rc| |]; try reflexivity.
    destruct (rc =? 0); reflexivity. }
  split; [exact R|].
  unfold receive_command. cbn [command].
  change (String.eqb "restart_xray" "restart_xray") with true. cbv iota.
  rewrite bind_run, R. reflexivity.
Qed.

Lemma find_vless_none_migrated (c : Config) :
  find_vless c = None -> migrated c = c.
Proof.
  unfold find_vless, migrated. intros H.
  destruct (migrate_inbounds (inbounds c)) as [l'|] eqn:E; [|reflexivity].
  destruct (first_vless_migrate _ _ E) as (i & _ & Hi & _). congruence.
Qed.

(** The first VLESS client list that a load returns is the persisted one. *)
Lemma loaded_clients (env : Env) (w w0 : World) (c0 : Config) :
  load_xray_config env w = (Ok c0, w0) ->
  match find_vless c0 with
  | Some i => clients_of i
  | None => []
  end = persisted_clients (file w).
Proof.
  intros HL. destruct (file w) as [| |c|sf] eqn:Hf; cycle 3.
  - rewrite (load_foreign env w sf Hf) in HL. discriminate.
  - rewrite (load_absent env w Hf) in HL.
    unfold get_default_config, get_reality_short_ids, save_reality_config,
      bind, ask, read_file, ret, raise in HL.
    repeat match type of HL with
           | context [reality_short_ids ?e ?t] => destruct (reality_short_ids e t)
           | context [reality_writable ?e ?t] => destruct (reality_writable e t)
           | context [match ?l with [] => _ | _ :: _ => _ end] => destruct l
           end; cbn in HL; try discriminate; rewrite ?Hf in HL;
      injection HL as <- _; reflexivity.
  - rewrite (load_garbled env w Hf) in HL. discriminate.
  - pose proof (load_holds_value env w c Hf) as V. rewrite HL in V.
    cbn in V. injection V as ->. cbn.
    destruct (find_vless c) as [i|] eqn:Hv.
    + destruct (find_vless_migrated c i Hv) as (i' & Hv' & _ & HS).
      rewrite Hv'. apply clients_of_settings. exact HS.
    + rewrite (find_vless_none_migrated c Hv), Hv. reflexivity.
Qed.





(* ===================================================================== *)
(** ** The status query *)
(* ===================================================================== *)

Lemma loaded_count (env : Env) (w : World) :
  path_exists (file w) = true ->
  exists w1,
    try_except (config <- load_xray_config ;;
                match find_vless config with
                | Some inbound => ret (length (clients_of inbound))
                | None => ret 0%nat
                end)
               (fun _ => ret 0%nat) env w
    = (Ok (length (persisted_clients (file w))), w1)
    /\ w1 = snd (load_xray_config env w).
Proof.
  intros Hp. rewrite try_run, bind_run.
  pose proof (loaded_clients env w) as LC.
  destruct (load_xray_config env w) as [[c0|x] w0] eqn:HL.
  - specialize (LC w0 c0 eq_refl). rewrite <- LC.
    destruct (find_vless c0); eexists; split; reflexivity.
  - destruct (file w) as [| |c|sf] eqn:Hf.
    + discriminate.
    + eexists; split; reflexivity.
    + pose proof (load_holds_value env w c Hf) as V. rewrite HL in V.
      discriminate.
    + eexists; split; reflexivity.
Qed.

(** X4.  [get_xray_status] always returns.  It reports [config_exists] for
    every file that is present, readable or not; [users_count] is the length
    of the persisted client list of the first VLESS inbound (0 for a missing
    or unreadable file); [xray_running] is the answer of the control-port
    probe; the registry is never touched, and on a file with no pending
    migration the file is left as it is and nothing is reloaded. *)
Theorem status_reports_persisted_state (env : Env) (w : World) :
  exists st w1,
    get_xray_status env w = (Ok st, w1)
    /\ config_exists st = path_exists (file w)
    /\ users_count st = length (persisted_clients (file w))
    /\ xray_running st
       = (proto_available env && probe_ok (connect_ex env (tick w)))
    /\ cache w1 = cache w
    /\ (settled (file w) ->
        file w1 = file w
        /\ count is_reload (trace w1) = count is_reload (trace w)).
Proof.
  unfold get_xray_status. rewrite bind_run. unfold read_file at 1.
  rewrite bind_run, try_run, is_available_run.
  set (w' := if proto_available env
             then log_event (EvProbe (probe_ok (connect_ex env (tick w))))
                            (next_tick w)
             else w).
  assert (Hw' : file w' = file w /\ cache w' = cache w
                /\ count is_reload (trace w') = count is_reload (trace w)).
  { subst w'. destruct (proto_available env); cbn; auto. }
  destruct Hw' as (F' & C' & T').
  assert (R : (if proto_available env
               then (Ok (probe_ok (connect_ex env (tick w))),
                     log_event (EvProbe (probe_ok (connect_ex env (tick w))))
                               (next_tick w))
               else (@Ok bool false, w))
              = (Ok (proto_available env && probe_ok (connect_ex env (tick w))),
                 w')).
  { subst w'. destruct (proto_available env); reflexivity. }
  rewrite R. clear R. rewrite bind_run.
  destruct (path_exists (file w)) eqn:Hp.
  - assert (Hp' : path_exists (file w') = true) by (rewrite F'; exact Hp).
    destruct (loaded_count env w' Hp') as (w1 & E & ->). rewrite E.
    unfold ret. do 2 eexists. split; [reflexivity|].
    cbn [config_exists users_count xray_running].
    rewrite F'. split; [reflexivity|]. split; [reflexivity|].
    split; [reflexivity|]. split.
    + rewrite load_keeps_cache. exact C'.
    + intros Hs. rewrite <- F' in Hs. split.
      * rewrite <- F'. apply load_settled_reads_only. exact Hs.
      * rewrite <- T'. apply load_counts. exact Hs.
  - unfold ret. do 2 eexists. split; [reflexivity|].
    cbn [config_exists users_count xray_running].
    destruct (file w); try discriminate. cbn. repeat split; auto.
Qed.

(** X4, witness: a present but unreadable file. *)
Lemma status_reports_persisted_state_witness :
  exists st w1,
    get_xray_status Scenario.live_down
      (Scenario.world_of FGarbled Scenario.new_cache) = (Ok st, w1)
    /\ config_exists st = true /\ users_count st = 0%nat
    /\ xray_running st = false /\ file w1 = FGarbled.
Proof.
  destruct (status_reports_persisted_state Scenario.live_down
              (Scenario.world_of FGarbled Scenario.new_cache))
    as (st & w1 & E & A & B & C & _ & D).
  exists st, w1. split; [exact E|]. split; [exact A|]. split; [exact B|].
  split; [exact C|]. exact (proj1 (D I)).
Defined.

(* ===================================================================== *)
(** ** Request validation *)
(* ===================================================================== *)

Lemma check_malformed (env : Env) (w : World) (x : option string) (A : Type)
  (k : string -> M A) :
  well_formed_id env x = false ->
  match x with
  | None => raise (HTTPException 400)
  | Some u => if String.eqb u "" then raise (HTTPException 400)
              else check_uuid u ;;; k u
  end env w = (Raise (HTTPException 400), w).
Proof.
  destruct x as [u|]; cbn; [|reflexivity].
  destruct (String.eqb u ""); cbn; [reflexivity|].
  intros H. rewrite bind_run, (check_uuid_bad env w u H). reflexivity.
Qed.

(** X5.  Input validation comes before any effect.  A [regenerate_user]
    request in which either identifier is missing, empty or not a UUID, any
    other user command whose [user_uuid] is missing, empty or not a UUID,
    and a command that is none of the four known ones are answered with
    status 400, and neither the file, the registry nor the trace of outside
    calls has changed. *)
Theorem malformed_request_rejected (env : Env) (w : World) (req : CommandRequest) :
  String.eqb (command req) "restart_xray" = false ->
  (String.eqb (command req) "regenerate_user" = true
   /\ (well_formed_id env (old_user_uuid req) = false
       \/ well_formed_id env (user_uuid req) = false))
  \/ (String.eqb (command req) "regenerate_user" = false
      /\ (well_formed_id env (user_uuid req) = false
          \/ (String.eqb (command req) "add_user" = false
              /\ String.eqb (command req) "remove_user" = false))) ->
  receive_command req env w = (Raise (HTTPException 400), w).
Proof.
  intros Hr H. unfold receive_command. rewrite Hr.
  destruct H as [(Hc & H)|(Hc & H)]; rewrite Hc.
  - unfold handle_regenerate.
    destruct (old_user_uuid req) as [old|]; [|reflexivity].
    destruct (user_uuid req) as [new|]; [|reflexivity].
    cbn in H.
    destruct (String.eqb old ""); cbn [orb negb andb] in *; [reflexivity|].
    destruct (String.eqb new ""); cbn [orb negb andb] in *; [reflexivity|].
    rewrite bind_run.
    destruct (uuid_parses env old) eqn:Ho.
    + rewrite (check_uuid_ok env w old Ho), bind_run.
      destruct H as [H|H]; [discriminate|].
      rewrite (check_uuid_bad env w new H). reflexivity.
    + rewrite (check_uuid_bad env w old Ho). reflexivity.
  - destruct H as [H|(Ha & Hm)].
    + apply (check_malformed env w (user_uuid req) _ _ H).
    + rewrite Ha, Hm.
      destruct (user_uuid req) as [u|]; [|reflexivity].
      destruct (String.eqb u ""); [reflexivity|].
      rewrite bind_run. unfold check_uuid. rewrite bind_run. unfold constant.
      destruct (uuid_parses env u); reflexivity.
Qed.

(** X5, witness: an [add_user] request whose identifier is not a UUID. *)
Lemma malformed_request_rejected_witness :
  let w := Scenario.world_of (FHolds (Scenario.config_of [])) Scenario.new_cache in
  receive_command (mkRequest "add_user" (Some "not-a-uuid") None None)
                  Scenario.live_down w
  = (Raise (HTTPException 400), w).
Proof.
  intros w.
  apply (malformed_request_rejected Scenario.live_down w
           (mkRequest "add_user" (Some "not-a-uuid") None None)).
  - reflexivity.
  - right. split; [reflexivity|]. left. reflexivity.
Defined.

(* ===================================================================== *)
(** ** Removing a listed user *)
(* ===================================================================== *)

Lemma find_client_settings (u : string) (ib : Inbound) (cl : Client) :
  XRayGRPCClient.find_client u (clients_of ib) = Some cl ->
  exists s, i_settings ib = Some s.
Proof.
  unfold clients_of. destruct (i_settings ib) as [s|]; [eauto|discriminate].
Qed.

Lemma find_client_listed (u : string) (l : list Client) (cl : Client) :
  XRayGRPCClient.find_client u l = Some cl -> existsb (has_id u) l = true.
Proof.
  induction l as [|x l IH]; cbn; [discriminate|].
  destruct (has_id u x); [reflexivity|exact IH].
Qed.

Lemma listed_find_client (u : string) (l : list Client) :
  existsb (has_id u) l = true ->
  exists cl, XRayGRPCClient.find_client u l = Some cl.
Proof.
  induction l as [|x l IH]; cbn; [discriminate|].
  destruct (has_id u x); [eauto|exact IH].
Qed.

Lemma discard_forgets (u : string) (s : set string) :
  set_mem string_dec u (UserCache.discard u s) = false.
Proof.
  destruct (set_mem string_dec u (UserCache.discard u s)) eqn:E; [|reflexivity].
  apply set_mem_correct1 in E. unfold UserCache.discard in E.
  apply filter_In in E. destruct E as (_ & E).
  rewrite String.eqb_refl in E. discriminate.
Qed.

Lemma drop_id_forgets (u : string) (l : list Client) :
  entries_with_id u (drop_id u l) = 0%nat.
Proof.
  unfold entries_with_id, drop_id.
  induction l as [|x l IH]; cbn; [reflexivity|].
  destruct (has_id u x) eqn:E; cbn; [exact IH|]. rewrite E. exact IH.
Qed.

(** The merge of a remove for a listed user, with working stores: it
    returns success, the file holds the list without the user, the registry
    has dropped the user, and the live path is taken exactly when the
    endpoint accepted the call for a labelled entry. *)
Lemma remove_via_api_listed (env : Env) (w : World) (c : Config) (ib : Inbound)
  (u : string) (cl : Client) :
  store_works env ->
  file w = FHolds c -> settled (file w) ->
  find_vless c = Some ib ->
  XRayGRPCClient.find_client u (clients_of ib) = Some cl ->
  exists g w1,
    remove_user_via_api u env w = (Ok (true, g), w1)
    /\ file w1 = FHolds (set_vless_clients c (drop_id u (clients_of ib)))
    /\ users (cache w1) = UserCache.discard u (users (cache w))
    /\ count is_handler_reload (trace w1) = count is_handler_reload (trace w)
    /\ (live_accepts env -> truthy (c_email cl) = true -> g = true)
    /\ (live_unreachable env \/ truthy (c_email cl) = false -> g = false).
Proof.
  intros HW Hf Hs Hv Hfc.
  destruct (find_client_settings u ib cl Hfc) as (s & Hset).
  unfold remove_user_via_api. rewrite bind_run.
  rewrite (load_settled_value env w c Hf Hs). rewrite Hv. cbv zeta. rewrite Hfc.
  rewrite bind_run, is_available_run.
  assert (T : forall w' (g : bool),
             bind (require_settings ib)
               (fun _ => bind (save_xray_config
                                 (set_vless_clients c (drop_id u (clients_of ib))) true)
                  (fun _ => bind (UserCache.remove u) (fun _ => ret (true, g))))
               env w'
             = (Ok (true, g),
                log_event (EvCacheRemove u)
                  (set_cache
                     (mkCache (UserCache.discard u (users (cache w')))
                        (last_sync (cache w')) (sync_interval (cache w'))
                        (last_xray_reload (cache w')))
                     (log_event
                        (EvSave (set_vless_clients c (drop_id u (clients_of ib))))
                        (set_file
                           (FHolds (set_vless_clients c (drop_id u (clients_of ib))))
                           (next_tick
                              (log_event (EvValidate true) (next_tick w')))))))).
  { intros w' g. rewrite bind_run. unfold require_settings. rewrite Hset.
    unfold ret at 1. rewrite bind_run, (save_works env w' _ HW).
    reflexivity. }
  assert (Acc : live_accepts env ->
                proto_available env = true
                /\ live_client_ready env = true
                /\ (forall t, probe_ok (connect_ex env t) = true)
                /\ (forall t, rpc_ok (alter_inbound env t) = true)).
  { intros (A & B & C & D). unfold live_client_ready. rewrite A, B.
    repeat split; intros t; [rewrite C|rewrite D]; reflexivity. }
  destruct (proto_available env) eqn:Hpa.
  - rewrite bind_run.
    destruct (probe_ok (connect_ex env (tick (log_event EvLoad w)))) eqn:Hp.
    + destruct (truthy (c_email cl)) eqn:Ht; cbn [andb].
      * rewrite (grpc_remove_run env _ _ u (c_email cl) Ht).
        destruct (live_client_ready env) eqn:Hr.
        -- destruct (rpc_ok (alter_inbound env _)) eqn:Hrpc; rewrite T;
             do 2 eexists; (split; [reflexivity|]); cbn;
             repeat split; auto.
           ++ intros [U|U]; [|discriminate].
              specialize (U (tick w)). cbn in Hp. congruence.
           ++ intros H _. destruct (Acc H) as (_ & _ & _ & D).
              cbn in Hrpc. rewrite D in Hrpc. discriminate.
        -- cbv beta iota. rewrite T.
           do 2 eexists; (split; [reflexivity|]); cbn; repeat split; auto.
           intros H _. destruct (Acc H) as (_ & B & _). congruence.
      * unfold ret at 1. rewrite T.
        do 2 eexists; (split; [reflexivity|]); cbn; repeat split; auto.
    + cbn [andb]. unfold ret at 1. rewrite T.
      do 2 eexists; (split; [reflexivity|]); cbn; repeat split; auto.
      intros H _. destruct (Acc H) as (_ & _ & C & _).
      cbn in Hp. rewrite C in Hp. discriminate.
  - rewrite bind_run. cbn [andb]. unfold ret at 1. rewrite T.
    do 2 eexists; (split; [reflexivity|]); cbn; repeat split; auto.
    intros H _. destruct (Acc H) as (A & _). congruence.
Qed.

Lemma receive_remove (env : Env) (w : World) (u : string) (old e : option string) :
  u <> "" -> uuid_parses env u = true ->
  receive_command (mkRequest "remove_user" (Some u) old e) env w
  = match handle_remove u env w with
    | (Ok true, w1) =>
        (Ok (mkResponse true "Command remove_user executed successfully" None), w1)
    | (Ok false, w1) => (Raise (HTTPException 400), w1)
    | (Raise x, w1) => (Raise x, w1)
    end.
Proof.
  intros Hne Hu. unfold receive_command. cbn [command user_uuid].
  change (String.eqb "remove_user" "restart_xray") with false.
  change (String.eqb "remove_user" "regenerate_user") with false.
  change (String.eqb "remove_user" "add_user") with false.
  change (String.eqb "remove_user" "remove_user") with true.
  cbv iota.
  destruct (String.eqb u "") eqn:E; [apply String.eqb_eq in E; contradiction|].
  rewrite bind_run, (check_uuid_ok env w u Hu), bind_run.
  destruct (handle_remove u env w) as [[[]|x] w1]; reflexivity.
Qed.

Lemma client_ids_kept (u : string) (l : list Client) (acc : set string) :
  In u acc -> In u (fold_left UserCache.add_client_id l acc).
Proof.
  revert acc. induction l as [|cl l IH]; intros acc H; cbn; [exact H|].
  apply IH. unfold UserCache.add_client_id.
  destruct (c_id cl) as [v|]; [|exact H].
  destruct (String.eqb v ""); [exact H|]. apply set_add_intro1. exact H.
Qed.

Lemma client_ids_collected (u : string) (l : list Client) (acc : set string) :
  u <> "" -> existsb (has_id u) l = true ->
  In u (fold_left UserCache.add_client_id l acc).
Proof.
  intros Hne. revert acc. induction l as [|cl l IH]; intros acc; cbn; [discriminate|].
  destruct (has_id u cl) eqn:E; cbn.
  - intros _. apply client_ids_kept. unfold UserCache.add_client_id.
    unfold has_id, get_eqb in E. destruct (c_id cl) as [v|]; [|discriminate].
    apply String.eqb_eq in E. subst v.
    destruct (String.eqb u "") eqn:E0; [apply String.eqb_eq in E0; contradiction|].
    apply set_add_intro2. reflexivity.
  - apply IH.
Qed.

Lemma inbound_ids_kept (u : string) (ibs : list Inbound) (acc : set string) :
  In u acc -> In u (fold_left UserCache.add_inbound_ids ibs acc).
Proof.
  revert acc. induction ibs as [|i ibs IH]; intros acc H; cbn; [exact H|].
  apply IH. unfold UserCache.add_inbound_ids.
  destruct (is_vless i); [apply client_ids_kept|]; exact H.
Qed.

Lemma inbound_ids_collected (u : string) (ibs : list Inbound) (acc : set string) :
  u <> "" ->
  existsb (fun i => is_vless i && existsb (has_id u) (clients_of i)) ibs = true ->
  In u (fold_left UserCache.add_inbound_ids ibs acc).
Proof.
  intros Hne. revert acc. induction ibs as [|i ibs IH]; intros acc; cbn;
    [discriminate|].
  destruct (is_vless i && existsb (has_id u) (clients_of i)) eqn:E; cbn.
  - intros _. apply inbound_ids_kept. unfold UserCache.add_inbound_ids.
    apply Bool.andb_true_iff in E. destruct E as (-> & E).
    apply client_ids_collected; assumption.
  - apply IH.
Qed.

Lemma first_vless_listed (u : string) (ibs : list Inbound) (ib : Inbound) :
  first_vless ibs = Some ib ->
  existsb (has_id u) (clients_of ib) = true ->
  existsb (fun i => is_vless i && existsb (has_id u) (clients_of i)) ibs = true.
Proof.
  induction ibs as [|i ibs IH]; cbn; [discriminate|].
  destruct (is_vless i) eqn:E; cbn.
  - intros H. injection H as ->. intros ->. reflexivity.
  - exact IH.
Qed.

(** A state in which the registry and the first VLESS client list both
    hold [u], on a settled file. *)
Lemma exists_listed (env : Env) (w : World) (c : Config) (ib : Inbound)
  (u : string) (cl : Client) :
  u <> "" ->
  file w = FHolds c -> settled (file w) ->
  find_vless c = Some ib ->
  XRayGRPCClient.find_client u (clients_of ib) = Some cl ->
  set_mem string_dec u (users (cache w)) = true ->
  exists w0,
    UserCache.exists_ u true env w = (Ok true, w0)
    /\ file w0 = file w
    /\ count is_handler_reload (trace w0) = count is_handler_reload (trace w).
Proof.
  intros Hne Hf Hs Hv Hfc Hreg.
  pose proof (cache_exists_silent_handler_reload u true env w) as Sil.
  destruct (exists_on_settled_file env w u c Hf Hs) as (w0 & E & F0 & U0).
  rewrite E in Sil. cbn [snd] in Sil.
  exists w0. split; [|split; assumption].
  rewrite E. f_equal. f_equal.
  destruct U0 as [U0|U0]; rewrite U0; [exact Hreg|].
  apply set_mem_correct2. unfold UserCache.config_user_ids.
  apply inbound_ids_collected; [exact Hne|].
  apply (first_vless_listed u _ ib Hv).
  exact (find_client_listed u _ cl Hfc).
Qed.

(** The [remove_user] branch for a user that the registry and the first
    VLESS client list both hold. *)
Lemma handle_remove_listed (env : Env) (w : World) (c : Config) (ib : Inbound)
  (u : string) (cl : Client) :
  u <> "" -> store_works env ->
  file w = FHolds c -> settled (file w) ->
  find_vless c = Some ib ->
  XRayGRPCClient.find_client u (clients_of ib) = Some cl ->
  set_mem string_dec u (users (cache w)) = true ->
  exists (g : bool) (w1 : World),
    handle_remove u env w
    = (if g then (Ok true, w1) else reload_xray AtHandler env w1)
    /\ persisted_clients (file w1) = drop_id u (clients_of ib)
    /\ set_mem string_dec u (users (cache w1)) = false
    /\ count is_handler_reload (trace w1) = count is_handler_reload (trace w)
    /\ (live_accepts env -> truthy (c_email cl) = true -> g = true)
    /\ (live_unreachable env \/ truthy (c_email cl) = false -> g = false).
Proof.
  intros Hne HW Hf Hs Hv Hfc Hreg.
  destruct (exists_listed env w c ib u cl Hne Hf Hs Hv Hfc Hreg)
    as (w0 & E & F0 & T0).
  assert (Hf0 : file w0 = FHolds c) by congruence.
  assert (Hs0 : settled (file w0)) by (rewrite F0; exact Hs).
  destruct (remove_via_api_listed env w0 c ib u cl HW Hf0 Hs0 Hv Hfc)
    as (g & w1 & ER & F1 & U1 & T1 & GA & GU).
  exists g, w1. split.
  - unfold handle_remove. rewrite bind_run, E. cbn [negb]. cbv iota.
    rewrite bind_run, ER. destruct g; reflexivity.
  - split; [rewrite F1; apply (persisted_after_assign c ib _ Hv)|].
    split; [rewrite U1; apply discard_forgets|].
    split; [congruence|]. split; assumption.
Qed.

(** X6.  Live removal.  With working stores and a control endpoint that
    accepts the call, removing a user whose entry carries a label and whom
    the registry lists answers success; the persisted client list is the
    old one without every entry of that id, the registry no longer lists
    the user, and the handler runs no reload. *)
Theorem remove_over_live_path (env : Env) (w : World) (c : Config) (ib : Inbound)
  (u : string) (cl : Client) (old e : option string) :
  u <> "" -> uuid_parses env u = true ->
  store_works env -> live_accepts env ->
  file w = FHolds c -> settled (file w) ->
  find_vless c = Some ib ->
  XRayGRPCClient.find_client u (clients_of ib) = Some cl ->
  truthy (c_email cl) = true ->
  set_mem string_dec u (users (cache w)) = true ->
  exists w',
    receive_command (mkRequest "remove_user" (Some u) old e) env w
    = (Ok (mkResponse true "Command remove_user executed successfully" None), w')
    /\ persisted_clients (file w') = drop_id u (clients_of ib)
    /\ entries_with_id u (persisted_clients (file w')) = 0%nat
    /\ set_mem string_dec u (users (cache w')) = false
    /\ count is_handler_reload (trace w') = count is_handler_reload (trace w).
Proof.
  intros Hne Hu HW HL Hf Hs Hv Hfc Ht Hreg.
  destruct (handle_remove_listed env w c ib u cl Hne HW Hf Hs Hv Hfc Hreg)
    as (g & w1 & E & P & U & T & GA & _).
  rewrite (GA HL Ht) in E.
  exists w1. rewrite (receive_remove env w u old e Hne Hu), E.
  split; [reflexivity|]. split; [exact P|].
  split; [rewrite P; apply drop_id_forgets|]. split; assumption.
Qed.

(** X6, witness: user A of a two-user config, the endpoint accepting. *)
Lemma remove_over_live_path_witness :
  let w := Scenario.world_of
             (FHolds (Scenario.config_of [Scenario.client Scenario.uA "a";
                                          Scenario.client Scenario.uB "b"]))
             (Scenario.synced_cache [Scenario.uA; Scenario.uB]) in
  exists w',
    receive_command (Scenario.remove_request Scenario.uA) Scenario.live_up w
    = (Ok Scenario.remove_response, w')
    /\ persisted_clients (file w') = [Scenario.client Scenario.uB "b"]
    /\ count is_handler_reload (trace w') = 0%nat.
Proof.
  intros w.
  destruct (remove_over_live_path Scenario.live_up w
              (Scenario.config_of [Scenario.client Scenario.uA "a";
                                   Scenario.client Scenario.uB "b"])
              (default_vless [Scenario.client Scenario.uA "a";
                              Scenario.client Scenario.uB "b"])
              Scenario.uA (Scenario.client Scenario.uA "a") None None)
    as (w' & E & P & _ & _ & T).
  - discriminate.
  - reflexivity.
  - repeat split; intros; try discriminate; reflexivity.
  - repeat split; intros; reflexivity.
  - reflexivity.
  - reflexivity.
  - reflexivity.
  - reflexivity.
  - reflexivity.
  - reflexivity.
  - exists w'. split; [exact E|]. split; [exact P|exact T].
Defined.





(* ===================================================================== *)
(** ** The live call is not undone *)
(* ===================================================================== *)

Lemma save_rejected (env : Env) (w : World) (c : Config) :
  (forall t cfg, verdict (docker env t cfg) = false) ->
  save_xray_config c true env w
  = (Raise ValueError, log_event (EvValidate false) (next_tick w)).
Proof.
  intros H. rewrite save_run. unfold save_result. rewrite H. reflexivity.
Qed.

(** X9.  The live call comes before the save and is not undone.  When the
    control endpoint accepts the add but validation rejects the new
    configuration, the request fails with [ValueError]: the running server
    has the user (the accepted call is on the trace), the file and the
    registry do not. *)
Theorem live_add_survives_rejected_save (env : Env) (w : World) (c : Config)
  (ib : Inbound) (u : string) (old e : option string) :
  u <> "" -> uuid_parses env u = true ->
  reality_answers env -> live_accepts env ->
  (forall t cfg, verdict (docker env t cfg) = false) ->
  file w = FHolds c -> settled (file w) ->
  find_vless c = Some ib -> i_settings ib <> None ->
  set_mem string_dec u (users (cache w)) = false ->
  UserCache.config_lists c u = false ->
  exists w',
    receive_command (mkRequest "add_user" (Some u) old e) env w
    = (Raise ValueError, w')
    /\ In (EvGrpcAdd (tag_of ib) u (email_or_default e u) true) (trace w')
    /\ file w' = file w
    /\ set_mem string_dec u (users (cache w')) = false.
Proof.
  intros Hne Hu HR (Hpa & Hst & Hpr & Hrpc) HV Hf Hs Hv Hset Hreg Hcl.
  rewrite (receive_add env w u old e Hne Hu).
  destruct (exists_on_settled_file env w u c Hf Hs) as (w0 & E & F0 & U0).
  assert (B : set_mem string_dec u (users (cache w0)) = false).
  { destruct U0 as [U0|U0]; rewrite U0; [exact Hreg|].
    destruct (set_mem string_dec u (UserCache.config_user_ids c)) eqn:M;
      [|reflexivity].
    rewrite (synced_ids_are_listed u c M) in Hcl. discriminate. }
  assert (Ha : existsb (has_id u) (clients_of ib) = false).
  { destruct (existsb (has_id u) (clients_of ib)) eqn:X; [|reflexivity].
    unfold UserCache.config_lists in Hcl.
    rewrite (first_vless_listed u _ ib Hv X) in Hcl. discriminate. }
  assert (Hf0 : file w0 = FHolds c) by congruence.
  assert (Hs0 : settled (file w0)) by (rewrite F0; exact Hs).
  assert (EA : exists w1,
             add_user_via_api u e env w0 = (Raise ValueError, w1)
             /\ In (EvGrpcAdd (tag_of ib) u (email_or_default e u) true) (trace w1)
             /\ file w1 = file w0 /\ cache w1 = cache w0).
  { unfold add_user_via_api. rewrite bind_run.
    rewrite (load_settled_value env w0 c Hf0 Hs0). rewrite Hv. cbv zeta.
    rewrite Ha. cbv iota. rewrite bind_run.
    destruct (reality_read env (log_event EvLoad w0) HR) as (ids & R).
    rewrite R. rewrite bind_run. unfold require_settings.
    destruct (i_settings ib); [|contradiction].
    unfold ret at 1. rewrite bind_run, is_available_run, Hpa, Hpr.
    cbn [probe_ok Z.eqb]. rewrite bind_run, grpc_add_run.
    unfold live_client_ready. rewrite Hpa, Hst, Hrpc. cbn [andb rpc_ok].
    rewrite bind_run, (save_rejected env _ _ HV).
    eexists. split; [reflexivity|]. cbn. auto. }
  destruct EA as (w1 & EA & I1 & F1 & C1).
  exists w1. unfold handle_add. rewrite bind_run, E, B. cbv iota.
  cbn [email]. rewrite bind_run, EA.
  split; [reflexivity|]. split; [exact I1|]. split; [congruence|].
  rewrite C1. exact B.
Qed.

(** X9, witness: a first add while [xray -test] rejects every candidate. *)
Lemma live_add_survives_rejected_save_witness :
  let w := Scenario.world_of (FHolds (Scenario.config_of []))
             (Scenario.synced_cache []) in
  exists w',
    receive_command (Scenario.add_request Scenario.uA (Some "a"))
                    Scenario.live_up_test_rejects w
    = (Raise ValueError, w')
    /\ In (EvGrpcAdd "vless" Scenario.uA "a" true) (trace w')
    /\ persisted_clients (file w') = [].
Proof.
  intros w.
  destruct (live_add_survives_rejected_save Scenario.live_up_test_rejects w
              (Scenario.config_of []) (default_vless [])
              Scenario.uA None (Some "a"))
    as (w' & E & I & F & _).
  - discriminate.
  - reflexivity.
  - split; intros; [discriminate|reflexivity].
  - repeat split; intros; reflexivity.
  - intros t cfg. reflexivity.
  - reflexivity.
  - reflexivity.
  - reflexivity.
  - discriminate.
  - reflexivity.
  - reflexivity.
  - exists w'. split; [exact E|]. split; [exact I|]. rewrite F. reflexivity.
Defined.

(* ===================================================================== *)
(** ** The registry and the file *)
(* ===================================================================== *)

Lemma client_ids_nonempty (u : string) (l : list Client) (acc : set string) :
  In u (fold_left UserCache.add_client_id l acc) -> In u acc \/ u <> "".
Proof.
  revert acc. induction l as [|cl l IH]; intros acc; cbn; [auto|].
  intros H. destruct (IH _ H) as [Hacc|Hne]; [|auto].
  unfold UserCache.add_client_id in Hacc.
  destruct (c_id cl) as [v|]; [|auto].
  destruct (String.eqb v "") eqn:E; [auto|].
  apply set_add_elim in Hacc. destruct Hacc as [->|Hacc]; [|auto].
  right. intros ->. rewrite String.eqb_refl in E. discriminate.
Qed.

Lemma inbound_ids_nonempty (u : string) (ibs : list Inbound) (acc : set string) :
  In u (fold_left UserCache.add_inbound_ids ibs acc) -> In u acc \/ u <> "".
Proof.
  revert acc. induction ibs as [|i ibs IH]; intros acc; cbn; [auto|].
  intros H. destruct (IH _ H) as [Hacc|Hne]; [|auto].
  unfold UserCache.add_inbound_ids in Hacc.
  destruct (is_vless i); [|auto]. exact (client_ids_nonempty u _ _ Hacc).
Qed.

(** What a sync collects: the non-empty ids that some VLESS inbound lists. *)
Lemma synced_mem (u : string) (c : Config) :
  set_mem string_dec u (UserCache.config_user_ids c)
  = negb (String.eqb u "") && UserCache.config_lists c u.
Proof.
  destruct (set_mem string_dec u (UserCache.config_user_ids c)) eqn:M.
  - rewrite (synced_ids_are_listed u c M).
    apply set_mem_correct1 in M. unfold UserCache.config_user_ids in M.
    destruct (inbound_ids_nonempty u _ _ M) as [[]|Hne].
    destruct (String.eqb u "") eqn:E; [|reflexivity].
    apply String.eqb_eq in E. contradiction.
  - destruct (String.eqb u "") eqn:E; [reflexivity|]. cbn.
    destruct (UserCache.config_lists c u) eqn:L; [|reflexivity].
    apply set_mem_complete1 in M. exfalso. apply M.
    unfold UserCache.config_user_ids. apply inbound_ids_collected; [|exact L].
    intros ->. rewrite String.eqb_refl in E. discriminate.
Qed.

Lemma client_ids_nodup (l : list Client) (acc : set string) :
  NoDup acc -> NoDup (fold_left UserCache.add_client_id l acc).
Proof.
  revert acc. induction l as [|cl l IH]; intros acc H; cbn; [exact H|].
  apply IH. unfold UserCache.add_client_id.
  destruct (c_id cl) as [v|]; [|exact H].
  destruct (String.eqb v ""); [exact H|]. apply set_add_nodup. exact H.
Qed.

Lemma synced_nodup (c : Config) : NoDup (UserCache.config_user_ids c).
Proof.
  unfold UserCache.config_user_ids.
  assert (G : forall ibs acc, NoDup acc ->
             NoDup (fold_left UserCache.add_inbound_ids ibs acc)).
  { induction ibs as [|i ibs IH]; intros acc H; cbn; [exact H|].
    apply IH. unfold UserCache.add_inbound_ids.
    destruct (is_vless i); [apply client_ids_nodup|]; exact H. }
  apply G. constructor.
Qed.

(** The lazy migration changes no client list. *)
Lemma migrate_keeps_ids (l l' : list Inbound) (acc : set string) :
  migrate_inbounds l = Some l' ->
  fold_left UserCache.add_inbound_ids l' acc
  = fold_left UserCache.add_inbound_ids l acc.
Proof.
  revert l' acc. induction l as [|i l IH]; intros l' acc; cbn; [discriminate|].
  destruct (is_vless i && obsolete_maxTimeDiff (i_maxTimeDiff i)).
  - intros H. injection H as <-. reflexivity.
  - destruct (migrate_inbounds l) as [r'|]; [|discriminate].
    intros H. injection H as <-. cbn. apply IH. reflexivity.
Qed.

Lemma migrated_ids (c : Config) :
  UserCache.config_user_ids (migrated c) = UserCache.config_user_ids c.
Proof.
  unfold migrated, UserCache.config_user_ids.
  destruct (migrate_inbounds (inbounds c)) as [l'|] eqn:E; [|reflexivity].
  apply migrate_keeps_ids. exact E.
Qed.

Lemma migrate_keeps_listing (u : string) (l l' : list Inbound) :
  migrate_inbounds l = Some l' ->
  existsb (fun i => is_vless i && existsb (has_id u) (clients_of i)) l'
  = existsb (fun i => is_vless i && existsb (has_id u) (clients_of i)) l.
Proof.
  revert l'. induction l as [|i l IH]; intros l'; cbn; [discriminate|].
  destruct (is_vless i && obsolete_maxTimeDiff (i_maxTimeDiff i)).
  - intros H. injection H as <-. reflexivity.
  - destruct (migrate_inbounds l) as [r'|]; [|discriminate].
    intros H. injection H as <-. cbn. rewrite (IH r' eq_refl). reflexivity.
Qed.

Lemma migrated_lists (c : Config) (u : string) :
  UserCache.config_lists (migrated c) u = UserCache.config_lists c u.
Proof.
  unfold migrated, UserCache.config_lists.
  destruct (migrate_inbounds (inbounds c)) as [l'|] eqn:E; [|reflexivity].
  apply migrate_keeps_listing. exact E.
Qed.

(** A sync over a readable file. *)
Lemma sync_run (env : Env) (w : World) (c : Config) :
  file w = FHolds c ->
  exists w0,
    load_xray_config env w = (Ok (migrated c), w0)
    /\ UserCache.sync_from_config env w
       = (Ok tt,
          log_event (EvCacheSync (UserCache.config_user_ids c))
            (set_cache
               (mkCache (UserCache.config_user_ids c) (Some (clock env (tick w0)))
                        (sync_interval (cache w)) (last_xray_reload (cache w)))
               (next_tick w0))).
Proof.
  intros Hf.
  pose proof (load_holds_value env w c Hf) as V.
  pose proof (load_keeps_cache env w) as K.
  destruct (load_xray_config env w) as [r w0] eqn:HL. cbn in V, K. subst r.
  exists w0. split; [reflexivity|].
  unfold UserCache.sync_from_config. rewrite try_run, bind_run, HL.
  rewrite migrated_ids. cbv zeta. unfold get_cache, now, ask, put_cache, emit, bind.
  cbn. rewrite K. reflexivity.
Qed.

(** X10.  A sync over a readable file makes the registry list exactly the
    non-empty ids found in the client lists of the VLESS inbounds (of all
    of them, not only the first), without duplicates, and stamps the sync. *)
Theorem sync_mirrors_file (env : Env) (w : World) (c : Config) :
  file w = FHolds c ->
  exists w1,
    UserCache.sync_from_config env w = (Ok tt, w1)
    /\ (forall u, set_mem string_dec u (users (cache w1))
                  = negb (String.eqb u "") && UserCache.config_lists c u)
    /\ NoDup (users (cache w1))
    /\ last_sync (cache w1) <> None.
Proof.
  intros Hf. destruct (sync_run env w c Hf) as (w0 & _ & E).
  eexists. split; [exact E|]. cbn.
  split; [intros u; apply synced_mem|].
  split; [apply synced_nodup|discriminate].
Qed.

(** X10, witness: two VLESS inbounds, an entry without id and a repeated id. *)
Lemma sync_mirrors_file_witness :
  let c := mkConfig [default_vless [Scenario.client Scenario.uA "a";
                                    mkClient None (Some "x") None;
                                    Scenario.client Scenario.uA "a2"];
                     default_api_inbound;
                     default_vless [Scenario.client Scenario.uB "b"]] in
  let w := Scenario.world_of (FHolds c) Scenario.new_cache in
  exists w1,
    UserCache.sync_from_config Scenario.live_down w = (Ok tt, w1)
    /\ set_mem string_dec Scenario.uB (users (cache w1)) = true
    /\ set_mem string_dec Scenario.uX (users (cache w1)) = false
    /\ NoDup (users (cache w1)).
Proof.
  intros c w.
  destruct (sync_mirrors_file Scenario.live_down w c eq_refl)
    as (w1 & E & M & N & _).
  exists w1. split; [exact E|].
  split; [rewrite M; reflexivity|]. split; [rewrite M; reflexivity|exact N].
Defined.

(** X11.  While the config file is unreadable the registry is frozen: a
    lookup answers from the last content however stale it is, the sync
    stamp does not advance (so every checked lookup that finds the sync due
    tries the load again, and the failure of that load is swallowed), and
    nothing is raised to the caller. *)
Theorem unreadable_file_freezes_registry (env : Env) (w : World) (u : string)
  (check_sync : bool) :
  file w = FGarbled ->
  exists w1,
    UserCache.exists_ u check_sync env w
    = (Ok (set_mem string_dec u (users (cache w))), w1)
    /\ cache w1 = cache w
    /\ file w1 = FGarbled
    /\ count is_load (trace w1)
       = (if check_sync && sync_due env w then S (count is_load (trace w))
          else count is_load (trace w)).
Proof.
  intros Hf.
  assert (S : forall w', file w' = FGarbled ->
             UserCache.sync_from_config env w' = (Ok tt, log_event EvLoad w')).
  { intros w' F. unfold UserCache.sync_from_config.
    rewrite try_run, bind_run, (load_garbled env w' F). reflexivity. }
  unfold UserCache.exists_, sync_due. rewrite bind_run.
  destruct check_sync; cbn [andb].
  - unfold UserCache.maybe_sync. rewrite bind_run. unfold get_cache at 1.
    destruct (last_sync (cache w)) as [t0|].
    + rewrite bind_run. unfold now, ask at 1.
      destruct (clock env (tick w) - t0 >=? sync_interval (cache w)).
      * rewrite (S (next_tick w) Hf). eexists. split; [reflexivity|].
        unfold count. cbn. auto.
      * eexists. split; [reflexivity|]. cbn. auto.
    + rewrite (S w Hf). eexists. split; [reflexivity|]. unfold count. cbn. auto.
  - eexists. split; [reflexivity|]. cbn. auto.
Qed.

(** X11, witness: a registry synced ten minutes ago in front of a garbled
    file: the sync is due, the load is tried and fails, the registry keeps
    its content and its stamp. *)
Lemma unreadable_file_freezes_registry_witness :
  let w := Scenario.world_of FGarbled (Scenario.synced_cache [Scenario.uA]) in
  exists w1,
    UserCache.exists_ Scenario.uA true Scenario.much_later w = (Ok true, w1)
    /\ cache w1 = Scenario.synced_cache [Scenario.uA]
    /\ count is_load (trace w1) = 1%nat.
Proof.
  intros w.
  destruct (unreadable_file_freezes_registry Scenario.much_later w Scenario.uA
              true eq_refl) as (w1 & E & C & _ & L).
  exists w1. split; [exact E|]. split; [exact C|exact L].
Defined.

Lemma set_mem_set_add (u v : string) (s : set string) :
  set_mem string_dec u (set_add string_dec v s)
  = String.eqb u v || set_mem string_dec u s.
Proof.
  destruct (String.eqb u v) eqn:E; cbn.
  - apply String.eqb_eq in E. subst v.
    apply set_mem_correct2, set_add_intro2. reflexivity.
  - destruct (set_mem string_dec u s) eqn:M.
    + apply set_mem_correct2, set_add_intro1, set_mem_correct1 with (1 := M).
    + apply set_mem_complete2. intros H. apply set_add_elim in H.
      destruct H as [->|H].
      * rewrite String.eqb_refl in E. discriminate.
      * apply set_mem_complete1 in M. contradiction.
Qed.

Lemma set_mem_discard (u v : string) (s : set string) :
  set_mem string_dec u (UserCache.discard v s)
  = negb (String.eqb u v) && set_mem string_dec u s.
Proof.
  unfold UserCache.discard.
  induction s as [|x s IH]; cbn; [apply eq_sym, Bool.andb_false_r|].
  destruct (String.eqb x v) eqn:Exv; cbn.
  - rewrite IH. destruct (string_dec u x) as [->|N]; [|reflexivity].
    rewrite Exv. reflexivity.
  - destruct (string_dec u x) as [->|N].
    + rewrite Exv. reflexivity.
    + exact IH.
Qed.

(** X12.  Registry updates and the unchecked lookup: after [add v] the
    registry lists [u] iff [u = v] or it did before; after [remove v] iff
    [u <> v] and it did before; after [clear] it lists nobody.  The updates
    themselves never read the file. *)
Theorem registry_update_then_lookup (env : Env) (w : World) (u v : string) :
  (UserCache.add v ;;; UserCache.exists_ u false)%py env w
  = (Ok (String.eqb u v || set_mem string_dec u (users (cache w))),
     snd (UserCache.add v env w))
  /\ (UserCache.remove v ;;; UserCache.exists_ u false)%py env w
     = (Ok (negb (String.eqb u v) && set_mem string_dec u (users (cache w))),
        snd (UserCache.remove v env w))
  /\ (UserCache.clear ;;; UserCache.exists_ u false)%py env w
     = (Ok false, snd (UserCache.clear env w))
  /\ count is_load (trace (snd (UserCache.add v env w))) = count is_load (trace w)
  /\ count is_load (trace (snd (UserCache.remove v env w))) = count is_load (trace w).
Proof.
  unfold UserCache.add, UserCache.remove, UserCache.clear, UserCache.exists_,
    bind, get_cache, put_cache, emit, ret. cbn.
  rewrite set_mem_set_add, set_mem_discard. repeat split; reflexivity.
Qed.

(** X13.  [clear] forces a resync: the next checked lookup reads the file
    again and answers from it, whatever the registry held before. *)
Theorem clear_forces_resync (env : Env) (w : World) (c : Config) (u : string) :
  file w = FHolds c ->
  fst ((UserCache.clear ;;; UserCache.exists_ u true)%py env w)
  = Ok (negb (String.eqb u "") && UserCache.config_lists c u).
Proof.
  intros Hf. rewrite bind_run.
  unfold UserCache.clear at 1. rewrite bind_run. unfold get_cache at 1.
  unfold put_cache at 1. unfold UserCache.exists_. rewrite bind_run.
  unfold UserCache.maybe_sync. rewrite bind_run. unfold get_cache at 1.
  cbn [cache set_cache last_sync].
  destruct (sync_run env (set_cache
                            (mkCache (empty_set string) None
                               (sync_interval (cache w))
                               (last_xray_reload (cache w))) w) c Hf)
    as (w0 & _ & E).
  rewrite E. cbn. rewrite synced_mem. reflexivity.
Qed.

(** X13, witness: a registry that wrongly lists a user is cleared. *)
Lemma clear_forces_resync_witness :
  fst ((UserCache.clear ;;; UserCache.exists_ Scenario.uX true)%py
         Scenario.live_down
         (Scenario.world_of
            (FHolds (Scenario.config_of [Scenario.client Scenario.uA "a"]))
            (Scenario.synced_cache [Scenario.uX])))
  = Ok false.
Proof.
  exact (clear_forces_resync Scenario.live_down
           (Scenario.world_of
              (FHolds (Scenario.config_of [Scenario.client Scenario.uA "a"]))
              (Scenario.synced_cache [Scenario.uX]))
           (Scenario.config_of [Scenario.client Scenario.uA "a"])
           Scenario.uX eq_refl).
Defined.

(* ===================================================================== *)
(** ** The reload advice *)
(* ===================================================================== *)

(** A loaded configuration lists a user in a VLESS inbound only if the file
    does: the default document of a missing file lists nobody. *)
Lemma loaded_lists (env : Env) (w w0 : World) (c0 : Config) (u : string) :
  load_xray_config env w = (Ok c0, w0) ->
  UserCache.config_lists c0 u = true ->
  exists c, file w = FHolds c /\ UserCache.config_lists c u = true.
Proof.
  intros HL L. destruct (file w) as [| |c|sf] eqn:Hf; cycle 3.
  - rewrite (load_foreign env w sf Hf) in HL. discriminate.
  - exfalso. rewrite (load_absent env w Hf) in HL.
    unfold get_default_config, get_reality_short_ids, save_reality_config,
      bind, ask, read_file, ret, raise in HL.
    repeat match type of HL with
           | context [reality_short_ids ?e ?t] => destruct (reality_short_ids e t)
           | context [reality_writable ?e ?t] => destruct (reality_writable e t)
           | context [match ?l with [] => _ | _ :: _ => _ end] => destruct l
           end; cbn in HL; try discriminate; rewrite ?Hf in HL;
      injection HL as <- _; discriminate.
  - rewrite (load_garbled env w Hf) in HL. discriminate.
  - pose proof (load_holds_value env w c Hf) as V. rewrite HL in V.
    cbn in V. injection V as ->. rewrite migrated_lists in L. eauto.
Qed.

(** X14.  [should_reload_xray] always returns and leaves the registry as it
    is.  It advises a reload only for a user that the config file lists in
    some VLESS inbound; and within five minutes of a recorded reload it
    answers no without reading the file. *)
Theorem reload_advice (env : Env) (w : World) (u : string) :
  exists b w1,
    UserCache.should_reload_xray u env w = (Ok b, w1)
    /\ cache w1 = cache w
    /\ (b = true ->
        exists c, file w = FHolds c /\ UserCache.config_lists c u = true)
    /\ (forall t0, last_xray_reload (cache w) = Some t0 ->
                   clock env (tick w) - t0 < minutes 5 ->
                   b = false /\ count is_load (trace w1) = count is_load (trace w)).
Proof.
  assert (Tail : forall w' (k : M bool),
             file w' = file w -> cache w' = cache w ->
             (forall env2 w2, exists b2, k env2 w2 = (Ok b2, next_tick w2)
                                         \/ k env2 w2 = (Ok b2, w2)) ->
             exists b w1,
               try_except
                 (config <- load_xray_config ;;
                  if UserCache.config_lists config u then k else ret false)
                 (fun _ => ret false) env w' = (Ok b, w1)
               /\ cache w1 = cache w
               /\ (b = true ->
                   exists c, file w = FHolds c /\ UserCache.config_lists c u = true)).
  { intros w' k F C K. rewrite try_run, bind_run.
    pose proof (load_keeps_cache env w') as LK.
    pose proof (loaded_lists env w') as LL.
    destruct (load_xray_config env w') as [[c0|x] w0].
    - specialize (LL w0 c0 u eq_refl). cbn in LK.
      destruct (UserCache.config_lists c0 u).
      + destruct (K env w0) as (b2 & [E|E]); rewrite E;
          do 2 eexists; (split; [reflexivity|]); cbn;
          (split; [congruence|]); intros _; rewrite <- F; exact (LL eq_refl).
      + do 2 eexists. split; [reflexivity|]. cbn.
        split; [congruence|discriminate].
    - do 2 eexists. split; [reflexivity|]. cbn in *.
      split; [congruence|discriminate]. }
  unfold UserCache.should_reload_xray. rewrite bind_run. unfold get_cache at 1.
  rewrite bind_run.
  destruct (last_xray_reload (cache w)) as [t0|] eqn:HR.
  - rewrite bind_run. unfold now at 1, ask at 1. unfold ret at 1.
    destruct (clock env (tick w) - t0 <? minutes 5) eqn:Recent.
    + do 2 eexists. split; [reflexivity|]. cbn.
      split; [reflexivity|]. split; [discriminate|]. auto.
    + rewrite bind_run.
      assert (NotRecent : forall t1, Some t0 = Some t1 ->
                ~ clock env (tick w) - t1 < minutes 5).
      { intros t1 H. injection H as <-. apply Z.ltb_ge in Recent. lia. }
      assert (K : forall env2 w2, exists b2,
                 (t <- now ;; ret (t - t0 >? minutes 5))%py env2 w2
                 = (Ok b2, next_tick w2)
                 \/ (t <- now ;; ret (t - t0 >? minutes 5))%py env2 w2 = (Ok b2, w2)).
      { intros env2 w2. eexists. left. reflexivity. }
      destruct (last_sync (cache w)) as [s0|].
      * rewrite bind_run. unfold now at 1, ask at 1. unfold ret at 1.
        destruct ((clock env (tick (next_tick w)) - s0 <? minutes 1)
                  && set_mem string_dec u (users (cache w))).
        -- do 2 eexists. split; [reflexivity|]. cbn.
           split; [reflexivity|]. split; [discriminate|].
           intros t1 H1 H2. destruct (NotRecent t1 H1 H2).
        -- destruct (Tail (next_tick (next_tick w)) _ eq_refl eq_refl K)
             as (b & w1 & E & C & L).
           rewrite E. exists b, w1. split; [reflexivity|].
           split; [exact C|]. split; [exact L|].
           intros t1 H1 H2. destruct (NotRecent t1 H1 H2).
      * unfold ret at 1. cbn [andb].
        destruct (Tail (next_tick w) _ eq_refl eq_refl K)
          as (b & w1 & E & C & L).
        rewrite E. exists b, w1. split; [reflexivity|].
        split; [exact C|]. split; [exact L|].
        intros t1 H1 H2. destruct (NotRecent t1 H1 H2).
  - unfold ret at 1. rewrite bind_run.
    assert (K : forall env2 w2, exists b2,
               @ret bool true env2 w2 = (Ok b2, next_tick w2)
               \/ @ret bool true env2 w2 = (Ok b2, w2)).
    { intros env2 w2. eexists. right. reflexivity. }
    destruct (last_sync (cache w)) as [s0|].
    + rewrite bind_run. unfold now at 1, ask at 1. unfold ret at 1.
      destruct ((clock env (tick w) - s0 <? minutes 1)
                && set_mem string_dec u (users (cache w))).
      * do 2 eexists. split; [reflexivity|]. cbn.
        split; [reflexivity|]. split; discriminate.
      * destruct (Tail (next_tick w) _ eq_refl eq_refl K)
          as (b & w1 & E & C & L).
        rewrite E. exists b, w1. split; [reflexivity|].
        split; [exact C|]. split; [exact L|discriminate].
    + unfold ret at 1. cbn [andb].
      destruct (Tail w _ eq_refl eq_refl K) as (b & w1 & E & C & L).
      rewrite E. exists b, w1. split; [reflexivity|].
      split; [exact C|]. split; [exact L|discriminate].
Qed.

(** X14, witness: a reload was recorded at time 0 and the clock reads 0. *)
Lemma reload_advice_witness :
  fst (UserCache.should_reload_xray Scenario.uA Scenario.live_down
         (Scenario.world_of
            (FHolds (Scenario.config_of [Scenario.client Scenario.uA "a"]))
            (mkCache (empty_set string) None (minutes 5) (Some 0))))
  = Ok false.
Proof.
  destruct (reload_advice Scenario.live_down
              (Scenario.world_of
                 (FHolds (Scenario.config_of [Scenario.client Scenario.uA "a"]))
                 (mkCache (empty_set string) None (minutes 5) (Some 0)))
              Scenario.uA) as (b & w1 & E & _ & _ & R).
  destruct (R 0 eq_refl) as (Hb & _); [reflexivity|].
  rewrite E, Hb. reflexivity.
Defined.

(* ===================================================================== *)
(** ** The lazy migration *)
(* ===================================================================== *)

Lemma migrate_lowers_count (l l' : list Inbound) :
  migrate_inbounds l = Some l' ->
  S (obsolete_count l') = obsolete_count l.
Proof.
  unfold obsolete_count.
  revert l'. induction l as [|i l IH]; intros l'; cbn; [discriminate|].
  unfold needs_migration at 2.
  destruct (is_vless i && obsolete_maxTimeDiff (i_maxTimeDiff i)) eqn:E.
  - intros H. injection H as <-. cbn. unfold needs_migration at 1. cbn.
    replace (is_vless (mkInbound (i_tag i) (i_protocol i) (i_settings i) (Some 10)))
      with (is_vless i) by reflexivity.
    rewrite Bool.andb_false_r. reflexivity.
  - destruct (migrate_inbounds l) as [r'|]; [|discriminate].
    intros H. injection H as <-. cbn. unfold needs_migration at 1. rewrite E.
    apply IH. reflexivity.
Qed.

Lemma settled_count (l : list Inbound) :
  migrate_inbounds l = None <-> obsolete_count l = 0%nat.
Proof.
  unfold obsolete_count. induction l as [|i l IH]; cbn; [tauto|].
  unfold needs_migration at 1.
  destruct (is_vless i && obsolete_maxTimeDiff (i_maxTimeDiff i)); cbn.
  - split; discriminate.
  - destruct (migrate_inbounds l) as [r|].
    + split; [discriminate|]. intros H. apply IH in H. discriminate.
    + split; [intros _; apply IH; reflexivity|reflexivity].
Qed.

Lemma migrated_count (c : Config) :
  obsolete_count (inbounds (migrated c)) = pred (obsolete_count (inbounds c)).
Proof.
  unfold migrated. destruct (migrate_inbounds (inbounds c)) as [l'|] eqn:E.
  - rewrite <- (migrate_lowers_count _ _ E). reflexivity.
  - apply settled_count in E. rewrite E. reflexivity.
Qed.

Lemma migrated_clients (c : Config) :
  persisted_clients (FHolds (migrated c)) = persisted_clients (FHolds c).
Proof.
  cbn. destruct (find_vless c) as [i|] eqn:Hv.
  - destruct (find_vless_migrated c i Hv) as (i' & Hv' & _ & HS).
    rewrite Hv'. apply clients_of_settings. exact HS.
  - rewrite (find_vless_none_migrated c Hv), Hv. reflexivity.
Qed.

(** One load with working stores: the file holds the migrated document and
    the reload command ran iff a migration was pending. *)
Lemma load_step (env : Env) (w : World) (c : Config) :
  store_works env -> file w = FHolds c ->
  exists w0,
    load_xray_config env w = (Ok (migrated c), w0)
    /\ file w0 = FHolds (migrated c)
    /\ count is_reload (trace w0)
       = (count is_reload (trace w) + Nat.min 1 (obsolete_count (inbounds c)))%nat.
Proof.
  intros HW Hf. rewrite (load_holds env w c Hf). unfold migrated.
  destruct (migrate_inbounds (inbounds c)) as [ibs|] eqn:E.
  - rewrite <- (migrate_lowers_count _ _ E).
    unfold migration_result. rewrite <- save_run, (save_works env _ _ HW).
    eexists. split; [reflexivity|]. split; [reflexivity|].
    unfold count. cbn. lia.
  - apply settled_count in E. rewrite E.
    eexists. split; [reflexivity|]. split; [cbn; exact Hf|].
    unfold count. cbn. lia.
Qed.

Lemma load_times_run (env : Env) (n : nat) (w : World) (c : Config) :
  store_works env -> file w = FHolds c ->
  exists c',
    file (snd (load_times n env w)) = FHolds c'
    /\ obsolete_count (inbounds c') = (obsolete_count (inbounds c) - n)%nat
    /\ count is_reload (trace (snd (load_times n env w)))
       = (count is_reload (trace w) + Nat.min n (obsolete_count (inbounds c)))%nat
    /\ persisted_clients (FHolds c') = persisted_clients (FHolds c).
Proof.
  intros HW. revert w c. induction n as [|n IH]; intros w c Hf.
  - exists c. cbn. repeat split; [exact Hf|lia|lia].
  - destruct (load_step env w c HW Hf) as (w0 & E & F0 & T0).
    destruct (IH w0 (migrated c) F0) as (c' & F & N & T & P).
    exists c'. cbn [load_times]. rewrite bind_run, E.
    split; [exact F|]. rewrite N, T, T0, P, migrated_count, migrated_clients.
    repeat split; lia.
Qed.

(** X15.  The lazy migration settles one VLESS inbound per load.  With
    working stores, a file with [k] obsolete VLESS inbounds is settled by
    [k] loads and by no fewer; these loads run the reload command [k]
    times and leave the persisted client list as it was. *)
Theorem migration_settles_one_inbound_per_load (env : Env) (w : World)
  (c : Config) (n : nat) :
  store_works env -> file w = FHolds c ->
  let k := obsolete_count (inbounds c) in
  let w1 := snd (load_times n env w) in
  (settled (file w1) <-> (k <= n)%nat)
  /\ count is_reload (trace w1) = (count is_reload (trace w) + Nat.min n k)%nat
  /\ persisted_clients (file w1) = persisted_clients (file w).
Proof.
  intros HW Hf k w1. subst k w1.
  destruct (load_times_run env n w c HW Hf) as (c' & F & N & T & P).
  rewrite F, Hf, P, T. split; [|split; reflexivity].
  cbn [settled]. rewrite settled_count, N. lia.
Qed.

(** X15, witness: two obsolete VLESS inbounds need two loads. *)
Lemma migration_settles_one_inbound_per_load_witness :
  let old_vless := mkInbound (Some "vless") (Some "vless")
                     (Some (mkSettings (Some []))) (Some 300) in
  let w := Scenario.world_of (FHolds (mkConfig [old_vless; old_vless]))
             Scenario.new_cache in
  ~ settled (file (snd (load_times 1 Scenario.live_down w)))
  /\ settled (file (snd (load_times 2 Scenario.live_down w)))
  /\ count is_reload (trace (snd (load_times 2 Scenario.live_down w))) = 2%nat.
Proof.
  intros old_vless w.
  assert (HW : store_works Scenario.live_down)
    by (repeat split; intros; try discriminate; reflexivity).
  destruct (migration_settles_one_inbound_per_load Scenario.live_down w
              (mkConfig [old_vless; old_vless]) 1 HW eq_refl) as (A1 & _).
  destruct (migration_settles_one_inbound_per_load Scenario.live_down w
              (mkConfig [old_vless; old_vless]) 2 HW eq_refl) as (A2 & T2 & _).
  split; [|split].
  - intros H. apply A1 in H. cbn in H. lia.
  - apply A2. cbn. lia.
  - exact T2.
Defined.

(** X16.  A migration that cannot be saved is swallowed.  When validation
    rejects the migrated document, the load still returns it: the caller
    works on a configuration that differs from the file, the file is left
    as it was, no reload runs, and the next load tries again. *)
Theorem rejected_migration_is_swallowed (env : Env) (w : World) (c : Config)
  (ibs : list Inbound) :
  (forall t cfg, verdict (docker env t cfg) = false) ->
  file w = FHolds c ->
  migrate_inbounds (inbounds c) = Some ibs ->
  exists w1,
    load_xray_config env w = (Ok (mkConfig ibs), w1)
    /\ mkConfig ibs <> c
    /\ file w1 = file w
    /\ cache w1 = cache w
    /\ count is_reload (trace w1) = count is_reload (trace w)
    /\ count is_save (trace w1) = count is_save (trace w)
    /\ ~ settled (file w1).
Proof.
  intros HV Hf E. rewrite (load_holds env w c Hf), E.
  unfold migration_result, save_result. rewrite HV.
  eexists. split; [reflexivity|]. cbn.
  split.
  - intros H. pose proof (migrate_lowers_count _ _ E) as L.
    rewrite <- H in L. cbn [inbounds] in L. lia.
  - repeat split; auto. rewrite Hf. cbn. rewrite E. discriminate.
Qed.

(** X16, witness: one obsolete inbound while [xray -test] rejects. *)
Lemma rejected_migration_is_swallowed_witness :
  let old_vless := mkInbound (Some "vless") (Some "vless")
                     (Some (mkSettings (Some []))) (Some 30) in
  let w := Scenario.world_of (FHolds (mkConfig [old_vless])) Scenario.new_cache in
  exists w1,
    load_xray_config Scenario.test_rejects w
    = (Ok (mkConfig [default_vless []]), w1)
    /\ file w1 = file w.
Proof.
  intros old_vless w.
  destruct (rejected_migration_is_swallowed Scenario.test_rejects w
              (mkConfig [old_vless]) [default_vless []])
    as (w1 & E & _ & F & _).
  - intros t cfg. reflexivity.
  - reflexivity.
  - reflexivity.
  - exists w1. split; [exact E|exact F].
Defined.

(* ===================================================================== *)
(** ** Retry with backoff *)
(* ===================================================================== *)

Section RetryFacts.

Variables T E D : Type.
Variable mul : D -> D -> D.
Variable func : nat -> T + E.

Lemma attempts_step (todo a : nat) (max_retries : Z) (d f : D) :
  Retry.attempts mul func (S todo) a max_retries d f
  = match func a with
    | inl v => Retry.mkRun (Retry.Returned v) 1 []
    | inr e =>
        if Z.of_nat a =? max_retries - 1 then Retry.mkRun (Retry.Reraised e) 1 []
        else
          let r := Retry.attempts mul func todo (S a) max_retries (mul d f) f in
          Retry.mkRun (Retry.outcome r) (S (Retry.calls r)) (d :: Retry.sleeps r)
    end.
Proof. reflexivity. Qed.

Lemma attempts_success (k : nat) :
  forall (todo a : nat) (max_retries : Z) (d f : D) (v : T),
    (forall i, (i < k)%nat -> exists e, func (a + i) = inr e) ->
    func (a + k) = inl v ->
    (k < todo)%nat ->
    Z.of_nat (a + k) < max_retries ->
    Retry.attempts mul func todo a max_retries d f
    = Retry.mkRun (Retry.Returned v) (S k) (Retry.backoff_delays mul k d f).
Proof.
  induction k as [|k IH]; intros todo a max_retries d f v Hfail Hok Hk Hmax.
  - destruct todo as [|todo]; [lia|]. cbn.
    rewrite Nat.add_0_r in Hok. rewrite Hok. reflexivity.
  - destruct todo as [|todo]; [lia|]. cbn.
    destruct (Hfail 0%nat) as (e & He); [lia|].
    rewrite Nat.add_0_r in He. rewrite He.
    destruct (Z.of_nat a =? max_retries - 1) eqn:Last; [apply Z.eqb_eq in Last; lia|].
    rewrite (IH todo (S a) max_retries (mul d f) f v).
    + reflexivity.
    + intros i Hi. destruct (Hfail (S i)) as (e' & He'); [lia|].
      exists e'. rewrite <- He'. f_equal. lia.
    + rewrite <- Hok. f_equal. lia.
    + lia.
    + lia.
Qed.

Lemma attempts_exhausted (todo : nat) :
  forall (a : nat) (max_retries : Z) (d f : D) (e : E),
    Z.of_nat (a + S todo) = max_retries ->
    (forall i, (i < todo)%nat -> exists e', func (a + i) = inr e') ->
    func (a + todo) = inr e ->
    Retry.attempts mul func (S todo) a max_retries d f
    = Retry.mkRun (Retry.Reraised e) (S todo) (Retry.backoff_delays mul todo d f).
Proof.
  induction todo as [|todo IH]; intros a max_retries d f e Hmax Hfail Hlast.
  - cbn. rewrite Nat.add_0_r in Hlast. rewrite Hlast.
    destruct (Z.of_nat a =? max_retries - 1) eqn:Last; [reflexivity|].
    apply Z.eqb_neq in Last. lia.
  - rewrite attempts_step.
    destruct (Hfail 0%nat) as (e0 & He0); [lia|].
    rewrite Nat.add_0_r in He0. rewrite He0.
    destruct (Z.of_nat a =? max_retries - 1) eqn:Last; [apply Z.eqb_eq in Last; lia|].
    cbv zeta. rewrite (IH (S a) max_retries (mul d f) f e).
    + reflexivity.
    + lia.
    + intros i Hi. destruct (Hfail (S i)) as (e' & He'); [lia|].
      exists e'. rewrite <- He'. f_equal. lia.
    + rewrite <- Hlast. f_equal. lia.
Qed.

Lemma attempts_end (todo : nat) :
  forall (a : nat) (max_retries : Z) (d f : D),
    Z.of_nat (a + S todo) = max_retries ->
    let r := Retry.attempts mul func (S todo) a max_retries d f in
    ((exists k v, (k <= todo)%nat /\ func (a + k) = inl v
                  /\ Retry.outcome r = Retry.Returned v /\ Retry.calls r = S k)
     \/ (exists e, func (a + todo) = inr e
                   /\ Retry.outcome r = Retry.Reraised e
                   /\ Retry.calls r = S todo))
    /\ S (length (Retry.sleeps r)) = Retry.calls r.
Proof.
  induction todo as [|todo IH]; intros a max_retries d f Hmax r; subst r.
  - cbn. destruct (func a) as [v|e] eqn:Fa; cbn.
    + split; [|reflexivity]. left. exists 0%nat, v.
      rewrite Nat.add_0_r. auto.
    + destruct (Z.of_nat a =? max_retries - 1) eqn:Last; cbn.
      * split; [|reflexivity]. right. exists e. rewrite Nat.add_0_r. auto.
      * apply Z.eqb_neq in Last. lia.
  - rewrite attempts_step. destruct (func a) as [v|e] eqn:Fa.
    + cbn. split; [|reflexivity]. left. exists 0%nat, v.
      rewrite Nat.add_0_r. repeat split; auto. lia.
    + destruct (Z.of_nat a =? max_retries - 1) eqn:Last;
        [apply Z.eqb_eq in Last; lia|].
      destruct (IH (S a) max_retries (mul d f) f) as (A & C); [lia|].
      cbv zeta in *. cbn [Retry.outcome Retry.calls Retry.sleeps length].
      split; [|lia].
      destruct A as [(k & v & K & Fk & O & N)|(e' & Fe & O & N)].
      * left. exists (S k), v. repeat split; [lia| |exact O|lia].
        rewrite <- Fk. f_equal. lia.
      * right. exists e'. repeat split; [|exact O|lia].
        rewrite <- Fe. f_equal. lia.
Qed.

(** X17.  [retry_with_backoff] returns the first success.  When the first
    [k] calls of [func] raise, call [k] returns [v] and [k < max_retries],
    the result is [v] after exactly [k + 1] calls and [k] sleeps of
    [initial_delay], [initial_delay * factor], ... in this order. *)
Theorem retry_returns_first_success (k : nat) (max_retries : Z) (d f : D) (v : T) :
  (forall i, (i < k)%nat -> exists e, func i = inr e) ->
  func k = inl v ->
  Z.of_nat k < max_retries ->
  Retry.retry_with_backoff mul func max_retries d f
  = Retry.mkRun (Retry.Returned v) (S k) (Retry.backoff_delays mul k d f).
Proof.
  intros Hfail Hok Hk. unfold Retry.retry_with_backoff.
  apply attempts_success; [exact Hfail|exact Hok|lia|exact Hk].
Qed.

(** X18.  When every allowed attempt raises, [retry_with_backoff] raises
    the exception of the last attempt after exactly [max_retries] calls and
    [max_retries - 1] sleeps: it does not sleep after the final attempt and
    does not return [None]. *)
Theorem retry_reraises_last_failure (max_retries : Z) (d f : D) (e : E) :
  0 < max_retries ->
  (forall i, Z.of_nat i < max_retries - 1 -> exists e', func i = inr e') ->
  func (Z.to_nat (max_retries - 1)) = inr e ->
  Retry.retry_with_backoff mul func max_retries d f
  = Retry.mkRun (Retry.Reraised e) (Z.to_nat max_retries)
                (Retry.backoff_delays mul (Z.to_nat (max_retries - 1)) d f).
Proof.
  intros Hpos Hfail Hlast. unfold Retry.retry_with_backoff.
  replace (Z.to_nat max_retries) with (S (Z.to_nat (max_retries - 1))) by lia.
  apply attempts_exhausted; [lia| |exact Hlast].
  intros i Hi. apply Hfail. lia.
Qed.

(** X19.  The final [return None] of [retry_with_backoff] is reached
    exactly when no attempt is allowed ([max_retries <= 0]), and then
    [func] is not called at all.  When an attempt is allowed the run ends in
    one of two ways: with the value that some call of [func] returned (which
    is handed on as it is, be it [None]), or with the exception that the
    last allowed call raised.  In every run the calls are at most
    [max_retries] and each call but the last is followed by one sleep. *)
Theorem retry_falls_through_only_without_attempts (max_retries : Z) (d f : D) :
  let r := Retry.retry_with_backoff mul func max_retries d f in
  (Retry.outcome r = Retry.ReturnedNone <-> max_retries <= 0)
  /\ (max_retries <= 0 -> Retry.calls r = 0%nat /\ Retry.sleeps r = [])
  /\ (0 < max_retries ->
      (exists k v, Z.of_nat k < max_retries /\ func k = inl v
                   /\ Retry.outcome r = Retry.Returned v
                   /\ Retry.calls r = S k)
      \/ (exists e, func (Z.to_nat (max_retries - 1)) = inr e
                    /\ Retry.outcome r = Retry.Reraised e
                    /\ Retry.calls r = Z.to_nat max_retries))
  /\ (Retry.calls r <= Z.to_nat max_retries)%nat
  /\ length (Retry.sleeps r) = pred (Retry.calls r).
Proof.
  intros r. subst r. unfold Retry.retry_with_backoff.
  destruct (Z.to_nat max_retries) as [|todo] eqn:N.
  - cbn. repeat split; auto; lia.
  - destruct (attempts_end todo 0 max_retries d f) as (A & C); [lia|].
    cbv zeta in A, C. cbn [Nat.add] in A.
    replace (Z.to_nat (max_retries - 1)) with todo by lia.
    destruct A as [(k & v & K & Fk & O & Nk)|(e & Fe & O & Nk)].
    + split; [rewrite O; split; [discriminate|lia]|].
      split; [lia|]. split; [|split; lia].
      intros _. left. exists k, v. repeat split; auto. lia.
    + split; [rewrite O; split; [discriminate|lia]|].
      split; [lia|]. split; [|split; lia].
      intros _. right. exists e. auto.
Qed.

End RetryFacts.

(** X17, witness: two failures, then a success, delays 1 and 2. *)
Lemma retry_returns_first_success_witness :
  Retry.retry_with_backoff Z.mul
    (fun n => if Nat.ltb n 2 then inr OSError else inl "done") 3 1 2
  = Retry.mkRun (Retry.Returned "done") 3 [1; 2].
Proof.
  apply (retry_returns_first_success string Exn Z Z.mul
           (fun n => if Nat.ltb n 2 then inr OSError else inl "done") 2 3 1 2 "done").
  - intros i Hi. exists OSError.
    destruct i as [|[|i]]; [reflexivity|reflexivity|lia].
  - reflexivity.
  - lia.
Defined.

(** X18, witness: three attempts that all fail, the last with a different
    exception. *)
Lemma retry_reraises_last_failure_witness :
  Retry.retry_with_backoff Z.mul
    (fun n => if Nat.ltb n 2 then inr OSError else @inr string Exn RuntimeError) 3 1 2
  = Retry.mkRun (Retry.Reraised RuntimeError) 3 [1; 2].
Proof.
  apply (retry_reraises_last_failure string Exn Z Z.mul
           (fun n => if Nat.ltb n 2 then inr OSError else inr RuntimeError)
           3 1 2 RuntimeError).
  - lia.
  - intros i Hi. exists OSError.
    destruct i as [|[|i]]; [reflexivity|reflexivity|lia].
  - reflexivity.
Defined.

(** X19, witness: a [func] that returns [None] at once; the run ends with
    that value after one call, not with the final [return None]. *)
Lemma retry_falls_through_only_without_attempts_witness :
  let r := Retry.retry_with_backoff Z.mul
             (fun _ => @inl (option string) Exn None) 3 1 2 in
  Retry.outcome r <> Retry.ReturnedNone
  /\ ((exists k v, Z.of_nat k < 3 /\ @inl (option string) Exn None = inl v
                    /\ Retry.outcome r = Retry.Returned v /\ Retry.calls r = S k)
      \/ (exists e, @inl (option string) Exn None = inr e
                    /\ Retry.outcome r = Retry.Reraised e
                    /\ Retry.calls r = Z.to_nat 3)).
Proof.
  intros r.
  destruct (retry_falls_through_only_without_attempts (option string) Exn Z Z.mul
              (fun _ => inl None) 3 1 2) as (A & _ & B & _).
  split.
  - intros H. apply A in H. lia.
  - apply B. lia.
Defined.

(* ===================================================================== *)
(** ** The Core API client *)
(* ===================================================================== *)

Section ClientFacts.

Variable E : Type.
Variable post : nat -> Z + E.
Variable raise_for_status : Z -> option E.

(** X20.  [send_event] never raises and makes one or two POSTs.  It
    retries, after sleeping one second, exactly when the first attempt
    raised (a transport error, or a status other than 200 for which
    [raise_for_status] raises); a non-200 answer that [raise_for_status]
    lets through is reported as [False] without a retry.  It reports
    success iff the first POST answers 200, or the first attempt raised and
    the second POST answers 200. *)
Theorem send_event_outcome :
  let first_raised :=
    exists e, CoreAPIClient._send post raise_for_status 0 = inr e in
  let r := CoreAPIClient.send_event post raise_for_status in
  (CoreAPIClient.delivered r = true
   <-> post 0%nat = inl 200 \/ (first_raised /\ post 1%nat = inl 200))
  /\ (CoreAPIClient.posts r = 2%nat <-> first_raised)
  /\ (CoreAPIClient.posts r = 1%nat <-> ~ first_raised)
  /\ CoreAPIClient.slept r
     = (if Nat.eqb (CoreAPIClient.posts r) 2 then [QArith_base.Qmake 1 1] else []).
Proof.
  cbv zeta. unfold CoreAPIClient.send_event, Retry.retry_with_backoff.
  change (Z.to_nat 2) with 2%nat.
  unfold Retry.attempts, CoreAPIClient._send.
  change (Z.of_nat 0 =? 2 - 1) with false.
  change (Z.of_nat 1 =? 2 - 1) with true. cbv iota.
  assert (Q : forall s : Z, (s =? 200) = true -> @inl Z E s = inl 200).
  { intros s H. apply Z.eqb_eq in H. subst s. reflexivity. }
  assert (N : forall s : Z, (s =? 200) = false -> @inl Z E s <> inl 200).
  { intros s H C. injection C as ->. discriminate. }
  assert (R : forall x : E, exists e : E, @inr bool E x = inr e) by eauto.
  destruct (post 0%nat) as [s0|e0];
    [destruct (s0 =? 200) eqn:E0;
       [pose proof (Q s0 E0)
       |pose proof (N s0 E0); destruct (raise_for_status s0) as [x0|]]|];
    try (destruct (post 1%nat) as [s1|e1];
         [destruct (s1 =? 200) eqn:E1;
            [pose proof (Q s1 E1)
            |pose proof (N s1 E1); destruct (raise_for_status s1) as [x1|]]|]);
    cbn; repeat split; intros;
    repeat match goal with
           | H : exists _, _ |- _ => destruct H
           | H : _ /\ _ |- _ => destruct H
           | H : _ \/ _ |- _ => destruct H
           end;
    try discriminate; try contradiction; try reflexivity;
    try (left; assumption);
    try (right; split; [apply R|assumption]);
    try apply R;
    try (exfalso; match goal with H : ~ _ |- _ => apply H; apply R end);
    try (intros (e & C); discriminate).
Qed.

End ClientFacts.

(* ===================================================================== *)
(** ** The API key check *)
(* ===================================================================== *)

(** X21.  [verify_api_key] accepts a request exactly when the header is
    present, not empty and equal to the configured key, and then returns
    that key.  With the default configuration (an empty [agent_api_key])
    every request is refused: 401 without a key, 403 with any key. *)
Theorem api_key_accepted_iff (agent_api_key : string) (api_key : option string)
  (k : string) :
  (verify_api_key agent_api_key api_key = Ok k
   <-> api_key = Some k /\ k <> "" /\ k = agent_api_key)
  /\ (verify_api_key default_agent_api_key api_key
      = if truthy api_key then Raise (HTTPException 403)
        else Raise (HTTPException 401)).
Proof.
  unfold verify_api_key, default_agent_api_key. split.
  - destruct api_key as [x|].
    + destruct (String.eqb x "") eqn:E0.
      * apply String.eqb_eq in E0. subst x. split; [discriminate|].
        intros (H & N & _). injection H as <-. contradiction.
      * apply String.eqb_neq in E0.
        destruct (String.eqb x agent_api_key) eqn:E1; cbn.
        -- apply String.eqb_eq in E1. split.
           ++ intros H. injection H as <-. auto.
           ++ intros (H & _). injection H as <-. reflexivity.
        -- apply String.eqb_neq in E1. split; [discriminate|].
           intros (H & _ & C). injection H as <-. contradiction.
    + split; [discriminate|]. intros (H & _). discriminate.
  - destruct api_key as [x|]; cbn; [|reflexivity].
    destruct (String.eqb x ""); reflexivity.
Qed.

(* ===================================================================== *)
(** ** The Reality parameter store *)
(* ===================================================================== *)

Section RealityFacts.

Import RealityConfig.

Variable generate_reality_keys : nat -> string * string.
Variable generate_short_id : nat -> string.
Variable write_outcome : nat -> WriteOutcome.

Lemma create_run (s : Store) :
  writes_complete write_outcome ->
  create_reality_config generate_reality_keys generate_short_id write_outcome s
  = (Ok (new_config (generate_reality_keys (draws s))
                    (generate_short_id (S (draws s)))),
     mkStore (RHolds (new_config (generate_reality_keys (draws s))
                                 (generate_short_id (S (draws s)))))
             (S (S (S (draws s))))).
Proof.
  intros HW. unfold create_reality_config, save_reality_config, rbind, draw, rret.
  cbn. rewrite HW. reflexivity.
Qed.

Lemma load_run (s : Store) :
  writes_complete write_outcome \/ (exists c, rfile s = RHolds c) ->
  exists cfg s1,
    load_reality_config generate_reality_keys generate_short_id write_outcome s
    = (Ok cfg, s1)
    /\ rfile s1 = RHolds cfg
    /\ load_reality_config generate_reality_keys generate_short_id write_outcome s1
       = (Ok cfg, s1)
    /\ (forall c, rfile s = RHolds c -> cfg = c /\ s1 = s)
    /\ ((forall c, rfile s <> RHolds c) ->
        cfg = new_config (generate_reality_keys (draws s))
                         (generate_short_id (S (draws s)))).
Proof.
  intros H. unfold load_reality_config at 1.
  destruct (rfile s) as [| |c] eqn:F.
  - destruct H as [HW|(c & C)]; [|discriminate]. rewrite (create_run s HW).
    do 2 eexists. split; [reflexivity|]. unfold load_reality_config. cbn.
    repeat split; try discriminate; auto.
  - destruct H as [HW|(c & C)]; [|discriminate]. rewrite (create_run s HW).
    do 2 eexists. split; [reflexivity|]. unfold load_reality_config. cbn.
    repeat split; try discriminate; auto.
  - exists c, s. unfold load_reality_config. rewrite F.
    split; [reflexivity|]. split; [reflexivity|]. split; [reflexivity|]. split.
    + intros c' H'. injection H' as <-. split; reflexivity.
    + intros N. destruct (N c eq_refl).
Qed.

(** X22.  Loading the Reality parameters is stable.  When writes complete,
    a load always returns; afterwards the file holds exactly what was
    returned, and the next load returns the same parameters without
    generating or writing anything.  A readable file is returned as it is;
    a missing file and an unreadable one are both replaced by fresh keys,
    one fresh short id, fingerprint chrome, SNI nltimes.nl and path /. *)
Theorem reality_load_is_stable (s : Store) :
  writes_complete write_outcome ->
  exists cfg s1,
    load_reality_config generate_reality_keys generate_short_id write_outcome s
    = (Ok cfg, s1)
    /\ rfile s1 = RHolds cfg
    /\ load_reality_config generate_reality_keys generate_short_id write_outcome s1
       = (Ok cfg, s1)
    /\ (forall c, rfile s = RHolds c -> cfg = c /\ s1 = s)
    /\ ((forall c, rfile s <> RHolds c) ->
        cfg = new_config (generate_reality_keys (draws s))
                         (generate_short_id (S (draws s)))).
Proof.
  intros HW. apply load_run. left. exact HW.
Qed.

(** X23.  [add_short_id] on a readable file, writes completing: the id is
    returned and listed afterwards; the ids listed before keep their order
    and the new one goes to the end, so the first id, the one handed to
    every user, does not change; nothing but the id list changes; and
    adding an id that is listed writes nothing. *)
Theorem add_short_id_appends (s : Store) (c : Reality) (sid : string) :
  writes_complete write_outcome ->
  rfile s = RHolds c ->
  exists c1 s1,
    add_short_id generate_reality_keys generate_short_id write_outcome
                 (Some sid) s = (Ok sid, s1)
    /\ rfile s1 = RHolds c1
    /\ short_ids_of c1
       = (if existsb (String.eqb sid) (short_ids_of c) then short_ids_of c
          else short_ids_of c ++ [sid])%list
    /\ In sid (short_ids_of c1)
    /\ (short_ids_of c <> [] ->
        first_short_id (short_ids_of c1) = first_short_id (short_ids_of c))
    /\ (public_key c1, private_key c1, fingerprint c1, sni c1, spx c1)
       = (public_key c, private_key c, fingerprint c, sni c, spx c)
    /\ (existsb (String.eqb sid) (short_ids_of c) = true -> s1 = s)
    /\ add_short_id generate_reality_keys generate_short_id write_outcome
                    (Some sid) s1 = (Ok sid, s1).
Proof.
  intros HW F.
  assert (Listed : forall l, existsb (String.eqb sid) l = true -> In sid l).
  { intros l H. apply existsb_exists in H. destruct H as (x & I & Ex).
    apply String.eqb_eq in Ex. subst x. exact I. }
  assert (Again : forall c' s', rfile s' = RHolds c' ->
             existsb (String.eqb sid) (short_ids_of c') = true ->
             add_short_id generate_reality_keys generate_short_id write_outcome
                          (Some sid) s' = (Ok sid, s')).
  { intros c' s' F' L. unfold add_short_id, rbind, load_reality_config, rret.
    rewrite F', L. reflexivity. }
  destruct (existsb (String.eqb sid) (short_ids_of c)) eqn:L.
  - exists c, s. rewrite (Again c s F L).
    repeat split; auto.
  - eexists. eexists.
    unfold add_short_id at 1.
    unfold rbind, load_reality_config, rret, save_reality_config, draw.
    rewrite F. cbv beta iota. rewrite L. unfold rbind. cbv beta iota.
    rewrite HW. split; [reflexivity|]. cbn [rfile].
    split; [reflexivity|]. cbn [short_ids_of short_ids].
    split; [reflexivity|].
    split; [apply in_or_app; right; left; reflexivity|].
    split; [intros NE; destruct (short_ids_of c); [contradiction|reflexivity]|].
    split; [reflexivity|]. split; [discriminate|].
    eapply Again; [cbn [rfile]; reflexivity|]. cbn [short_ids_of short_ids].
    rewrite existsb_app. cbn. rewrite String.eqb_refl.
    apply Bool.orb_true_iff. right. reflexivity.
Qed.

(** X24.  The five reads of [GET /reality] agree.  When writes complete, or
    the file is readable, the answer is built from one and the same
    parameter set, which is what the file holds afterwards; missing keys
    are answered with the defaults, and a missing file is created once, not
    once per field. *)
Theorem reality_endpoint_is_consistent (s : Store) :
  writes_complete write_outcome \/ (exists c, rfile s = RHolds c) ->
  exists cfg s1,
    load_reality_config generate_reality_keys generate_short_id write_outcome s
    = (Ok cfg, s1)
    /\ reality_endpoint generate_reality_keys generate_short_id write_outcome s
       = (Ok (mkAnswer (get_or (public_key cfg) "")
                       (get_or (fingerprint cfg) "chrome")
                       (get_or (sni cfg) "nltimes.nl")
                       (get_or (spx cfg) "/")
                       (short_ids_of cfg)), s1)
    /\ rfile s1 = RHolds cfg.
Proof.
  intros H. destruct (load_run s H) as (cfg & s1 & E & F & E1 & _).
  exists cfg, s1. split; [exact E|]. split; [|exact F].
  unfold reality_endpoint, get_reality_config, get_reality_public_key,
    get_reality_fingerprint, get_reality_sni, get_reality_spx, rbind, rret.
  rewrite E. cbv beta iota. do 4 (rewrite E1; cbv beta iota). reflexivity.
Qed.

End RealityFacts.

(** X22, witness: a garbled file is replaced. *)
Lemma reality_load_is_stable_witness :
  let keys := fun _ : nat => ("PUB", "PRIV") in
  let sid := fun _ : nat => "0a1b2c" in
  exists s1,
    RealityConfig.load_reality_config keys sid (fun _ => RealityConfig.Written)
      (RealityConfig.mkStore RealityConfig.RGarbled 0)
    = (Ok (RealityConfig.mkReality (Some "PUB") (Some "PRIV") (Some ["0a1b2c"])
             (Some "chrome") (Some "nltimes.nl") (Some "/")), s1).
Proof.
  intros keys sid.
  destruct (reality_load_is_stable keys sid (fun _ => RealityConfig.Written)
              (RealityConfig.mkStore RealityConfig.RGarbled 0))
    as (cfg & s1 & E & _ & _ & _ & C).
  - intros n. reflexivity.
  - exists s1. rewrite E, C; [reflexivity|]. intros c. discriminate.
Defined.

(** X23, witness: a second id is added to a one-id file. *)
Lemma add_short_id_appends_witness :
  let c := RealityConfig.mkReality (Some "PUB") (Some "PRIV") (Some ["0a1b2c"])
             (Some "chrome") (Some "nltimes.nl") (Some "/") in
  exists c1 s1,
    RealityConfig.add_short_id (fun _ => ("", "")) (fun _ => "")
      (fun _ => RealityConfig.Written) (Some "ffffff")
      (RealityConfig.mkStore (RealityConfig.RHolds c) 0) = (Ok "ffffff", s1)
    /\ RealityConfig.rfile s1 = RealityConfig.RHolds c1
    /\ RealityConfig.short_ids_of c1 = ["0a1b2c"; "ffffff"].
Proof.
  intros c.
  destruct (add_short_id_appends (fun _ => ("", "")) (fun _ => "")
              (fun _ => RealityConfig.Written)
              (RealityConfig.mkStore (RealityConfig.RHolds c) 0) c "ffffff")
    as (c1 & s1 & E & F & L & _).
  - intros n. reflexivity.
  - reflexivity.
  - exists c1, s1. split; [exact E|]. split; [exact F|exact L].
Defined.

(** X24, witness: a file that lacks the optional keys. *)
Lemma reality_endpoint_is_consistent_witness :
  let c := RealityConfig.mkReality (Some "PUB") (Some "PRIV") None None None None in
  fst (RealityConfig.reality_endpoint (fun _ => ("", "")) (fun _ => "")
         (fun _ => RealityConfig.Refused)
         (RealityConfig.mkStore (RealityConfig.RHolds c) 0))
  = Ok (RealityConfig.mkAnswer "PUB" "chrome" "nltimes.nl" "/" []).
Proof.
  intros c.
  destruct (reality_endpoint_is_consistent (fun _ => ("", "")) (fun _ => "")
              (fun _ => RealityConfig.Refused)
              (RealityConfig.mkStore (RealityConfig.RHolds c) 0))
    as (cfg & s1 & E & R & _).
  - right. exists c. reflexivity.
  - rewrite R. cbn in E. injection E as <- _. reflexivity.
Defined.

(* ===================================================================== *)
(** ** Identifiers and labels in the merged lists *)
(* ===================================================================== *)

Lemma has_id_other (u v : string) (cl : Client) :
  u <> v -> has_id u cl = true -> has_id v cl = false.
Proof.
  unfold has_id, get_eqb. destruct (c_id cl) as [x|]; [|discriminate].
  intros N H. apply String.eqb_eq in H. subst x.
  apply String.eqb_neq. exact N.
Qed.

Lemma conflicts_drop_default (u v lbl : string) (l : list Client) :
  u <> v ->
  (forall cl, In cl l -> has_id u cl = true -> c_email cl = Some lbl) ->
  entries_with_id u (drop_label_conflicts lbl v l) = 0%nat.
Proof.
  intros N. unfold entries_with_id, drop_label_conflicts.
  induction l as [|cl l IH]; intros H; cbn; [reflexivity|].
  assert (IH' : length (filter (has_id u)
                  (filter (fun cl0 => negb (get_eqb (c_email cl0) lbl
                                            && negb (has_id v cl0))) l)) = 0%nat).
  { apply IH. intros cl0 I. apply H. right. exact I. }
  destruct (has_id u cl) eqn:Hu.
  - rewrite (H cl (or_introl eq_refl) Hu). cbn [get_eqb].
    rewrite String.eqb_refl, (has_id_other u v cl N Hu). cbn. exact IH'.
  - destruct (negb (get_eqb (c_email cl) lbl && negb (has_id v cl)));
      cbn; [rewrite Hu|]; exact IH'.
Qed.

(** The default label takes characters, not bytes: two identifiers written
    with Arabic-Indic digits (two bytes each) that agree on their first
    eight bytes and differ in the fifth character get different labels. *)
Lemma default_email_counts_characters :
  let d0 := String (Ascii.ascii_of_nat 217) (String (Ascii.ascii_of_nat 160) EmptyString) in
  let d1 := String (Ascii.ascii_of_nat 217) (String (Ascii.ascii_of_nat 161) EmptyString) in
  let u := d0 ++ d0 ++ d0 ++ d0 ++ d0 ++ d0 ++ d0 ++ d0 ++ d0 in
  let v := d0 ++ d0 ++ d0 ++ d0 ++ d1 ++ d0 ++ d0 ++ d0 ++ d0 in
  substring 0 8 u = substring 0 8 v
  /\ default_email u <> default_email v
  /\ String.length (first_chars 8 u) = 16%nat
  /\ first_chars 8 "aaaaaaaa-0000-4000-8000-000000000001" = "aaaaaaaa".
Proof.
  cbv zeta. split; [reflexivity|]. split; [|split; reflexivity].
  vm_compute. discriminate.
Qed.

(** X25.  Default labels collide.  A user added without email is labelled
    with the first eight characters of the identifier.  Adding, without
    email, a second user whose identifier starts with the same eight
    characters removes every entry of the first user from the persisted
    list: the two cannot coexist. *)
Theorem default_labels_collide (env : Env) (w : World) (c : Config) (ib : Inbound)
  (u v : string) :
  store_works env ->
  file w = FHolds c -> settled (file w) ->
  find_vless c = Some ib -> i_settings ib <> None ->
  u <> v -> first_chars 8 u = first_chars 8 v ->
  existsb (has_id v) (clients_of ib) = false ->
  (forall cl, In cl (clients_of ib) -> has_id u cl = true ->
              c_email cl = Some (default_email u)) ->
  exists g w1,
    add_user_via_api v None env w = (Ok (true, g), w1)
    /\ entries_with_id u (persisted_clients (file w1)) = 0%nat
    /\ entries_with_id v (persisted_clients (file w1)) = 1%nat.
Proof.
  intros HW Hf Hs Hv Hset N P Ha Hl.
  destruct (add_via_api_works env w c ib v None HW Hf Hs Hv Hset Ha) as (g & w1 & E).
  destruct (add_via_api_ok env w w1 c ib v None (true, g) Hf Hv Ha E)
    as (_ & _ & P1 & _).
  exists g, w1. split; [exact E|]. rewrite P1. cbn [email_or_default].
  split; [|apply (merged_entries v _ _ Ha)].
  assert (L : default_email v = default_email u)
    by (unfold default_email; rewrite P; reflexivity).
  rewrite entries_app, L.
  rewrite (conflicts_drop_default u v (default_email u) _ N).
  - assert (X : has_id u (vision_client v (default_email u)) = false).
    { unfold has_id, vision_client. cbn. apply String.eqb_neq.
      intros C. apply N. symmetry. exact C. }
    unfold entries_with_id. cbn [filter]. rewrite X. reflexivity.
  - intros cl I. unfold drop_label_conflicts in I. apply filter_In in I.
    apply Hl. exact (proj1 I).
Qed.

(** X25, witness: two identifiers that differ only after the eighth
    character. *)
Lemma default_labels_collide_witness :
  let u := "aaaaaaaa-0000-4000-8000-000000000001" in
  let v := "aaaaaaaa-1111-4000-8000-000000000002" in
  let w := Scenario.world_of
             (FHolds (Scenario.config_of [Scenario.client u "user-aaaaaaaa"]))
             Scenario.new_cache in
  exists g w1,
    add_user_via_api v None Scenario.live_down w = (Ok (true, g), w1)
    /\ entries_with_id u (persisted_clients (file w1)) = 0%nat.
Proof.
  intros u v w.
  destruct (default_labels_collide Scenario.live_down w
              (Scenario.config_of [Scenario.client u "user-aaaaaaaa"])
              (default_vless [Scenario.client u "user-aaaaaaaa"]) u v)
    as (g & w1 & E & Z0 & _).
  - repeat split; intros; try discriminate; reflexivity.
  - reflexivity.
  - reflexivity.
  - reflexivity.
  - discriminate.
  - discriminate.
  - reflexivity.
  - reflexivity.
  - intros cl [<-|[]] _. reflexivity.
  - exists g, w1. split; [exact E|exact Z0].
Defined.

Lemma drop_other_keeps_entries (old new : string) (l : list Client) :
  old <> new ->
  entries_with_id new (drop_id old l) = entries_with_id new l.
Proof.
  intros N. unfold entries_with_id, drop_id.
  induction l as [|cl l IH]; cbn; [reflexivity|].
  destruct (has_id new cl) eqn:Hn.
  - rewrite (has_id_other new old cl (fun C => N (eq_sym C)) Hn). cbn.
    rewrite Hn. cbn. rewrite IH. reflexivity.
  - destruct (negb (has_id old cl)); cbn; [rewrite Hn|]; exact IH.
Qed.

(** X26.  A rotation does not look for the new identifier.  With working
    stores [regenerate_user_via_api] succeeds and appends the new entry
    whether or not the new identifier is listed already: afterwards the
    persisted list holds one more entry of the new identifier than before
    (exactly one when old and new are the same identifier). *)
Theorem regenerate_duplicates_listed_id (env : Env) (w : World) (c : Config)
  (ib : Inbound) (old new : string) (e : option string) :
  store_works env ->
  file w = FHolds c -> find_vless c = Some ib -> i_settings ib <> None ->
  exists sid w1,
    regenerate_user_via_api old new e env w = (Ok (true, sid), w1)
    /\ entries_with_id new (persisted_clients (file w1))
       = (if String.eqb old new then 1%nat
          else S (entries_with_id new (clients_of ib)))
    /\ entries_with_id old (persisted_clients (file w1))
       = (if String.eqb old new then 1%nat else 0%nat).
Proof.
  intros HW Hf Hv Hset.
  destruct (load_works env w c HW Hf) as (w0 & HL & _ & _).
  destruct (find_vless_migrated c ib Hv) as (ib' & Hv' & _ & HS).
  assert (Hset' : i_settings ib' <> None) by (rewrite HS; exact Hset).
  destruct (regenerate_via_api_works env w w0 (migrated c) ib' old new e
              HW HL Hv' Hset') as (ids & w1 & E & F1 & _).
  exists (first_short_id ids), w1. split; [exact E|].
  rewrite F1, (persisted_after_assign _ ib' _ Hv').
  rewrite (clients_of_settings ib ib' HS).
  assert (V : forall x y lbl, entries_with_id x [vision_client y lbl]
                              = if String.eqb y x then 1%nat else 0%nat).
  { intros x y lbl. unfold entries_with_id, has_id, vision_client. cbn.
    destruct (String.eqb y x); reflexivity. }
  rewrite !entries_app, !V, drop_id_forgets, String.eqb_refl.
  destruct (String.eqb old new) eqn:Q.
  - apply String.eqb_eq in Q. subst new. rewrite drop_id_forgets.
    rewrite String.eqb_refl. split; reflexivity.
  - apply String.eqb_neq in Q. rewrite (drop_other_keeps_entries old new _ Q).
    assert (Q' : String.eqb new old = false)
      by (apply String.eqb_neq; intros C; apply Q; symmetry; exact C).
    rewrite Q'. split; lia.
Qed.

(** X26, witness: user A is rotated to B while B is listed. *)
Lemma regenerate_duplicates_listed_id_witness :
  let l := [Scenario.client Scenario.uA "a"; Scenario.client Scenario.uB "b"] in
  let w := Scenario.world_of (FHolds (Scenario.config_of l)) Scenario.new_cache in
  exists sid w1,
    regenerate_user_via_api Scenario.uA Scenario.uB (Some "a") Scenario.live_down w
    = (Ok (true, sid), w1)
    /\ entries_with_id Scenario.uB (persisted_clients (file w1)) = 2%nat.
Proof.
  intros l w.
  destruct (regenerate_duplicates_listed_id Scenario.live_down w
              (Scenario.config_of l) (default_vless l)
              Scenario.uA Scenario.uB (Some "a"))
    as (sid & w1 & E & N & _).
  - repeat split; intros; try discriminate; reflexivity.
  - reflexivity.
  - reflexivity.
  - discriminate.
  - exists sid, w1. split; [exact E|exact N].
Defined.

(* ===================================================================== *)
(** ** Add, then remove *)
(* ===================================================================== *)

Lemma no_conflict_keeps (lbl u : string) (l : list Client) :
  (forall cl, In cl l -> get_eqb (c_email cl) lbl = false) ->
  drop_label_conflicts lbl u l = l.
Proof.
  unfold drop_label_conflicts. induction l as [|cl l IH]; intros H; cbn;
    [reflexivity|].
  rewrite (H cl (or_introl eq_refl)). cbn. rewrite IH; [reflexivity|].
  intros cl0 I. apply H. right. exact I.
Qed.

Lemma find_client_app_last (u lbl : string) (l : list Client) :
  existsb (has_id u) l = false ->
  XRayGRPCClient.find_client u (l ++ [vision_client u lbl])
  = Some (vision_client u lbl).
Proof.
  induction l as [|cl l IH]; cbn [app XRayGRPCClient.find_client existsb].
  - intros _. rewrite has_id_vision. reflexivity.
  - destruct (has_id u cl); cbn [orb]; [discriminate|exact IH].
Qed.

(** The [add_user] branch for an identifier that neither the registry nor
    any VLESS inbound of a settled file knows. *)
Lemma handle_add_new (env : Env) (w : World) (c : Config) (ib : Inbound)
  (u : string) (old e : option string) :
  store_works env ->
  file w = FHolds c -> settled (file w) ->
  find_vless c = Some ib -> i_settings ib <> None ->
  set_mem string_dec u (users (cache w)) = false ->
  UserCache.config_lists c u = false ->
  let merged := (drop_label_conflicts (email_or_default e u) u
                   (drop_label_conflicts (email_or_default e u) u (clients_of ib))
                 ++ [vision_client u (email_or_default e u)])%list in
  exists sid w1,
    handle_add u (mkRequest "add_user" (Some u) old e) env w = (Ok (true, sid), w1)
    /\ file w1 = FHolds (set_vless_clients c merged)
    /\ set_mem string_dec u (users (cache w1)) = true.
Proof.
  intros HW Hf Hs Hv Hset Hreg Hcl merged.
  destruct (exists_on_settled_file env w u c Hf Hs) as (w0 & E & F0 & U0).
  assert (B : set_mem string_dec u (users (cache w0)) = false).
  { destruct U0 as [U0|U0]; rewrite U0; [exact Hreg|].
    destruct (set_mem string_dec u (UserCache.config_user_ids c)) eqn:M;
      [|reflexivity].
    rewrite (synced_ids_are_listed u c M) in Hcl. discriminate. }
  assert (Ha : existsb (has_id u) (clients_of ib) = false).
  { destruct (existsb (has_id u) (clients_of ib)) eqn:X; [|reflexivity].
    unfold UserCache.config_lists in Hcl.
    rewrite (first_vless_listed u _ ib Hv X) in Hcl. discriminate. }
  assert (Hf0 : file w0 = FHolds c) by congruence.
  assert (Hs0 : settled (file w0)) by (rewrite F0; exact Hs).
  destruct (add_via_api_works env w0 c ib u e HW Hf0 Hs0 Hv Hset Ha)
    as (g & w1 & EA).
  destruct (add_via_api_ok env w0 w1 c ib u e (true, g) Hf0 Hv Ha EA)
    as (_ & F1 & _ & M1).
  rewrite Hf in Hs. cbn in Hs. rewrite (migrated_settled c Hs) in F1.
  unfold handle_add. rewrite bind_run, E, B. cbv iota beta. cbn [email].
  rewrite bind_run, EA. cbv iota beta. rewrite bind_run.
  destruct (reality_read env w1 (proj1 HW)) as (ids & R). rewrite R.
  cbv iota beta. destruct g.
  - unfold ret. do 2 eexists. split; [reflexivity|]. cbn. auto.
  - rewrite bind_run. unfold UserCache.exists_. rewrite bind_run.
    unfold ret at 1. rewrite bind_run. unfold get_cache at 1. unfold ret at 1.
    cbn [cache next_tick]. rewrite M1. cbn [negb]. unfold ret.
    do 2 eexists. split; [reflexivity|]. cbn. auto.
Qed.

(** X27.  Add, then remove, is a round trip.  From a settled file in which
    neither the identifier nor its label occurs, with working stores and a
    working reload command, an [add_user] followed by a [remove_user] of
    the same identifier both answer success and leave the persisted client
    list exactly as it was, with the registry not listing the identifier. *)
Theorem add_then_remove_round_trip (env : Env) (w : World) (c : Config)
  (ib : Inbound) (u : string) (e : option string) :
  u <> "" -> uuid_parses env u = true ->
  store_works env -> reload_works env ->
  file w = FHolds c -> settled (file w) ->
  find_vless c = Some ib -> i_settings ib <> None ->
  set_mem string_dec u (users (cache w)) = false ->
  UserCache.config_lists c u = false ->
  (forall cl, In cl (clients_of ib) ->
              get_eqb (c_email cl) (email_or_default e u) = false) ->
  exists sid w2,
    serve [mkRequest "add_user" (Some u) None e;
           mkRequest "remove_user" (Some u) None None] env w
    = ([Ok (mkResponse true "Command add_user executed successfully" sid);
        Ok (mkResponse true "Command remove_user executed successfully" None)],
       w2)
    /\ persisted_clients (file w2) = clients_of ib
    /\ set_mem string_dec u (users (cache w2)) = false.
Proof.
  intros Hne Hu HW HR Hf Hs Hv Hset Hreg Hcl Hlab.
  destruct (handle_add_new env w c ib u None e HW Hf Hs Hv Hset Hreg Hcl)
    as (sid & w1 & EA & F1 & M1).
  assert (Ha : existsb (has_id u) (clients_of ib) = false).
  { destruct (existsb (has_id u) (clients_of ib)) eqn:X; [|reflexivity].
    unfold UserCache.config_lists in Hcl.
    rewrite (first_vless_listed u _ ib Hv X) in Hcl. discriminate. }
  rewrite !(no_conflict_keeps _ u _ Hlab) in F1.
  set (lbl := email_or_default e u) in *.
  set (c1 := set_vless_clients c (clients_of ib ++ [vision_client u lbl])) in *.
  assert (Hs1 : settled (file w1)).
  { rewrite F1. cbn. apply migrate_assign. rewrite Hf in Hs. exact Hs. }
  assert (Hv1 : find_vless c1
                = Some (with_clients ib (clients_of ib ++ [vision_client u lbl]))).
  { apply first_vless_assign. exact Hv. }
  assert (Hfc : XRayGRPCClient.find_client u
                  (clients_of (with_clients ib
                                 (clients_of ib ++ [vision_client u lbl])))
                = Some (vision_client u lbl)).
  { unfold clients_of at 1, with_clients. cbn [i_settings clients].
    apply find_client_app_last. exact Ha. }
  destruct (handle_remove_listed env w1 c1 _ u _ Hne HW F1 Hs1 Hv1 Hfc M1)
    as (g & w2 & ER & P2 & U2 & _).
  assert (ER' : exists w3, handle_remove u env w1 = (Ok true, w3)
                           /\ file w3 = file w2 /\ cache w3 = cache w2).
  { destruct g.
    - exists w2. auto.
    - rewrite reload_run, (HR _) in ER. eexists. split; [exact ER|]. cbn. auto. }
  destruct ER' as (w3 & ER3 & F3 & C3).
  exists (short_id_field sid), w3. cbn [serve].
  rewrite (receive_add env w u None e Hne Hu), EA.
  rewrite (receive_remove env w1 u None None Hne Hu), ER3.
  split; [reflexivity|]. rewrite F3, C3. split; [|exact U2].
  rewrite P2. unfold clients_of at 1, with_clients. cbn [i_settings clients].
  unfold drop_id. rewrite filter_app. cbn [filter]. rewrite has_id_vision.
  cbn [negb]. rewrite app_nil_r. apply drop_id_absent. exact Ha.
Qed.

(** X27, witness: user B is added to and removed from a one-user config. *)
Lemma add_then_remove_round_trip_witness :
  let l := [Scenario.client Scenario.uA "a"] in
  let w := Scenario.world_of (FHolds (Scenario.config_of l))
             (Scenario.synced_cache [Scenario.uA]) in
  exists sid w2,
    serve [mkRequest "add_user" (Some Scenario.uB) None (Some "b");
           mkRequest "remove_user" (Some Scenario.uB) None None]
          Scenario.live_rejects_later w
    = ([Ok (mkResponse true "Command add_user executed successfully" sid);
        Ok (mkResponse true "Command remove_user executed successfully" None)],
       w2)
    /\ persisted_clients (file w2) = l.
Proof.
  intros l w.
  destruct (add_then_remove_round_trip Scenario.live_rejects_later w
              (Scenario.config_of l) (default_vless l) Scenario.uB (Some "b"))
    as (sid & w2 & E & P & _).
  - discriminate.
  - reflexivity.
  - repeat split; intros; try discriminate; reflexivity.
  - intros t. reflexivity.
  - reflexivity.
  - reflexivity.
  - reflexivity.
  - discriminate.
  - reflexivity.
  - reflexivity.
  - intros cl [<-|[]]. reflexivity.
  - exists sid, w2. split; [exact E|exact P].
Defined.

(* ===================================================================== *)
(** ** The exception boundary of the handler *)
(* ===================================================================== *)

(** On a file that holds JSON of another shape every load raises; the
    registry swallows that and answers from what it has. *)
Lemma exists_on_foreign_file (env : Env) (w : World) (u : string)
  (check_sync : bool) (fault : ShapeFault) :
  file w = FForeign fault ->
  exists w1,
    UserCache.exists_ u check_sync env w
    = (Ok (set_mem string_dec u (users (cache w))), w1)
    /\ cache w1 = cache w
    /\ file w1 = file w.
Proof.
  intros Hf.
  assert (S : forall w', file w' = FForeign fault ->
             UserCache.sync_from_config env w' = (Ok tt, log_event EvLoad w')).
  { intros w' F. unfold UserCache.sync_from_config.
    rewrite try_run, bind_run, (load_foreign env w' fault F). reflexivity. }
  unfold UserCache.exists_. rewrite bind_run.
  destruct check_sync.
  - unfold UserCache.maybe_sync. rewrite bind_run. unfold get_cache at 1.
    destruct (last_sync (cache w)) as [t0|].
    + rewrite bind_run. unfold now, ask at 1.
      destruct (clock env (tick w) - t0 >=? sync_interval (cache w)).
      * rewrite (S (next_tick w) Hf). eexists. split; [reflexivity|]. cbn. auto.
      * eexists. split; [reflexivity|]. cbn. auto.
    + rewrite (S w Hf). eexists. split; [reflexivity|]. cbn. auto.
  - eexists. split; [reflexivity|]. cbn. auto.
Qed.



(* ===================================================================== *)
(** ** One pass of a regenerate *)
(* ===================================================================== *)

(** The filter of a rotation, written on the [id] key itself. *)
Lemma drop_id_spelled (old : string) (l : list Client) :
  drop_id old l
  = filter (fun cl => match c_id cl with
                      | Some x => negb (String.eqb x old)
                      | None => true
                      end) l.
Proof.
  unfold drop_id. apply filter_ext. intros cl.
  unfold has_id, get_eqb. destruct (c_id cl); reflexivity.
Qed.

Lemma drop_id_keeps_others (old : string) (l : list Client) (cl : Client) :
  In cl l -> c_id cl <> Some old -> In cl (drop_id old l).
Proof.
  intros I N. unfold drop_id. apply filter_In. split; [exact I|].
  unfold has_id, get_eqb. destruct (c_id cl) as [x|]; [|reflexivity].
  destruct (String.eqb x old) eqn:E; [|reflexivity].
  apply String.eqb_eq in E. subst x. contradiction.
Qed.

(** A load with working stores, counted in saves and reloads: one of each
    when a migration is pending, none otherwise. *)
Lemma load_step_counts (env : Env) (w : World) (c : Config) :
  store_works env -> file w = FHolds c ->
  exists w0,
    load_xray_config env w = (Ok (migrated c), w0)
    /\ (settled (file w) ->
        count is_save (trace w0) = count is_save (trace w)
        /\ count is_reload (trace w0) = count is_reload (trace w))
    /\ (~ settled (file w) ->
        count is_save (trace w0) = S (count is_save (trace w))
        /\ count is_reload (trace w0) = S (count is_reload (trace w))).
Proof.
  intros HW Hf. rewrite (load_holds env w c Hf). unfold migrated.
  rewrite Hf. cbn [settled].
  destruct (migrate_inbounds (inbounds c)) as [ibs|] eqn:E.
  - unfold migration_result. rewrite <- save_run, (save_works env _ _ HW).
    eexists. split; [reflexivity|]. split; [discriminate|].
    intros _. unfold count. cbn. auto.
  - eexists. split; [reflexivity|]. split; [|intros N; destruct (N eq_refl)].
    intros _. unfold count. cbn. auto.
Qed.

(** A load while validation rejects every candidate: the migrated document
    is returned, the file is left as it is and nothing is saved. *)
Lemma load_rejecting (env : Env) (w : World) (c : Config) :
  (forall t cfg, verdict (docker env t cfg) = false) ->
  file w = FHolds c ->
  exists w0,
    load_xray_config env w = (Ok (migrated c), w0)
    /\ file w0 = file w
    /\ count is_save (trace w0) = count is_save (trace w).
Proof.
  intros HV Hf. rewrite (load_holds env w c Hf). unfold migrated.
  destruct (migrate_inbounds (inbounds c)) as [ibs|] eqn:E.
  - unfold migration_result, save_result. rewrite HV.
    eexists. split; [reflexivity|]. cbn. auto.
  - eexists. split; [reflexivity|]. cbn. auto.
Qed.




(** C10 (as amended).  On a config file holding a configuration with a
    VLESS inbound, a well-formed regenerate request is decided by
    [regenerate_user_via_api] alone: [update_inbound_via_api] answers
    [False], and still the function never answers failure; whenever it
    returns it answers success and has saved the rotated list (the entries
    of the old identifier gone, the new entry at the end), so the handler's
    fallback with its reload call is not reached.  The handler runs no
    reload command of its own, and in a settled state no reload command
    runs at all.  The request does not always succeed: it returns success
    when the stores work and the inbound has settings, and ends in
    [KeyError] when the inbound has no settings, in [ValueError] with the
    file untouched when validation rejects the new configuration. *)
Theorem regenerate_reload_branch_unreachable (env : Env) (w : World)
  (old new : string) (e : option string) (c : Config) (ib : Inbound) :
  old <> "" -> new <> "" ->
  uuid_parses env old = true -> uuid_parses env new = true ->
  file w = FHolds c -> find_vless c = Some ib ->
  let r := receive_command (mkRequest "regenerate_user" (Some new) (Some old) e) env w in
  let rotated :=
    (filter (fun cl => match c_id cl with
                       | Some x => negb (String.eqb x old)
                       | None => true
                       end) (clients_of ib)
     ++ [mkClient (Some new) (Some (email_or_default e new))
                  (Some "xtls-rprx-vision")])%list in
  (forall i t, update_inbound_via_api i t = false)
  /\ (forall s sid w1,
        regenerate_user_via_api old new e env w = (Ok (s, sid), w1) ->
        s = true
        /\ persisted_clients (file w1) = rotated
        /\ exists saved, file w1 = FHolds saved /\ In (EvSave saved) (trace w1))
  /\ r = match regenerate_user_via_api old new e env w with
         | (Ok (_, sid), w1) =>
             (Ok (mkResponse true "User regenerated successfully"
                             (short_id_field sid)), w1)
         | (Raise x, w1) => (Raise x, w1)
         end
  /\ count is_handler_reload (trace (snd r)) = count is_handler_reload (trace w)
  /\ (settled (file w) ->
      count is_reload (trace (snd r)) = count is_reload (trace w))
  /\ (store_works env -> i_settings ib <> None ->
      (exists sid,
         fst r = Ok (mkResponse true "User regenerated successfully" sid))
      /\ persisted_clients (file (snd r)) = rotated
      /\ entries_with_id old (persisted_clients (file (snd r)))
         = (if String.eqb old new then 1%nat else 0%nat))
  /\ (reality_answers env -> i_settings ib = None ->
      fst r = Raise KeyError)
  /\ (reality_answers env -> i_settings ib <> None ->
      (forall t cfg, verdict (docker env t cfg) = false) ->
      fst r = Raise ValueError
      /\ file (snd r) = file w
      /\ count is_save (trace (snd r)) = count is_save (trace w)).
Proof.
  intros Ho Hn Uo Un Hf Hv r rotated.
  set (saved := set_vless_clients (migrated c)
                  (drop_id old (clients_of ib)
                   ++ [vision_client new (email_or_default e new)])%list).
  assert (PS : persisted_clients (FHolds saved) = rotated).
  { destruct (find_vless_migrated c ib Hv) as (ib' & Hv' & _ & _).
    unfold saved. rewrite (persisted_after_assign _ ib' _ Hv').
    unfold rotated. rewrite drop_id_spelled. reflexivity. }
  assert (OK : forall s sid w1,
             regenerate_user_via_api old new e env w = (Ok (s, sid), w1) ->
             s = true /\ file w1 = FHolds saved
             /\ trace w1 = EvCacheAdd new :: EvCacheRemove old :: EvSave saved
                           :: EvValidate true :: trace (snd (load_xray_config env w))).
  { intros s sid w1 E.
    exact (regenerate_via_api_ok env w w1 c ib old new e sid s Hf Hv E). }
  assert (R : r = match regenerate_user_via_api old new e env w with
                  | (Ok (_, sid), w1) =>
                      (Ok (mkResponse true "User regenerated successfully"
                                      (short_id_field sid)), w1)
                  | (Raise x, w1) => (Raise x, w1)
                  end).
  { subst r. rewrite receive_regenerate,
      (handle_regenerate_run env w "regenerate_user" old new e Ho Hn Uo Un).
    destruct (regenerate_user_via_api old new e env w) as [[[s sid]|x] w1] eqn:E;
      [|reflexivity].
    destruct (OK s sid w1 eq_refl) as (-> & _). reflexivity. }
  split; [reflexivity|].
  split.
  { intros s sid w1 E. destruct (OK s sid w1 E) as (A & B & T).
    split; [exact A|]. split; [rewrite B; exact PS|].
    exists saved. split; [exact B|]. rewrite T. cbn. auto. }
  split; [exact R|].
  split.
  { rewrite R.
    pose proof (regenerate_via_api_silent_handler_reload old new e env w) as S.
    destruct (regenerate_user_via_api old new e env w) as [[[s sid]|x] w1];
      exact S. }
  split.
  { intros Hs. rewrite R.
    pose proof (regenerate_via_api_reloads env w old new e) as S.
    destruct (load_counts env w) as (_ & _ & L). rewrite (L Hs) in S.
    destruct (regenerate_user_via_api old new e env w) as [[[s sid]|x] w1];
      exact S. }
  destruct (find_vless_migrated c ib Hv) as (ib' & Hv' & _ & HS).
  split.
  { intros HW Hs. rewrite R.
    destruct (load_works env w c HW Hf) as (w0 & HL & F0 & C0).
    assert (Hs' : i_settings ib' <> None) by (rewrite HS; exact Hs).
    destruct (regenerate_via_api_works env w w0 (migrated c) ib' old new e
                HW HL Hv' Hs') as (ids & w1 & E & F1 & _).
    rewrite (clients_of_settings ib ib' HS) in F1.
    rewrite E. cbn [fst snd]. split; [eauto|].
    fold saved in F1. rewrite F1, PS. split; [reflexivity|].
    unfold rotated. rewrite <- drop_id_spelled, entries_app, drop_id_forgets.
    unfold entries_with_id, has_id. cbn.
    rewrite (String.eqb_sym new old).
    destruct (String.eqb old new); reflexivity. }
  split.
  { intros HR Hs. rewrite R.
    pose proof (load_holds_value env w c Hf) as V.
    assert (E : exists w1,
               regenerate_user_via_api old new e env w = (Raise KeyError, w1)).
    { unfold regenerate_user_via_api. rewrite bind_run.
      destruct (load_xray_config env w) as [lr w0] eqn:HL. cbn in V. subst lr.
      rewrite Hv'. cbv zeta. rewrite bind_run.
      destruct (reality_read env w0 HR) as (ids & RD). rewrite RD.
      rewrite bind_run. unfold require_settings. rewrite HS, Hs.
      eexists. reflexivity. }
    destruct E as (w1 & ->). reflexivity. }
  intros HR Hs HV. rewrite R.
  destruct (load_rejecting env w c HV Hf) as (w0 & HL & F0 & S0).
  assert (E : exists w1,
             regenerate_user_via_api old new e env w = (Raise ValueError, w1)
             /\ file w1 = file w0
             /\ count is_save (trace w1) = count is_save (trace w0)).
  { unfold regenerate_user_via_api. rewrite bind_run, HL, Hv'. cbv zeta.
    rewrite bind_run.
    destruct (reality_read env w0 HR) as (ids & RD). rewrite RD.
    rewrite bind_run. unfold require_settings. rewrite HS.
    destruct (i_settings ib); [|contradiction].
    unfold ret at 1. unfold update_inbound_via_api. cbv iota.
    rewrite bind_run, (save_rejected env _ _ HV).
    eexists. split; [reflexivity|]. unfold count. cbn. auto. }
  destruct E as (w1 & -> & F1 & S1). cbn [fst snd].
  split; [reflexivity|]. split; congruence.
Qed.

(** C10, witness: user A of a two-user config is rotated to X. *)
Lemma regenerate_reload_branch_unreachable_witness :
  let entry := fun u lbl => mkClient (Some u) (Some lbl) (Some "xtls-rprx-vision") in
  let l := [entry Scenario.uA "a"; entry Scenario.uB "b"] in
  let w := Scenario.world_of (FHolds (Scenario.config_of l)) Scenario.new_cache in
  let r := receive_command
             (Scenario.regenerate_request Scenario.uA Scenario.uX (Some "a"))
             Scenario.live_down w in
  count is_handler_reload (trace (snd r)) = 0%nat
  /\ count is_reload (trace (snd r)) = 0%nat
  /\ (exists sid, fst r = Ok (mkResponse true "User regenerated successfully" sid))
  /\ persisted_clients (file (snd r)) = [entry Scenario.uB "b"; entry Scenario.uX "a"].
Proof.
  intros entry l w r.
  destruct (regenerate_reload_branch_unreachable Scenario.live_down w
              Scenario.uA Scenario.uX (Some "a")
              (Scenario.config_of l) (default_vless l))
    as (_ & _ & _ & A & B & C & _).
  - discriminate.
  - discriminate.
  - reflexivity.
  - reflexivity.
  - reflexivity.
  - reflexivity.
  - split; [exact A|]. split; [apply B; reflexivity|].
    destruct C as (E & P & _).
    + repeat split; intros; try discriminate; reflexivity.
    + discriminate.
    + split; [exact E|exact P].
Defined.

(** C10, counterexample.  The config holds a VLESS inbound, [xray -test]
    rejects every candidate: [regenerate_user_via_api] does not return
    success, the request ends in [ValueError] and nothing is saved. *)
Lemma regenerate_fails_when_save_rejected :
  let entry := fun u lbl => mkClient (Some u) (Some lbl) (Some "xtls-rprx-vision") in
  let w := Scenario.world_of (FHolds (Scenario.config_of [entry Scenario.uA "a"]))
             Scenario.new_cache in
  let r := receive_command
             (Scenario.regenerate_request Scenario.uA Scenario.uB (Some "a"))
             Scenario.test_rejects w in
  find_vless (Scenario.config_of [entry Scenario.uA "a"]) <> None
  /\ fst (regenerate_user_via_api Scenario.uA Scenario.uB (Some "a")
            Scenario.test_rejects w) = Raise ValueError
  /\ fst r = Raise ValueError
  /\ count is_save (trace (snd r)) = 0%nat
  /\ persisted_clients (file (snd r)) = [entry Scenario.uA "a"].
Proof.
  vm_compute. repeat split. discriminate.
Qed.

(* ===================================================================== *)
(** ** Two adds in a row *)
(* ===================================================================== *)

(** A load from a file that is ready for an add of [u]: it returns a
    configuration whose first VLESS inbound has settings and carries the
    persisted client list; the file stays ready. *)
Lemma load_ready (env : Env) (w : World) (u : string) :
  store_works env -> file_ready u (file w) ->
  exists cfg ib w0,
    load_xray_config env w = (Ok cfg, w0)
    /\ find_vless cfg = Some ib
    /\ i_settings ib <> None
    /\ clients_of ib = persisted_clients (file w)
    /\ (UserCache.config_lists cfg u = true ->
        existsb (has_id u) (clients_of ib) = true)
    /\ cache w0 = cache w
    /\ file_ready u (file w0)
    /\ persisted_clients (file w0) = persisted_clients (file w).
Proof.
  intros HW (Hshape & Hle). destruct (file w) as [| |c|sf] eqn:Hf;
    try contradiction.
  - rewrite (load_absent env w Hf).
    destruct (default_config_absent env (log_event EvLoad w) (proj1 HW) Hf)
      as (w1 & E & F1 & C1 & _).
    rewrite E. exists (mkConfig [default_vless []; default_api_inbound]),
      (default_vless []), w1.
    cbn [file log_event] in F1. cbn [cache log_event] in C1.
    split; [reflexivity|]. split; [reflexivity|]. split; [discriminate|].
    split; [reflexivity|]. split; [discriminate|]. split; [exact C1|].
    rewrite F1, Hf. split; [split; [exact I|exact Hle]|reflexivity].
  - destruct Hshape as (ib & Hv & Hset & Hoth).
    destruct (load_works env w c HW Hf) as (w0 & HL & F0 & C0).
    destruct (find_vless_migrated c ib Hv) as (ib' & Hv' & _ & HS).
    pose proof (clients_of_settings ib ib' HS) as HC.
    assert (PC : persisted_clients (FHolds c) = clients_of ib)
      by (cbn; rewrite Hv; reflexivity).
    assert (Hoth' : UserCache.config_lists (migrated c) u = true ->
                    existsb (has_id u) (clients_of ib') = true).
    { rewrite migrated_lists, HC. exact Hoth. }
    exists (migrated c), ib', w0.
    split; [exact HL|]. split; [exact Hv'|].
    split; [rewrite HS; exact Hset|]. split; [rewrite HC, PC; reflexivity|].
    split; [exact Hoth'|]. split; [exact C0|].
    rewrite F0, migrated_clients.
    split; [|reflexivity]. split; [|rewrite migrated_clients; exact Hle].
    exists ib'. split; [exact Hv'|]. split; [rewrite HS; exact Hset|exact Hoth'].
Qed.

(** The checked lookup in a ready state: the state stays ready and the
    persisted client list is as before. *)
Lemma exists_ready (env : Env) (w : World) (u : string) :
  store_works env -> add_ready u w ->
  exists w0,
    UserCache.exists_ u true env w
    = (Ok (set_mem string_dec u (users (cache w0))), w0)
    /\ add_ready u w0
    /\ persisted_clients (file w0) = persisted_clients (file w).
Proof.
  intros HW (Hfile & Hreg).
  assert (S : forall w', file w' = file w ->
             exists w0,
               UserCache.sync_from_config env w' = (Ok tt, w0)
               /\ add_ready u w0
               /\ persisted_clients (file w0) = persisted_clients (file w)).
  { intros w' F.
    assert (Hfile' : file_ready u (file w')) by (rewrite F; exact Hfile).
    destruct (load_ready env w' u HW Hfile')
      as (cfg & ib & w1 & HL & Hv & _ & HC & Hoth & _ & FR & P1).
    rewrite F in HC, P1.
    unfold UserCache.sync_from_config. rewrite try_run, bind_run, HL.
    cbv zeta. unfold get_cache, now, ask, put_cache, emit, bind.
    eexists. split; [reflexivity|].
    split; [|exact P1]. split; [exact FR|].
    intros M. change (existsb (has_id u) (persisted_clients (file w1)) = true).
    rewrite P1, <- HC. apply Hoth.
    exact (synced_ids_are_listed u cfg M). }
  unfold UserCache.exists_. rewrite bind_run. unfold UserCache.maybe_sync.
  rewrite bind_run. unfold get_cache at 1.
  destruct (last_sync (cache w)) as [t0|].
  - rewrite bind_run. unfold now, ask at 1.
    destruct (clock env (tick w) - t0 >=? sync_interval (cache w)).
    + destruct (S (next_tick w) eq_refl) as (w0 & E & A & P). rewrite E.
      exists w0. split; [reflexivity|]. auto.
    + eexists. split; [reflexivity|]. cbn. split; [|reflexivity].
      split; assumption.
  - destruct (S w eq_refl) as (w0 & E & A & P). rewrite E.
    exists w0. split; [reflexivity|]. auto.
Qed.

(** The merge of an add for an identifier that the loaded client list does
    not hold, with working stores, on the live path or on the fallback. *)
Lemma add_merge_run (env : Env) (w w0 : World) (cfg : Config) (ib : Inbound)
  (u : string) (e : option string) :
  store_works env ->
  load_xray_config env w = (Ok cfg, w0) ->
  find_vless cfg = Some ib -> i_settings ib <> None ->
  existsb (has_id u) (clients_of ib) = false ->
  let merged := (drop_label_conflicts (email_or_default e u) u
                   (drop_label_conflicts (email_or_default e u) u (clients_of ib))
                 ++ [vision_client u (email_or_default e u)])%list in
  exists g w1,
    add_user_via_api u e env w = (Ok (true, g), w1)
    /\ file w1 = FHolds (set_vless_clients cfg merged)
    /\ users (cache w1) = set_add string_dec u (users (cache w0)).
Proof.
  intros HW HL Hv Hset Ha merged.
  unfold add_user_via_api. rewrite bind_run, HL, Hv. cbv zeta. rewrite Ha.
  rewrite bind_run.
  destruct (reality_read env w0 (proj1 HW)) as (ids & R).
  rewrite R. rewrite bind_run. unfold require_settings.
  destruct (i_settings ib); [|contradiction].
  unfold ret at 1. rewrite bind_run, is_available_run.
  assert (T : forall w' (g : bool),
             cache w' = cache w0 ->
             exists w1,
               bind (save_xray_config (set_vless_clients cfg merged) true)
                    (fun _ => bind (UserCache.add u) (fun _ => ret (true, g))) env w'
               = (Ok (true, g), w1)
               /\ file w1 = FHolds (set_vless_clients cfg merged)
               /\ users (cache w1) = set_add string_dec u (users (cache w0))).
  { intros w' g C. rewrite bind_run, (save_works env w' _ HW).
    eexists. split; [reflexivity|]. cbn. rewrite C. auto. }
  assert (Pick : forall (g : bool) w',
             cache w' = cache w0 ->
             exists g' w1,
               bind (save_xray_config (set_vless_clients cfg merged) true)
                    (fun _ => bind (UserCache.add u) (fun _ => ret (true, g))) env w'
               = (Ok (true, g'), w1)
               /\ file w1 = FHolds (set_vless_clients cfg merged)
               /\ users (cache w1) = set_add string_dec u (users (cache w0))).
  { intros g w' C. destruct (T w' g C) as (w1 & E & A). exists g, w1. auto. }
  destruct (proto_available env).
  - rewrite bind_run.
    destruct (probe_ok _).
    + rewrite grpc_add_run.
      destruct (live_client_ready env).
      * destruct (rpc_ok _); apply Pick; reflexivity.
      * apply Pick. reflexivity.
    + unfold ret at 1. apply Pick. reflexivity.
  - rewrite bind_run. unfold ret at 1. apply Pick. reflexivity.
Qed.

(** One add request in a ready state: it succeeds and leaves a ready state
    whose persisted client list holds exactly one entry for the identifier. *)
Lemma add_step (env : Env) (w : World) (u : string) (old e : option string) :
  u <> "" -> uuid_parses env u = true ->
  store_works env -> reload_works env ->
  add_ready u w ->
  exists sid w',
    receive_command (mkRequest "add_user" (Some u) old e) env w
    = (Ok (mkResponse true "Command add_user executed successfully" sid), w')
    /\ add_ready u w'
    /\ entries_with_id u (persisted_clients (file w')) = 1%nat.
Proof.
  intros Hne Hu HW HR Hready.
  rewrite (receive_add env w u old e Hne Hu).
  enough (H : exists sid w',
             handle_add u (mkRequest "add_user" (Some u) old e) env w
             = (Ok (true, sid), w')
             /\ add_ready u w'
             /\ entries_with_id u (persisted_clients (file w')) = 1%nat).
  { destruct H as (sid & w' & E & A & B). rewrite E. eauto. }
  destruct (exists_ready env w u HW Hready) as (w0 & E & R0 & P0).
  assert (One : forall f, file_ready u f ->
             existsb (has_id u) (persisted_clients f) = true ->
             entries_with_id u (persisted_clients f) = 1%nat).
  { intros f (_ & Hle) Hin. pose proof (entries_positive u _ Hin). lia. }
  unfold handle_add. rewrite bind_run, E.
  destruct (set_mem string_dec u (users (cache w0))) eqn:B.
  - (* served from the registry *)
    cbv iota beta. rewrite bind_run, bind_run.
    destruct (reality_read env w0 (proj1 HW)) as (ids & R). rewrite R.
    unfold ret at 1. cbv iota beta. rewrite bind_run.
    destruct (reality_read env (next_tick w0) (proj1 HW)) as (ids2 & R2). rewrite R2.
    cbv iota beta. rewrite bind_run.
    unfold UserCache.exists_. rewrite bind_run. unfold ret at 1.
    rewrite bind_run. unfold get_cache at 1. unfold ret at 1.
    cbn [cache next_tick]. rewrite B. cbn [negb]. unfold ret.
    eexists. eexists. split; [reflexivity|]. cbn [file next_tick].
    split; [exact R0|]. apply One; [exact (proj1 R0)|].
    apply (proj2 R0). exact B.
  - cbv iota beta. cbn [email]. rewrite bind_run.
    destruct (load_ready env w0 u HW (proj1 R0))
      as (cfg & ib & w1 & HL & Hv & Hset & HC & Hoth & C1 & FR1 & P1).
    destruct (existsb (has_id u) (clients_of ib)) eqn:Ha.
    + (* listed by the config, unknown to the registry: reload *)
      unfold add_user_via_api. rewrite bind_run, HL, Hv. cbv zeta.
      rewrite Ha. unfold ret at 1. cbv iota beta. rewrite bind_run.
      destruct (reality_read env w1 (proj1 HW)) as (ids & R).
      rewrite R. cbv iota beta. rewrite bind_run.
      unfold UserCache.exists_. rewrite bind_run. unfold ret at 1.
      rewrite bind_run. unfold get_cache at 1. unfold ret at 1.
      cbn [cache next_tick]. rewrite C1, B. cbn [negb].
      rewrite bind_run, reload_run. rewrite (HR _). unfold ret.
      eexists. eexists. split; [reflexivity|].
      cbn [file cache log_event next_tick].
      split; [split; [exact FR1|]|].
      * intros M. change (set_mem string_dec u (users (cache w1)) = true) in M.
        rewrite C1, B in M. discriminate.
      * change (entries_with_id u (persisted_clients (file w1)) = 1%nat).
        apply One; [exact FR1|]. rewrite P1, <- HC. exact Ha.
    + (* merged into the config *)
      destruct (add_merge_run env w0 w1 cfg ib u e HW HL Hv Hset Ha)
        as (g & w2 & EA & F2 & U2).
      assert (M2 : set_mem string_dec u (users (cache w2)) = true).
      { rewrite U2. apply set_mem_correct2, set_add_intro2. reflexivity. }
      assert (P2 : persisted_clients (file w2)
                   = (drop_label_conflicts (email_or_default e u) u
                        (drop_label_conflicts (email_or_default e u) u (clients_of ib))
                      ++ [vision_client u (email_or_default e u)])%list).
      { rewrite F2. apply (persisted_after_assign cfg ib _ Hv). }
      assert (Ready : forall w', file w' = file w2 -> cache w' = cache w2 ->
                add_ready u w'
                /\ entries_with_id u (persisted_clients (file w')) = 1%nat).
      { intros w' F C.
        assert (N : entries_with_id u (persisted_clients (file w')) = 1%nat).
        { rewrite F, P2. apply (merged_entries u _ _ Ha). }
        split; [|exact N]. split; [split|].
        - rewrite F, F2. eexists.
          split; [apply first_vless_assign; exact Hv|].
          split; [discriminate|].
          intros _. unfold clients_of, with_clients. cbn [i_settings clients].
          apply existsb_app_last.
        - rewrite N. lia.
        - intros _. rewrite F, P2. apply existsb_app_last. }
      rewrite EA. cbv iota beta. rewrite bind_run.
      destruct (reality_read env w2 (proj1 HW)) as (ids & R). rewrite R.
      cbv iota beta.
      destruct g.
      * unfold ret. eexists. eexists. split; [reflexivity|].
        apply Ready; reflexivity.
      * rewrite bind_run. unfold UserCache.exists_. rewrite bind_run.
        unfold ret at 1. rewrite bind_run. unfold get_cache at 1. unfold ret at 1.
        cbn [cache next_tick]. rewrite M2. cbn [negb]. unfold ret.
        eexists. eexists. split; [reflexivity|].
        apply Ready; reflexivity.
Qed.

(** C8 (as amended).  Let the stores and the reload command work.  Let the
    config file be absent, or hold a configuration, settled or not, whose
    first VLESS inbound has settings, at most one entry for [u], and lists
    [u] if any VLESS inbound does; and let the registry list [u] only if the
    persisted client list does.  Then two add_user requests for [u] in a
    row both return success and the persisted client list ends with exactly
    one entry whose id is [u]. *)
Theorem add_twice_one_entry (env : Env) (w : World) (u : string)
  (old1 e1 old2 e2 : option string) :
  u <> "" -> uuid_parses env u = true ->
  store_works env -> reload_works env ->
  add_ready u w ->
  let r := serve [mkRequest "add_user" (Some u) old1 e1;
                  mkRequest "add_user" (Some u) old2 e2] env w in
  (exists sid1 sid2,
      fst r = [Ok (mkResponse true "Command add_user executed successfully" sid1);
               Ok (mkResponse true "Command add_user executed successfully" sid2)])
  /\ entries_with_id u (persisted_clients (file (snd r))) = 1%nat.
Proof.
  intros Hne Hu HW HR Hready r. subst r.
  destruct (add_step env w u old1 e1 Hne Hu HW HR Hready) as (sid1 & w1 & E1 & R1 & _).
  destruct (add_step env w1 u old2 e2 Hne Hu HW HR R1) as (sid2 & w2 & E2 & _ & N2).
  cbn [serve]. rewrite E1, E2. cbn [fst snd].
  split; [eauto|exact N2].
Qed.

(** C8, witness: two adds of a new identifier while the config file is
    absent and the registry has never been synced. *)
Lemma add_twice_one_entry_witness :
  let w := Scenario.world_of FAbsent Scenario.new_cache in
  let r := serve [Scenario.add_request Scenario.uA (Some "u1");
                  Scenario.add_request Scenario.uA (Some "u1")]
                 Scenario.live_down w in
  (exists sid1 sid2,
      fst r = [Ok (mkResponse true "Command add_user executed successfully" sid1);
               Ok (mkResponse true "Command add_user executed successfully" sid2)])
  /\ entries_with_id Scenario.uA (persisted_clients (file (snd r))) = 1%nat.
Proof.
  intros w.
  apply (add_twice_one_entry Scenario.live_down w Scenario.uA None (Some "u1")
           None (Some "u1")).
  - discriminate.
  - reflexivity.
  - repeat split; intros; try discriminate; reflexivity.
  - intros t. reflexivity.
  - split; [split; [exact I|cbn; lia]|discriminate].
Defined.

(** The same on a file with a pending migration: a VLESS inbound with the
    obsolete [maxTimeDiff] 300 and one other user. *)
Lemma add_twice_on_unsettled_file :
  let old_vless := mkInbound (Some "vless") (Some "vless")
                     (Some (mkSettings (Some [Scenario.client Scenario.uB "u2"])))
                     (Some 300) in
  let w := Scenario.world_of (FHolds (mkConfig [old_vless; default_api_inbound]))
             Scenario.new_cache in
  add_ready Scenario.uA w
  /\ ~ settled (file w)
  /\ entries_with_id Scenario.uA
       (persisted_clients
          (file (snd (serve [Scenario.add_request Scenario.uA (Some "u1");
                             Scenario.add_request Scenario.uA (Some "u1")]
                            Scenario.live_down w)))) = 1%nat.
Proof.
  intros old_vless w. split; [|split].
  - split; [split|discriminate].
    + exists old_vless. split; [reflexivity|]. split; [discriminate|].
      intros H. vm_compute in H. discriminate.
    + cbn. lia.
  - cbn. discriminate.
  - vm_compute. reflexivity.
Qed.
